(** * Hospital bed occupancy: the simulation engines and their KPIs

    A shallow embedding of the two discrete-event simulations of the
    repository,

    - [Dashboard]: [run_hospital_simulation] of [simulation.py], the engine
      behind the dashboard (one staff pool, a bed counter, three scenarios,
      the KPI computation);
    - [Script]: [assets/simulation.py], the stand-alone workload-dependent
      run (a bed pool and a senior and a junior staff pool, raced with
      [senior_req | junior_req]);

    over a model of the part of the SimPy kernel they use ([SimPy]) and of
    NumPy's global random generator ([Generator]).

    Conventions.  Python floats (simulated minutes, durations, rates) are
    exact rationals [Q]; [np.nan] is [None] in an [option Q].  Python
    generators are turned into explicit continuations: a suspended process
    is the event it waits for, and the event carries the locals the
    process needs when it is resumed.  [print] calls are left out. *)

From Stdlib Require Import List ZArith QArith Qminmax String Bool Lia Lqa.
From Stdlib Require Import Permutation Sorted.
Import ListNotations.
Local Open Scope string_scope.
Local Open Scope list_scope.
Local Open Scope Z_scope.
Local Open Scope Q_scope.

(** ** Exceptions and results *)

Inductive exn : Type :=
| ValueError (msg : string)
| ZeroDivisionError
| KeyError (key : string).

Inductive result (A : Type) : Type :=
| Ok (a : A)
| Raise (e : exn).
Arguments Ok {A} a.
Arguments Raise {A} e.

Definition bind {A B : Type} (r : result A) (k : A -> result B) : result B :=
  match r with
  | Ok a => k a
  | Raise e => Raise e
  end.

Notation "x <- r ;; k" := (bind r (fun x => k))
  (at level 61, r at next level, right associativity).
Notation "' p <- r ;; k" := (bind r (fun x => let p := x in k))
  (at level 61, p pattern, r at next level, right associativity).

(** ** NumPy's global random generator

    [np.random.seed], [np.random.rand] and [np.random.exponential] act on
    one hidden global state.  The state is threaded explicitly here; the
    bit generator itself is a parameter. *)

Record Generator : Type := {
  rng_state : Type;
  (** [np.random.seed(s)] *)
  seed : Z -> rng_state;
  (** one uniform variate of [[0, 1)] *)
  random_sample : rng_state -> Q * rng_state;
  (** one variate of the exponential distribution of mean 1 *)
  standard_exponential : rng_state -> Q * rng_state
}.

Section Numpy.
Context {G : Generator}.

(** [np.random.rand()] *)
Definition np_random_rand (g : rng_state G) : Q * rng_state G :=
  random_sample G g.

(** [np.random.exponential(scale)]: a negative scale is a [ValueError],
    otherwise the standard variate is scaled. *)
Definition np_random_exponential (scale : Q) (g : rng_state G)
  : result (Q * rng_state G) :=
  if Qlt_le_dec scale 0 then Raise (ValueError "scale < 0")
  else let '(x, g') := standard_exponential G g in Ok (scale * x, g').
End Numpy.

(** A generator that replays a script of variates, for running the models
    on concrete inputs.  Once the script is used up every variate is 1. *)
Definition scripted (script : list Q) : Generator := {|
  rng_state := list Q;
  seed := fun _ => script;
  random_sample := fun g => match g with [] => (1, []) | x :: g' => (x, g') end;
  standard_exponential :=
    fun g => match g with [] => (1, []) | x :: g' => (x, g') end
|}.

(** ** The SimPy kernel

    The environment's heap of scheduled events and the [Resource] pools,
    as far as the two programs use them.  An event is represented by what
    its callbacks do when it fires.  Two kinds of callbacks do nothing
    here and are left out: an event without callbacks (the event of a
    process that has returned) is not put on the heap, and the
    [_trigger_get] callback of a request event always finds the queue of
    release events empty, a release being served the moment it is
    created.  Entries keep their [eid], so the order of the remaining
    events is the one SimPy gives them. *)

Module SimPy.

Definition URGENT : Z := 0%Z.
Definition NORMAL : Z := 1%Z.

Section Kernel.
(** What firing an event does (its callbacks) is the payload [E]. *)
Context {E : Type}.

(** An entry of the environment's heap: [(time, priority, eid, event)]. *)
Record entry : Type := {
  e_time : Q;
  e_prio : Z;
  e_eid : Z;
  e_event : E
}.

(** Tuple comparison of the heap keys. *)
Definition before (a b : entry) : bool :=
  match e_time a ?= e_time b with
  | Lt => true
  | Gt => false
  | Eq =>
      match (e_prio a ?= e_prio b)%Z with
      | Lt => true
      | Gt => false
      | Eq => (e_eid a <? e_eid b)%Z
      end
  end.

(** The heap is kept as the sorted list of its entries. *)
Fixpoint heappush (x : entry) (q : list entry) : list entry :=
  match q with
  | [] => [x]
  | y :: q' => if before x y then x :: q else y :: heappush x q'
  end.

Record Environment : Type := {
  now : Q;
  eid : Z;
  queue : list entry
}.

(** [simpy.Environment()] *)
Definition Environment_init : Environment :=
  {| now := 0; eid := 0%Z; queue := [] |}.

(** [env.schedule(event, priority, delay)] *)
Definition schedule (env : Environment) (event : E) (priority : Z)
           (delay : Q) : Environment :=
  {| now := now env;
     eid := (eid env + 1)%Z;
     queue := heappush {| e_time := now env + delay; e_prio := priority;
                          e_eid := eid env; e_event := event |}
                       (queue env) |}.

(** [env.timeout(delay)]: a negative delay is a [ValueError]. *)
Definition timeout (env : Environment) (event : E) (delay : Q)
  : result Environment :=
  if Qlt_le_dec delay 0 then Raise (ValueError "Negative delay")
  else Ok (schedule env event NORMAL delay).

(** The first half of [env.step()]: pop the earliest entry and move the
    clock to its time.  [None] is [EmptySchedule]. *)
Definition pop (env : Environment) : option (E * Environment) :=
  match queue env with
  | [] => None
  | x :: q => Some (e_event x,
                    {| now := e_time x; eid := eid env; queue := q |})
  end.
End Kernel.
Arguments entry : clear implicits.
Arguments Environment : clear implicits.

Section Resources.
(** A request is identified by the payload [R] it carries. *)
Context {R : Type}.

Record Resource : Type := {
  capacity : Z;
  users : list R;
  put_queue : list R
}.

(** [simpy.Resource(env, capacity)] *)
Definition Resource_init (cap : Z) : result Resource :=
  if (cap <=? 0)%Z then Raise (ValueError "capacity must be > 0")
  else Ok {| capacity := cap; users := []; put_queue := [] |}.

(** [resource.count] *)
Definition count (res : Resource) : Z := Z.of_nat (List.length (users res)).

(** [BaseResource._trigger_put] with [Resource._do_put]: [_do_put]
    returns [None], so the loop looks at the head of the queue only.
    The head becomes a user when a unit is free; the caller schedules
    the request event that [succeed()] triggers. *)
Definition trigger_put (res : Resource) : Resource * option R :=
  match put_queue res with
  | [] => (res, None)
  | r :: rest =>
      if (count res <? capacity res)%Z
      then ({| capacity := capacity res; users := users res ++ [r];
               put_queue := rest |}, Some r)
      else (res, None)
  end.

(** [resource.request()]: [Put.__init__] appends the request to the
    queue and calls [_trigger_put]. *)
Definition request (res : Resource) (r : R) : Resource * option R :=
  trigger_put {| capacity := capacity res; users := users res;
                 put_queue := put_queue res ++ [r] |}.

(** [list.remove], by the identity test [same]; a missing element is
    the [ValueError] that [_do_get] swallows. *)
Fixpoint list_remove (same : R -> bool) (l : list R) : list R :=
  match l with
  | [] => []
  | x :: l' => if same x then l' else x :: list_remove same l'
  end.

(** [resource.release(request)]: [Get.__init__] calls [_trigger_get],
    whose [_do_get] removes the request from the users at once.  The
    [Release] event it triggers is scheduled by the caller; firing it
    runs [_trigger_put]. *)
Definition release (res : Resource) (same : R -> bool) : Resource :=
  {| capacity := capacity res; users := list_remove same (users res);
     put_queue := put_queue res |}.
End Resources.
Arguments Resource : clear implicits.

End SimPy.

(** Python's [/] on numbers: division by zero raises. *)
Definition py_div (a b : Q) : result Q :=
  if Qeq_bool b 0 then Raise ZeroDivisionError else Ok (a / b).

(** [needle in s], which is what [str.contains] does for a pattern without
    regular-expression operators. *)
Fixpoint str_contains (needle s : string) : bool :=
  orb (String.prefix needle s)
      match s with
      | EmptyString => false
      | String _ s' => str_contains needle s'
      end.

(** ** The dashboard engine: [simulation.py] *)

Module Dashboard.
Import SimPy.

Definition RANDOM_SEED : Z := 42.
Definition MINS_IN_DAY : Q := 24 * 60.

(** The [params] dictionary. *)
Record Params : Type := {
  scenario : string;
  arrival_rate : Q;
  num_beds : Z;
  num_staff : Z;
  simulation_duration : Q;
  senior_staff_mix : Q;
  senior_service_days : Q;
  junior_service_days : Q;
  workload_factor_alpha : Q
}.

(** A dictionary appended to [patient_log].  [PatientID] is the number
    [k] of the name [f'P{k}']. *)
Record Row : Type := {
  PatientID : Z;
  ArrivalTime : Q;
  WaitTime : option Q;
  TreatmentTime : option Q;
  TotalTime : option Q;
  Status : string;
  TreatedBy : string
}.

(** The staff request of a patient, with the locals ([name],
    [arrival_time]) of the patient process that waits for it. *)
Record Request : Type := {
  req_name : Z;
  req_arrival_time : Q
}.

Definition same_request (a b : Request) : bool :=
  (req_name a =? req_name b)%Z.

(** The events of a run, each with the continuation of the process that
    it resumes. *)
Inductive Event : Type :=
| Initialize_source
    (* start of [patient_source] *)
| Initialize_patient (name : Z)
    (* start of [hospital.patient(name)] *)
| Until
    (* the stop event of [env.run(until=...)] *)
| Timeout_source (patient_id : Z) (interarrival_time_mins : Q)
    (* [yield env.timeout(...)] of [patient_source] *)
| Request_granted (req : Request)
    (* [yield req] of [patient] *)
| Timeout_treatment (req : Request) (wait_time treatment_time : Q)
    (* [yield self.env.timeout(treatment_time)] of [patient] *)
| Release.
    (* the release event; its callback is [staff._trigger_put] *)

Section Engine.
Context {G : Generator}.

(** The [Hospital] object together with the environment and the state
    of the random generator. *)
Record Hospital : Type := {
  env : Environment Event;
  rng : rng_state G;
  params : Params;
  staff : Resource Request;
  bed_capacity : Z;
  beds_in_use : Z;
  patient_log : list Row;
  occupancy_log : list (Q * Z)
}.

Definition set_env (h : Hospital) (e : Environment Event) : Hospital :=
  {| env := e; rng := rng h; params := params h; staff := staff h;
     bed_capacity := bed_capacity h; beds_in_use := beds_in_use h;
     patient_log := patient_log h; occupancy_log := occupancy_log h |}.

Definition set_rng (h : Hospital) (g : rng_state G) : Hospital :=
  {| env := env h; rng := g; params := params h; staff := staff h;
     bed_capacity := bed_capacity h; beds_in_use := beds_in_use h;
     patient_log := patient_log h; occupancy_log := occupancy_log h |}.

Definition set_staff (h : Hospital) (s : Resource Request) : Hospital :=
  {| env := env h; rng := rng h; params := params h; staff := s;
     bed_capacity := bed_capacity h; beds_in_use := beds_in_use h;
     patient_log := patient_log h; occupancy_log := occupancy_log h |}.

Definition set_beds_in_use (h : Hospital) (n : Z) : Hospital :=
  {| env := env h; rng := rng h; params := params h; staff := staff h;
     bed_capacity := bed_capacity h; beds_in_use := n;
     patient_log := patient_log h; occupancy_log := occupancy_log h |}.

Definition patient_log_append (h : Hospital) (r : Row) : Hospital :=
  {| env := env h; rng := rng h; params := params h; staff := staff h;
     bed_capacity := bed_capacity h; beds_in_use := beds_in_use h;
     patient_log := patient_log h ++ [r];
     occupancy_log := occupancy_log h |}.

Definition occupancy_log_append (h : Hospital) (s : Q * Z) : Hospital :=
  {| env := env h; rng := rng h; params := params h; staff := staff h;
     bed_capacity := bed_capacity h; beds_in_use := beds_in_use h;
     patient_log := patient_log h;
     occupancy_log := occupancy_log h ++ [s] |}.

(** [Hospital.__init__] *)
Definition Hospital_init (e : Environment Event) (g : rng_state G)
           (p : Params) : result Hospital :=
  s <- Resource_init (num_staff p) ;;
  Ok {| env := e; rng := g; params := p; staff := s;
        bed_capacity := num_beds p; beds_in_use := 0%Z;
        patient_log := []; occupancy_log := [] |}.

(** [np.random.exponential(scale)] on the hospital's generator. *)
Definition exponential (h : Hospital) (scale : Q) : result (Q * Hospital) :=
  '(x, g) <- np_random_exponential scale (rng h) ;;
  Ok (x, set_rng h g).

(** [Hospital.get_treatment_time] *)
Definition get_treatment_time (h : Hospital) : result (Q * Hospital) :=
  let p := params h in
  if (scenario p =? "Baseline Model (Homogeneous Staff)")%string then
    let base_service_mins := senior_service_days p * MINS_IN_DAY in
    exponential h base_service_mins
  else if (scenario p =? "Experience-Based Model (Heterogeneous Staff)")%string then
    let '(u, g) := np_random_rand (rng h) in
    let h := set_rng h g in
    let service_mins :=
      if Qlt_le_dec u (senior_staff_mix p / 100)
      then senior_service_days p * MINS_IN_DAY
      else junior_service_days p * MINS_IN_DAY in
    exponential h service_mins
  else if (scenario p =? "Workload-Dependent Model (Dynamic Service Rates)")%string then
    let base_service_mins := senior_service_days p * MINS_IN_DAY in
    patients_per_staff <-
      py_div (inject_Z (count (staff h))) (inject_Z (num_staff p)) ;;
    let workload_factor :=
      if Qlt_le_dec (workload_factor_alpha p) patients_per_staff
      then 1 + (patients_per_staff - workload_factor_alpha p)
      else 1 in
    exponential h (base_service_mins * workload_factor)
  else Ok (0, h).

(** [self.staff.request()]: the request joins the queue and the head of
    the queue is served if a unit is free. *)
Definition staff_request (h : Hospital) (req : Request) : Hospital :=
  let '(s, granted) := request (staff h) req in
  let h := set_staff h s in
  match granted with
  | Some r => set_env h (schedule (env h) (Request_granted r) NORMAL 0)
  | None => h
  end.

(** [staff._trigger_put], the callback of a release event. *)
Definition staff_trigger_put (h : Hospital) : Hospital :=
  let '(s, granted) := trigger_put (staff h) in
  let h := set_staff h s in
  match granted with
  | Some r => set_env h (schedule (env h) (Request_granted r) NORMAL 0)
  | None => h
  end.

(** [Hospital.patient], up to [yield req]. *)
Definition patient (h : Hospital) (name : Z) : Hospital :=
  let arrival_time := now (env h) in
  if (beds_in_use h >=? bed_capacity h)%Z then
    patient_log_append h
      {| PatientID := name; ArrivalTime := arrival_time;
         WaitTime := None; TreatmentTime := None; TotalTime := None;
         Status := "Balked (No Beds)"; TreatedBy := "N/A" |}
  else
    let h := set_beds_in_use h (beds_in_use h + 1) in
    let h := occupancy_log_append h (now (env h), beds_in_use h) in
    staff_request h {| req_name := name; req_arrival_time := arrival_time |}.

(** [Hospital.patient], from [yield req] to
    [yield self.env.timeout(treatment_time)]. *)
Definition patient_staffed (h : Hospital) (req : Request)
  : result Hospital :=
  let wait_time := now (env h) - req_arrival_time req in
  '(treatment_time, h) <- get_treatment_time h ;;
  e <- timeout (env h) (Timeout_treatment req wait_time treatment_time)
               treatment_time ;;
  Ok (set_env h e).

(** [Hospital.patient], after the treatment: the discharge and the exit
    of the [with] block, which releases the staff request. *)
Definition patient_treated (h : Hospital) (req : Request)
           (wait_time treatment_time : Q) : Hospital :=
  let h := set_beds_in_use h (beds_in_use h - 1) in
  let h := occupancy_log_append h (now (env h), beds_in_use h) in
  let h := patient_log_append h
      {| PatientID := req_name req; ArrivalTime := req_arrival_time req;
         WaitTime := Some wait_time;
         TreatmentTime := Some treatment_time;
         TotalTime := Some (now (env h) - req_arrival_time req);
         Status := "Discharged"; TreatedBy := "Staff" |} in
  let h := set_staff h (release (staff h) (same_request req)) in
  set_env h (schedule (env h) Release NORMAL 0).

(** [patient_source]: one turn of the loop, up to its [yield]. *)
Definition patient_source_wait (h : Hospital) (patient_id : Z)
           (interarrival_time_mins : Q) : result Hospital :=
  '(d, h) <- exponential h interarrival_time_mins ;;
  e <- timeout (env h) (Timeout_source patient_id interarrival_time_mins) d ;;
  Ok (set_env h e).

(** [patient_source], from its start. *)
Definition patient_source (h : Hospital) : result Hospital :=
  let patient_id := 0%Z in
  interarrival_time_mins <- py_div MINS_IN_DAY (arrival_rate (params h)) ;;
  patient_source_wait h patient_id interarrival_time_mins.

(** [patient_source], resumed after its timeout. *)
Definition patient_source_resume (h : Hospital) (patient_id : Z)
           (interarrival_time_mins : Q) : result Hospital :=
  let patient_id := (patient_id + 1)%Z in
  let h := set_env h (schedule (env h) (Initialize_patient patient_id)
                               URGENT 0) in
  patient_source_wait h patient_id interarrival_time_mins.

(** [env.step()] *)
Inductive Step : Type :=
| Continue (h : Hospital)
| StopSimulation (h : Hospital)
| EmptySchedule (h : Hospital)
| Raised (e : exn).

Definition continue (r : result Hospital) : Step :=
  match r with
  | Ok h => Continue h
  | Raise e => Raised e
  end.

Definition step (h : Hospital) : Step :=
  match pop (env h) with
  | None => EmptySchedule h
  | Some (event, e) =>
      let h := set_env h e in
      match event with
      | Until => StopSimulation h
      | Initialize_source => continue (patient_source h)
      | Initialize_patient name => Continue (patient h name)
      | Timeout_source patient_id mins =>
          continue (patient_source_resume h patient_id mins)
      | Request_granted req => continue (patient_staffed h req)
      | Timeout_treatment req wait_time treatment_time =>
          Continue (patient_treated h req wait_time treatment_time)
      | Release => Continue (staff_trigger_put h)
      end
  end.

(** The loop of [env.run]; [fuel] bounds the number of events. *)
Inductive Outcome : Type :=
| Finished (h : Hospital)
| Failed (e : exn)
| OutOfFuel (h : Hospital).

Fixpoint run_loop (fuel : nat) (h : Hospital) : Outcome :=
  match fuel with
  | O => OutOfFuel h
  | S fuel' =>
      match step h with
      | Continue h' => run_loop fuel' h'
      | StopSimulation h' => Finished h'
      | EmptySchedule h' => Finished h'
      | Raised e => Failed e
      end
  end.

(** [env.run(until=at)] *)
Definition env_run (fuel : nat) (h : Hospital) (at_ : Q) : Outcome :=
  if Qle_bool at_ (now (env h))
  then Failed (ValueError "until must be > the current simulation time")
  else run_loop fuel
         (set_env h (schedule (env h) Until URGENT (at_ - now (env h)))).

(** The simulation set-up and run of [run_hospital_simulation].  The
    generator state [g0] is what earlier code left behind; the run
    begins by seeding the generator. *)
Definition simulate (fuel : nat) (p : Params) (g0 : rng_state G)
  : Outcome :=
  let g := seed G RANDOM_SEED in
  let e := Environment_init in
  match Hospital_init e g p with
  | Raise ex => Failed ex
  | Ok hospital_ward =>
      let h := set_env hospital_ward
                 (schedule (env hospital_ward) Initialize_source URGENT 0) in
      env_run fuel h (simulation_duration p * MINS_IN_DAY)
  end.
End Engine.
Arguments Hospital : clear implicits.
Arguments Step : clear implicits.
Arguments Outcome : clear implicits.

(** *** Results: the data frames and the KPIs *)

(** [pd.DataFrame(records)]: the columns are the keys of the records, so
    a frame built from no record has no column. *)
Record DataFrame : Type := {
  columns : list string;
  rows : list Row
}.

Definition Row_keys : list string :=
  ["PatientID"; "ArrivalTime"; "WaitTime"; "TreatmentTime"; "TotalTime";
   "Status"; "TreatedBy"].

Definition DataFrame_of_records (records : list Row) : DataFrame :=
  {| columns := match records with [] => [] | _ :: _ => Row_keys end;
     rows := records |}.

(** [col in df.columns] *)
Definition has_column (df : DataFrame) (col : string) : bool :=
  existsb (String.eqb col) (columns df).

(** [df.empty]: some axis has length 0. *)
Definition empty (df : DataFrame) : bool :=
  match columns df, rows df with
  | _ :: _, _ :: _ => false
  | _, _ => true
  end.

(** [x / MINS_IN_DAY] on a column value; NaN stays NaN. *)
Definition to_days (x : option Q) : option Q :=
  option_map (fun m => m / MINS_IN_DAY) x.

(** The loop [for col in ['WaitTime', 'TreatmentTime', 'TotalTime']]. *)
Definition convert_to_days (df : DataFrame) : DataFrame :=
  {| columns := columns df;
     rows :=
       map (fun r =>
              {| PatientID := PatientID r; ArrivalTime := ArrivalTime r;
                 WaitTime := if has_column df "WaitTime"
                             then to_days (WaitTime r) else WaitTime r;
                 TreatmentTime := if has_column df "TreatmentTime"
                                  then to_days (TreatmentTime r)
                                  else TreatmentTime r;
                 TotalTime := if has_column df "TotalTime"
                              then to_days (TotalTime r) else TotalTime r;
                 Status := Status r; TreatedBy := TreatedBy r |})
           (rows df) |}.

Definition notna (x : option Q) : bool :=
  match x with Some _ => true | None => false end.

(** [df.dropna(subset=['WaitTime'])]: a label of [subset] that is not a
    column is a [KeyError]. *)
Definition dropna_WaitTime (df : DataFrame) : result DataFrame :=
  if has_column df "WaitTime"
  then Ok {| columns := columns df;
             rows := filter (fun r => notna (WaitTime r)) (rows df) |}
  else Raise (KeyError "WaitTime").

(** [Series.mean()]: NaN values are skipped; NaN when nothing is left. *)
Definition sumQ (l : list Q) : Q := fold_left Qplus l 0.

Fixpoint values (l : list (option Q)) : list Q :=
  match l with
  | [] => []
  | Some x :: l' => x :: values l'
  | None :: l' => values l'
  end.

Definition mean (l : list (option Q)) : option Q :=
  match values l with
  | [] => None
  | v => Some (sumQ v / inject_Z (Z.of_nat (List.length v)))
  end.

(** [df['Status'].str.contains('Balked').sum()] *)
Definition count_balked (df : DataFrame) : Z :=
  Z.of_nat (List.length
              (filter (fun r => str_contains "Balked" (Status r)) (rows df))).

(** The [kpis] dictionary; a missing float is NaN. *)
Record KPIs : Type := {
  Blocking_Probability : Q;               (* 'Blocking Probability (%)' *)
  Average_Wait_for_Staff : option Q;      (* 'Average Wait for Staff (days)' *)
  Average_Patient_Length_of_Stay : option Q;
                           (* 'Average Patient Length of Stay (days)' *)
  Total_Patients_Served : Z;              (* 'Total Patients Served' *)
  Average_Bed_Occupancy : Q               (* 'Average Bed Occupancy (%)' *)
}.

(** The loop over [occupancy_df.iterrows()], with its two accumulators. *)
Fixpoint patient_minutes (samples : list (Q * Z))
         (total_patient_minutes last_time : Q) : Q :=
  match samples with
  | [] => total_patient_minutes
  | (time, patients_in_system) :: rest =>
      patient_minutes rest
        (total_patient_minutes
           + inject_Z patients_in_system * (time - last_time))
        time
  end.

(** 'Average Bed Occupancy (%)' *)
Definition average_bed_occupancy (p : Params) (occupancy : list (Q * Z)) : Q :=
  match occupancy with
  | _ :: _ =>
      let total_patient_minutes := patient_minutes occupancy 0 0 in
      let total_minutes := simulation_duration p * MINS_IN_DAY in
      let avg_patients :=
        if Qlt_le_dec 0 total_minutes
        then total_patient_minutes / total_minutes else 0 in
      if (0 <? num_beds p)%Z
      then avg_patients / inject_Z (num_beds p) * 100 else 0
  | [] => 0
  end.

Record Results : Type := {
  kpis : KPIs;
  patient_log_df : DataFrame;
  occupancy_df : list (Q * Z)
}.

(** The part of [run_hospital_simulation] that follows [env.run]. *)
Definition process_results (p : Params) (log : list Row)
           (occupancy : list (Q * Z)) : result Results :=
  let patient_log_df := convert_to_days (DataFrame_of_records log) in
  let occupancy_df := occupancy in
  let total_arrivals := Z.of_nat (List.length (rows patient_log_df)) in
  let blocking :=
    if (0 <? total_arrivals)%Z
    then inject_Z (count_balked patient_log_df) / inject_Z total_arrivals * 100
    else 0 in
  treated_df <- dropna_WaitTime patient_log_df ;;
  let '(wait, stay, served) :=
    if negb (empty treated_df)
    then (mean (map WaitTime (rows treated_df)),
          mean (map TotalTime (rows treated_df)),
          Z.of_nat (List.length (rows treated_df)))
    else (Some 0, Some 0, 0%Z) in
  Ok {| kpis := {| Blocking_Probability := blocking;
                   Average_Wait_for_Staff := wait;
                   Average_Patient_Length_of_Stay := stay;
                   Total_Patients_Served := served;
                   Average_Bed_Occupancy :=
                     average_bed_occupancy p occupancy_df |};
        patient_log_df := patient_log_df;
        occupancy_df := occupancy_df |}.

(** [run_hospital_simulation(params)].  [None]: the event loop did not
    end within [fuel] events. *)
Definition run_hospital_simulation {G : Generator} (fuel : nat)
           (p : Params) (g0 : rng_state G) : option (result Results) :=
  match simulate fuel p g0 with
  | OutOfFuel _ => None
  | Failed e => Some (Raise e)
  | Finished h => Some (process_results p (patient_log h) (occupancy_log h))
  end.

End Dashboard.

(** Python's [min(a, b)]: [b] when [b < a], else [a]. *)
Definition py_min (a b : Q) : Q :=
  if Qlt_le_dec b a then b else a.

(** ** The stand-alone run: [assets/simulation.py] *)

Module Script.
Import SimPy.

(** The input parameters at the head of the script. *)
Record Constants : Type := {
  SIM_TIME_MINUTES : Q;
  PATIENT_ARRIVAL_RATE : Q;
  AVG_TREATMENT_TIME_SENIOR_MINUTES : Q;
  AVG_TREATMENT_TIME_JUNIOR_MINUTES : Q;
  NUM_SENIOR_STAFF : Z;
  NUM_JUNIOR_STAFF : Z;
  NUM_BEDS : Z;
  ALPHA : Q
}.

Definition RANDOM_SEED : Z := 42.

(** The values the script gives them. *)
Definition script_constants : Constants := {|
  SIM_TIME_MINUTES := 7 * 24 * 60;
  PATIENT_ARRIVAL_RATE := 6 / (24 * 60);
  AVG_TREATMENT_TIME_SENIOR_MINUTES := (5 # 2) * 24 * 60;
  AVG_TREATMENT_TIME_JUNIOR_MINUTES := (7 # 2) * 24 * 60;
  NUM_SENIOR_STAFF := 7;
  NUM_JUNIOR_STAFF := 8;
  NUM_BEDS := 20;
  ALPHA := 1
|}.

Inductive Staff : Type := Senior | Junior.

Inductive Pool : Type := Beds | Staff_senior | Staff_junior.

Definition pool_of (s : Staff) : Pool :=
  match s with Senior => Staff_senior | Junior => Staff_junior end.

(** A dictionary appended to [patient_log]; the record of a balked
    patient has the first two keys and [status] only. *)
Record Row : Type := {
  name : Z;
  arrival_time : Q;
  waited_for_bed : option Q;
  waited_for_staff : option Q;
  treatment_duration : option Q;
  staff_type : option Staff;
  status : string
}.

(** The bed request of a patient, with the locals of its process. *)
Record BedRequest : Type := {
  bed_name : Z;
  bed_arrival_time : Q
}.

(** A patient suspended at [result = yield senior_req | junior_req]: its
    locals, and the state of the condition event and of its two
    requests. *)
Record Race : Type := {
  race_arrival_time : Q;
  race_bed_assign_time : Q;
  senior_processed : bool;   (* [senior_req.callbacks is None] *)
  junior_processed : bool;   (* [junior_req.callbacks is None] *)
  triggered : bool;          (* the condition has a value *)
  built : bool               (* the condition has fired: [_build_value]
                                took [_check] off the requests *)
}.

Inductive Event : Type :=
| Initialize_generator
| Initialize_patient (name : Z)
| Until
| Timeout_generator (patient_id : Z)
| Bed_request (req : BedRequest)
    (* [yield bed_req] *)
| Staff_request (s : Staff) (name : Z)
    (* [senior_req] or [junior_req] of patient [name], granted *)
| Condition (name : Z)
    (* [senior_req | junior_req] of patient [name] *)
| Timeout_treatment (name : Z)
    (arrival_time bed_assign_time staff_assign_time : Q) (staff_type : Staff)
    (* [yield env.timeout(treatment_duration)] *)
| Release (pool : Pool).
    (* a release event; its callback is the pool's [_trigger_put] *)

Fixpoint race_get (name : Z) (t : list (Z * Race)) : option Race :=
  match t with
  | [] => None
  | (k, r) :: t' => if (k =? name)%Z then Some r else race_get name t'
  end.

Fixpoint race_set (name : Z) (r : Race) (t : list (Z * Race))
  : list (Z * Race) :=
  match t with
  | [] => [(name, r)]
  | (k, r0) :: t' =>
      if (k =? name)%Z then (k, r) :: t' else (k, r0) :: race_set name r t'
  end.

Section Engine.
Context {G : Generator} (C : Constants).

(** The globals of the script: [env], the [hospital] dictionary,
    [patient_log], the generator state, and the patients that race for
    staff. *)
Record World : Type := {
  env : Environment Event;
  rng : rng_state G;
  beds : Resource BedRequest;
  staff_senior : Resource Z;
  staff_junior : Resource Z;
  races : list (Z * Race);
  patient_log : list Row
}.

Definition set_env (w : World) (e : Environment Event) : World :=
  {| env := e; rng := rng w; beds := beds w;
     staff_senior := staff_senior w; staff_junior := staff_junior w;
     races := races w; patient_log := patient_log w |}.

Definition set_rng (w : World) (g : rng_state G) : World :=
  {| env := env w; rng := g; beds := beds w;
     staff_senior := staff_senior w; staff_junior := staff_junior w;
     races := races w; patient_log := patient_log w |}.

Definition set_beds (w : World) (b : Resource BedRequest) : World :=
  {| env := env w; rng := rng w; beds := b;
     staff_senior := staff_senior w; staff_junior := staff_junior w;
     races := races w; patient_log := patient_log w |}.

Definition staff (w : World) (s : Staff) : Resource Z :=
  match s with Senior => staff_senior w | Junior => staff_junior w end.

Definition set_staff (w : World) (s : Staff) (r : Resource Z) : World :=
  {| env := env w; rng := rng w; beds := beds w;
     staff_senior := match s with Senior => r | Junior => staff_senior w end;
     staff_junior := match s with Senior => staff_junior w | Junior => r end;
     races := races w; patient_log := patient_log w |}.

Definition set_race (w : World) (name : Z) (r : Race) : World :=
  {| env := env w; rng := rng w; beds := beds w;
     staff_senior := staff_senior w; staff_junior := staff_junior w;
     races := race_set name r (races w); patient_log := patient_log w |}.

Definition patient_log_append (w : World) (r : Row) : World :=
  {| env := env w; rng := rng w; beds := beds w;
     staff_senior := staff_senior w; staff_junior := staff_junior w;
     races := races w; patient_log := patient_log w ++ [r] |}.

Definition succeed (w : World) (event : Event) : World :=
  set_env w (schedule (env w) event NORMAL 0).

(** [hospital['beds'].request()] *)
Definition beds_request (w : World) (req : BedRequest) : World :=
  let '(b, granted) := request (beds w) req in
  let w := set_beds w b in
  match granted with
  | Some r => succeed w (Bed_request r)
  | None => w
  end.

(** [hospital['staff_senior'].request()] and the junior one. *)
Definition staff_request (w : World) (s : Staff) (name : Z) : World :=
  let '(r, granted) := request (staff w s) name in
  let w := set_staff w s r in
  match granted with
  | Some n => succeed w (Staff_request s n)
  | None => w
  end.

(** [_trigger_put] of a pool, the callback of its release events. *)
Definition trigger_put_pool (w : World) (pool : Pool) : World :=
  match pool with
  | Beds =>
      let '(b, granted) := trigger_put (beds w) in
      let w := set_beds w b in
      match granted with
      | Some r => succeed w (Bed_request r)
      | None => w
      end
  | Staff_senior =>
      let '(r, granted) := trigger_put (staff_senior w) in
      let w := set_staff w Senior r in
      match granted with
      | Some n => succeed w (Staff_request Senior n)
      | None => w
      end
  | Staff_junior =>
      let '(r, granted) := trigger_put (staff_junior w) in
      let w := set_staff w Junior r in
      match granted with
      | Some n => succeed w (Staff_request Junior n)
      | None => w
      end
  end.

(** [patient], up to [yield bed_req]. *)
Definition patient (w : World) (name : Z) : World :=
  let arrival_time := now (env w) in
  if (count (beds w) >=? capacity (beds w))%Z then
    patient_log_append w
      {| name := name; arrival_time := arrival_time;
         waited_for_bed := None; waited_for_staff := None;
         treatment_duration := None; staff_type := None;
         status := "Balked" |}
  else
    beds_request w {| bed_name := name; bed_arrival_time := arrival_time |}.

(** [patient], from [yield bed_req] to
    [yield senior_req | junior_req]: both requests are issued, and the
    condition waits for the first of them to fire. *)
Definition patient_bedded (w : World) (req : BedRequest) : World :=
  let bed_assign_time := now (env w) in
  let w := staff_request w Senior (bed_name req) in
  let w := staff_request w Junior (bed_name req) in
  set_race w (bed_name req)
    {| race_arrival_time := bed_arrival_time req;
       race_bed_assign_time := bed_assign_time;
       senior_processed := false; junior_processed := false;
       triggered := false; built := false |}.

(** A granted staff request fires.  Its callbacks are the pool's
    [_trigger_get], which finds nothing to do, and the condition's
    [_check] while the condition has not fired: the first check
    triggers the condition, later ones return at once. *)
Definition staff_request_fired (w : World) (s : Staff) (name : Z) : World :=
  match race_get name (races w) with
  | None => w
  | Some r =>
      let r' :=
        {| race_arrival_time := race_arrival_time r;
           race_bed_assign_time := race_bed_assign_time r;
           senior_processed :=
             match s with Senior => true | Junior => senior_processed r end;
           junior_processed :=
             match s with Senior => junior_processed r | Junior => true end;
           triggered := orb (triggered r) (negb (built r));
           built := built r |} in
      let w := set_race w name r' in
      if orb (built r) (triggered r) then w
      else succeed w (Condition name)
  end.

(** [mu_actual] of the workload degradation logic. *)
Definition mu_actual (w : World) (mu_ideal : Q) : result Q :=
  let n := count (beds w) in
  let s := (NUM_SENIOR_STAFF C + NUM_JUNIOR_STAFF C)%Z in
  let n := if (n =? 0)%Z then 1%Z else n in
  ratio <- py_div (ALPHA C * inject_Z s) (inject_Z n) ;;
  Ok (mu_ideal * py_min 1 ratio).

(** [mu_ideal] of a staff type. *)
Definition mu_ideal_of (s : Staff) : result Q :=
  match s with
  | Senior => py_div 1 (AVG_TREATMENT_TIME_SENIOR_MINUTES C)
  | Junior => py_div 1 (AVG_TREATMENT_TIME_JUNIOR_MINUTES C)
  end.

(** The condition fires: [_build_value] collects the requests that
    have fired and takes [_check] off the others, and [patient] goes on
    from [result = yield ...] to [yield env.timeout(...)]. *)
Definition patient_assigned (w : World) (name : Z) : result World :=
  match race_get name (races w) with
  | None => Ok w
  | Some r =>
      let w := set_race w name
        {| race_arrival_time := race_arrival_time r;
           race_bed_assign_time := race_bed_assign_time r;
           senior_processed := senior_processed r;
           junior_processed := junior_processed r;
           triggered := triggered r; built := true |} in
      let staff_assign_time := now (env w) in
      let staff_type := if senior_processed r then Senior else Junior in
      mu_ideal <- mu_ideal_of staff_type ;;
      mu <- mu_actual w mu_ideal ;;
      scale <- py_div 1 mu ;;
      '(duration, g) <- np_random_exponential scale (rng w) ;;
      let w := set_rng w g in
      e <- timeout (env w)
             (Timeout_treatment name (race_arrival_time r)
                (race_bed_assign_time r) staff_assign_time staff_type)
             duration ;;
      Ok (set_env w e)
  end.

(** [patient], after the treatment: the chosen staff request is
    released, the record is logged, and the exit of the [with] block
    releases the bed. *)
Definition patient_treated (w : World) (name : Z)
           (arrival_time bed_assign_time staff_assign_time : Q)
           (staff_type : Staff) : World :=
  let w := set_staff w staff_type
             (release (staff w staff_type) (Z.eqb name)) in
  let w := succeed w (Release (pool_of staff_type)) in
  let treatment_end_time := now (env w) in
  let w := patient_log_append w
      {| name := name; arrival_time := arrival_time;
         waited_for_bed := Some (bed_assign_time - arrival_time);
         waited_for_staff := Some (staff_assign_time - bed_assign_time);
         treatment_duration := Some (treatment_end_time - staff_assign_time);
         staff_type := Some staff_type; status := "Discharged" |} in
  let w := set_beds w
             (release (beds w) (fun r => (bed_name r =? name)%Z)) in
  succeed w (Release Beds).

(** [patient_generator]: one turn of the loop, up to its [yield]. *)
Definition patient_generator (w : World) (patient_id : Z) : result World :=
  scale <- py_div 1 (PATIENT_ARRIVAL_RATE C) ;;
  '(d, g) <- np_random_exponential scale (rng w) ;;
  let w := set_rng w g in
  e <- timeout (env w) (Timeout_generator patient_id) d ;;
  Ok (set_env w e).

(** [patient_generator], resumed after its timeout. *)
Definition patient_generator_resume (w : World) (patient_id : Z)
  : result World :=
  let patient_id := (patient_id + 1)%Z in
  let w := set_env w (schedule (env w) (Initialize_patient patient_id)
                               URGENT 0) in
  patient_generator w patient_id.

(** [env.step()] *)
Inductive Step : Type :=
| Continue (w : World)
| StopSimulation (w : World)
| EmptySchedule (w : World)
| Raised (e : exn).

Definition continue (r : result World) : Step :=
  match r with
  | Ok w => Continue w
  | Raise e => Raised e
  end.

Definition step (w : World) : Step :=
  match pop (env w) with
  | None => EmptySchedule w
  | Some (event, e) =>
      let w := set_env w e in
      match event with
      | Until => StopSimulation w
      | Initialize_generator => continue (patient_generator w 0)
      | Initialize_patient name => Continue (patient w name)
      | Timeout_generator patient_id =>
          continue (patient_generator_resume w patient_id)
      | Bed_request req => Continue (patient_bedded w req)
      | Staff_request s name => Continue (staff_request_fired w s name)
      | Condition name => continue (patient_assigned w name)
      | Timeout_treatment name arrival_time bed_assign_time
                          staff_assign_time staff_type =>
          Continue (patient_treated w name arrival_time bed_assign_time
                                    staff_assign_time staff_type)
      | Release pool => Continue (trigger_put_pool w pool)
      end
  end.

Inductive Outcome : Type :=
| Finished (w : World)
| Failed (e : exn)
| OutOfFuel (w : World).

Fixpoint run_loop (fuel : nat) (w : World) : Outcome :=
  match fuel with
  | O => OutOfFuel w
  | S fuel' =>
      match step w with
      | Continue w' => run_loop fuel' w'
      | StopSimulation w' => Finished w'
      | EmptySchedule w' => Finished w'
      | Raised e => Failed e
      end
  end.

(** [env.run(until=at)] *)
Definition env_run (fuel : nat) (w : World) (at_ : Q) : Outcome :=
  if Qle_bool at_ (now (env w))
  then Failed (ValueError "until must be > the current simulation time")
  else run_loop fuel
         (set_env w (schedule (env w) Until URGENT (at_ - now (env w)))).

(** The set-up and run of the script, from [np.random.seed] to
    [env.run]. *)
Definition main (fuel : nat) (g0 : rng_state G) : Outcome :=
  let g := seed G RANDOM_SEED in
  let e := Environment_init in
  match (b <- Resource_init (NUM_BEDS C) ;;
         s <- Resource_init (NUM_SENIOR_STAFF C) ;;
         j <- Resource_init (NUM_JUNIOR_STAFF C) ;;
         Ok (b, s, j)) with
  | Raise ex => Failed ex
  | Ok (b, s, j) =>
      let w := {| env := schedule e Initialize_generator URGENT 0;
                  rng := g; beds := b; staff_senior := s;
                  staff_junior := j; races := []; patient_log := [] |} in
      env_run fuel w (SIM_TIME_MINUTES C)
  end.
End Engine.
Arguments World : clear implicits.
Arguments Step : clear implicits.
Arguments Outcome : clear implicits.

End Script.

(** * Properties *)

(** ** Kernel lemmas *)

Module SimPyFacts.
Import SimPy.

Section Weight.
Context {E : Type} (f : E -> Z).

(** The number of queued events of a kind, [f] being its indicator. *)
Fixpoint weight (q : list (entry E)) : Z :=
  match q with
  | [] => 0%Z
  | x :: q' => (f (e_event x) + weight q')%Z
  end.

Lemma weight_heappush x q :
  weight (heappush x q) = (f (e_event x) + weight q)%Z.
Proof.
  induction q as [|y q IH]; simpl; [reflexivity|].
  destruct (before x y); simpl; [reflexivity|].
  rewrite IH. lia.
Qed.

Lemma weight_schedule env ev prio delay :
  weight (queue (schedule env ev prio delay))
  = (f ev + weight (queue env))%Z.
Proof. unfold schedule; simpl. apply weight_heappush. Qed.

Lemma weight_timeout env ev delay env' :
  timeout env ev delay = Ok env' ->
  weight (queue env') = (f ev + weight (queue env))%Z.
Proof.
  unfold timeout. destruct (Qlt_le_dec delay 0); [discriminate|].
  intros [= <-]. apply weight_schedule.
Qed.

Lemma weight_pop env ev env' :
  pop env = Some (ev, env') ->
  weight (queue env) = (f ev + weight (queue env'))%Z.
Proof.
  unfold pop. destruct (queue env) as [|x q] eqn:Hq; [discriminate|].
  intros [= <- <-]. reflexivity.
Qed.
End Weight.

Lemma In_heappush {E} (x y : entry E) q :
  In y (heappush x q) <-> y = x \/ In y q.
Proof.
  induction q as [|z q IH]; simpl.
  - intuition congruence.
  - destruct (before x z); simpl; [intuition congruence|].
    rewrite IH. intuition.
Qed.

End SimPyFacts.


(** ** The dashboard engine: occupancy invariants *)

Module DashboardFacts.
Import SimPy SimPyFacts Dashboard.

(** Events that resume a patient who holds a bed. *)
Definition in_care (ev : Event) : Z :=
  match ev with
  | Request_granted _ | Timeout_treatment _ _ _ => 1%Z
  | _ => 0%Z
  end.

(** The count of the last sample, 0 before the first one. *)
Definition last_count (log : list (Q * Z)) : Z :=
  fold_left (fun _ s => snd s) log 0%Z.

(** Each count is one more or one less than the count before it, [prev]
    being the count before the first sample. *)
Fixpoint steps_by_one (prev : Z) (log : list (Q * Z)) : Prop :=
  match log with
  | [] => True
  | (_, n) :: log' => (n = prev + 1 \/ n = prev - 1)%Z /\ steps_by_one n log'
  end.

Definition within (cap : Z) (s : Q * Z) : Prop := (0 <= snd s <= cap)%Z.

Definition balked (r : Row) : Prop :=
  Status r = "Balked (No Beds)" /\ WaitTime r = None /\
  TreatmentTime r = None /\ TotalTime r = None /\ TreatedBy r = "N/A".

Section Invariant.
Context {G : Generator}.

(** Patients that hold a bed: those waiting in the staff queue and those
    whose next event is in the heap. *)
Definition admitted (h : Hospital G) : Z :=
  (weight in_care (queue (env h))
   + Z.of_nat (List.length (put_queue (staff h))))%Z.

Record invariant (cap : Z) (h : Hospital G) : Prop := {
  inv_capacity : bed_capacity h = cap;
  inv_admitted : beds_in_use h = admitted h;
  inv_room : (beds_in_use h <= Z.max 0 cap)%Z;
  inv_last : last_count (occupancy_log h) = beds_in_use h;
  inv_within : Forall (within cap) (occupancy_log h);
  inv_steps : steps_by_one 0 (occupancy_log h);
  inv_balked : (cap <= 0)%Z -> Forall balked (patient_log h)
}.

Lemma last_count_app log s : last_count (log ++ [s]) = snd s.
Proof. unfold last_count. rewrite fold_left_app. reflexivity. Qed.

Lemma steps_by_one_app prev log s :
  steps_by_one prev log ->
  (snd s = fold_left (fun _ x => snd x) log prev + 1
   \/ snd s = fold_left (fun _ x => snd x) log prev - 1)%Z ->
  steps_by_one prev (log ++ [s]).
Proof.
  revert prev. induction log as [|[t n] log IH]; intros prev; simpl.
  - destruct s as [t n]; simpl. tauto.
  - intros [H1 H2] H3. split; [exact H1|]. apply IH; assumption.
Qed.

Lemma weight_nonneg (q : list (entry Event)) : (0 <= weight in_care q)%Z.
Proof.
  induction q as [|x q IH]; [simpl; lia|].
  change (0 <= in_care (e_event x) + weight in_care q)%Z.
  destruct (e_event x); cbn [in_care]; lia.
Qed.

Lemma admitted_care h ev e :
  pop (env h) = Some (ev, e) ->
  admitted h = (in_care ev + admitted (set_env h e))%Z.
Proof.
  intros Hp. unfold admitted; simpl.
  rewrite (weight_pop in_care _ _ _ Hp). lia.
Qed.

Lemma admitted_nonneg h : (0 <= admitted h)%Z.
Proof. unfold admitted. pose proof (weight_nonneg (queue (env h))). lia. Qed.

(** The two ways a request reaches the heap. *)
Lemma admitted_staff_trigger_put h :
  admitted (staff_trigger_put h) = admitted h.
Proof.
  unfold staff_trigger_put, trigger_put, admitted.
  destruct (put_queue (staff h)) as [|r rest] eqn:Hq;
    [cbn -[Z.of_nat]; rewrite Hq; reflexivity|].
  destruct (count (staff h) <? capacity (staff h))%Z; cbn -[Z.of_nat weight].
  - rewrite weight_heappush. cbn [e_event in_care List.length].
    rewrite Nat2Z.inj_succ. lia.
  - rewrite Hq. reflexivity.
Qed.

Lemma admitted_staff_request h req :
  admitted (staff_request h req) = (admitted h + 1)%Z.
Proof.
  unfold staff_request, request, trigger_put, admitted; cbn -[Z.of_nat weight].
  destruct (put_queue (staff h) ++ [req]) as [|r rest] eqn:Hq.
  - destruct (put_queue (staff h)); discriminate.
  - assert (Hl : List.length (put_queue (staff h) ++ [req]) = S (List.length rest))
      by (rewrite Hq; reflexivity).
    rewrite length_app in Hl; cbn [List.length] in Hl.
    destruct (count _ <? _)%Z; cbn -[Z.of_nat weight].
    + rewrite weight_heappush. cbn [e_event in_care]. lia.
    + lia.
Qed.

(** [moved d h h']: from [h] to [h'] the ward is untouched, but for [d]
    more patients holding a bed on the event side. *)
Definition moved (d : Z) (h h' : Hospital G) : Prop :=
  bed_capacity h' = bed_capacity h /\ beds_in_use h' = beds_in_use h /\
  occupancy_log h' = occupancy_log h /\ patient_log h' = patient_log h /\
  admitted h' = (admitted h + d)%Z.

Lemma moved_pop h ev e :
  pop (env h) = Some (ev, e) -> moved (- in_care ev) h (set_env h e).
Proof.
  intros Hp. unfold moved. cbn [bed_capacity beds_in_use occupancy_log
    patient_log set_env]. repeat split.
  rewrite (admitted_care h ev e Hp). lia.
Qed.

Lemma moved_trans d1 d2 h1 h2 h3 :
  moved d1 h1 h2 -> moved d2 h2 h3 -> moved (d1 + d2) h1 h3.
Proof.
  unfold moved. intros (A1 & A2 & A3 & A4 & A5) (B1 & B2 & B3 & B4 & B5).
  repeat split; try congruence. lia.
Qed.

Lemma moved_invariant cap h h' :
  invariant cap h -> moved 0 h h' -> invariant cap h'.
Proof.
  intros [I1 I2 I3 I4 I5 I6 I7] (A1 & A2 & A3 & A4 & A5).
  split; rewrite ?A1, ?A2, ?A3, ?A4, ?A5; try assumption. lia.
Qed.

Lemma moved_exponential h scale x h' :
  exponential h scale = Ok (x, h') -> moved 0 h h'.
Proof.
  unfold exponential, np_random_exponential, bind.
  destruct (Qlt_le_dec scale 0); [discriminate|].
  destruct (standard_exponential G (rng h)) as [y g].
  intros [= <- <-]. unfold moved, admitted; cbn. repeat split. lia.
Qed.

Lemma moved_get_treatment_time h x h' :
  get_treatment_time h = Ok (x, h') -> moved 0 h h'.
Proof.
  unfold get_treatment_time.
  destruct (scenario (params h) =? _)%string; [apply moved_exponential|].
  destruct (scenario (params h) =? _)%string.
  { destruct (np_random_rand (rng h)) as [u g]. intros H.
    apply moved_exponential in H.
    replace 0%Z with (0 + 0)%Z by reflexivity.
    refine (moved_trans _ _ _ _ _ _ H).
    unfold moved, admitted; cbn. repeat split. lia. }
  destruct (scenario (params h) =? _)%string.
  { unfold bind at 1. destruct (py_div _ _); [|discriminate].
    apply moved_exponential. }
  intros [= <- <-]. unfold moved. repeat split. lia.
Qed.

Lemma moved_timeout h ev delay e :
  timeout (env h) ev delay = Ok e -> moved (in_care ev) h (set_env h e).
Proof.
  intros H. unfold moved, admitted.
  cbn [bed_capacity beds_in_use occupancy_log patient_log set_env env staff].
  rewrite (weight_timeout in_care _ _ _ _ H). repeat split. lia.
Qed.

Lemma moved_schedule h ev prio delay :
  moved (in_care ev) h (set_env h (schedule (env h) ev prio delay)).
Proof.
  unfold moved, admitted.
  cbn [bed_capacity beds_in_use occupancy_log patient_log set_env env staff].
  rewrite weight_schedule. repeat split. lia.
Qed.

Lemma moved_patient_source_wait h patient_id mins h' :
  patient_source_wait h patient_id mins = Ok h' -> moved 0 h h'.
Proof.
  unfold patient_source_wait, bind.
  destruct (exponential h mins) as [[d h1]|] eqn:He; [|discriminate].
  destruct (timeout (env h1) _ d) as [e|] eqn:Ht; [|discriminate].
  intros [= <-]. apply moved_exponential in He. apply moved_timeout in Ht.
  exact (moved_trans _ _ _ _ _ He Ht).
Qed.

Lemma moved_patient_source h h' :
  patient_source h = Ok h' -> moved 0 h h'.
Proof.
  unfold patient_source, bind. destruct (py_div _ _); [|discriminate].
  apply moved_patient_source_wait.
Qed.

Lemma moved_patient_source_resume h patient_id mins h' :
  patient_source_resume h patient_id mins = Ok h' -> moved 0 h h'.
Proof.
  unfold patient_source_resume. intros H.
  apply moved_patient_source_wait in H.
  exact (moved_trans _ _ _ _ _
           (moved_schedule h (Initialize_patient (patient_id + 1)) URGENT 0) H).
Qed.

Lemma moved_patient_staffed h req h' :
  patient_staffed h req = Ok h' -> moved 1 h h'.
Proof.
  unfold patient_staffed, bind.
  destruct (get_treatment_time h) as [[x h1]|] eqn:Hg; [|discriminate].
  destruct (timeout (env h1) _ x) as [e|] eqn:Ht; [|discriminate].
  intros [= <-]. apply moved_get_treatment_time in Hg.
  apply moved_timeout in Ht. exact (moved_trans _ _ _ _ _ Hg Ht).
Qed.

Lemma moved_staff_trigger_put h : moved 0 h (staff_trigger_put h).
Proof.
  unfold moved. rewrite admitted_staff_trigger_put.
  unfold staff_trigger_put.
  destruct (trigger_put (staff h)) as [s [r|]]; cbn; repeat split; lia.
Qed.

(** The ward fields across a staff request. *)
Lemma staff_request_ward (h : Hospital G) req :
  bed_capacity (staff_request h req) = bed_capacity h /\
  beds_in_use (staff_request h req) = beds_in_use h /\
  occupancy_log (staff_request h req) = occupancy_log h /\
  patient_log (staff_request h req) = patient_log h.
Proof.
  unfold staff_request.
  destruct (request (staff h) req) as [s [r|]]; cbn; repeat split.
Qed.

(** An arrival keeps the invariant, whether it balks or takes a bed. *)
Lemma invariant_patient cap (h : Hospital G) name :
  invariant cap h -> invariant cap (patient h name).
Proof.
  intros [I1 I2 I3 I4 I5 I6 I7]. unfold patient.
  destruct (beds_in_use h >=? bed_capacity h)%Z eqn:Hfull.
  - split; cbn; try assumption.
    intros Hc. apply Forall_app. split; [auto|].
    constructor; [|constructor]. repeat split.
  - pose proof (admitted_nonneg h) as Hn.
    assert (Hlt : (beds_in_use h < cap)%Z) by lia.
    set (h1 := occupancy_log_append _ _).
    destruct (staff_request_ward h1 {| req_name := name;
                req_arrival_time := now (env h) |}) as (A1 & A2 & A3 & A4).
    split; rewrite ?A1, ?A2, ?A3, ?A4; subst h1; cbn.
    + assumption.
    + rewrite admitted_staff_request. unfold admitted; cbn.
      unfold admitted in *. lia.
    + lia.
    + apply last_count_app.
    + apply Forall_app. split; [assumption|].
      constructor; [|constructor]. unfold within; cbn. lia.
    + apply steps_by_one_app; [assumption|]. cbn.
      fold (last_count (occupancy_log h)). lia.
    + intros Hc. lia.
Qed.

(** A discharge keeps the invariant: the patient that leaves was counted
    in [h0], before its event was popped. *)
Lemma invariant_patient_treated cap (h0 h : Hospital G) req wait_time
      treatment_time :
  invariant cap h0 -> moved (-1) h0 h ->
  invariant cap (patient_treated h req wait_time treatment_time).
Proof.
  intros [I1 I2 I3 I4 I5 I6 I7] (A1 & A2 & A3 & A4 & A5).
  pose proof (admitted_nonneg h) as Hn.
  unfold patient_treated. split; cbn; rewrite ?A1, ?A2, ?A3, ?A4.
  - assumption.
  - unfold admitted; cbn. rewrite weight_heappush; cbn [e_event in_care].
    unfold admitted in *. lia.
  - lia.
  - apply last_count_app.
  - apply Forall_app. split; [assumption|].
    constructor; [|constructor]. unfold within; cbn. lia.
  - apply steps_by_one_app; [assumption|]. cbn.
    fold (last_count (occupancy_log h0)). lia.
  - intros Hc. lia.
Qed.

(** One event keeps the invariant, however the step ends. *)
Definition after_step (s : Step G) : option (Hospital G) :=
  match s with
  | Continue h | StopSimulation h | EmptySchedule h => Some h
  | Raised _ => None
  end.

Lemma invariant_step cap (h h' : Hospital G) :
  invariant cap h -> after_step (step h) = Some h' -> invariant cap h'.
Proof.
  intros I. unfold step.
  destruct (pop (env h)) as [[ev e]|] eqn:Hp; [|intros [= <-]; exact I].
  pose proof (moved_pop h ev e Hp) as Hm.
  destruct ev; cbn [in_care] in Hm; cbn [after_step continue].
  - destruct (patient_source _) as [h1|] eqn:H1; intros [= <-].
    apply moved_patient_source in H1.
    exact (moved_invariant _ _ _ I (moved_trans _ _ _ _ _ Hm H1)).
  - intros [= <-]. apply invariant_patient.
    exact (moved_invariant _ _ _ I Hm).
  - intros [= <-]. exact (moved_invariant _ _ _ I Hm).
  - destruct (patient_source_resume _ _ _) as [h1|] eqn:H1; intros [= <-].
    apply moved_patient_source_resume in H1.
    exact (moved_invariant _ _ _ I (moved_trans _ _ _ _ _ Hm H1)).
  - destruct (patient_staffed _ _) as [h1|] eqn:H1; intros [= <-].
    apply moved_patient_staffed in H1.
    exact (moved_invariant _ _ _ I (moved_trans _ _ _ _ _ Hm H1)).
  - intros [= <-]. exact (invariant_patient_treated _ _ _ _ _ _ I Hm).
  - intros [= <-].
    exact (moved_invariant _ _ _ I
             (moved_trans _ _ _ _ _ Hm (moved_staff_trigger_put _))).
Qed.

Definition after_run (o : Outcome G) : option (Hospital G) :=
  match o with
  | Finished h | OutOfFuel h => Some h
  | Failed _ => None
  end.

(** What every event keeps, the event loop keeps. *)
Lemma run_loop_keeps (P : Hospital G -> Prop) :
  (forall h h', P h -> after_step (step h) = Some h' -> P h') ->
  forall fuel h h', P h -> after_run (run_loop fuel h) = Some h' -> P h'.
Proof.
  intros Hstep. induction fuel as [|fuel IH]; intros h h' HP;
    cbn [run_loop after_run].
  - intros [= <-]. exact HP.
  - pose proof (Hstep h) as Hs.
    destruct (step h) as [h1|h1|h1|ex]; cbn [after_step after_run] in *.
    + apply IH. exact (Hs h1 HP eq_refl).
    + intros [= <-]. exact (Hs h1 HP eq_refl).
    + intros [= <-]. exact (Hs h1 HP eq_refl).
    + discriminate.
Qed.

(** Every state a run of [simulate] reaches satisfies the invariant. *)
Lemma invariant_simulate fuel p (g0 : rng_state G) h :
  after_run (simulate fuel p g0) = Some h -> invariant (num_beds p) h.
Proof.
  unfold simulate, Hospital_init, Resource_init, bind, env_run.
  destruct (num_staff p <=? 0)%Z; [discriminate|].
  cbn [env now set_env Environment_init schedule].
  destruct (Qle_bool _ _); [discriminate|].
  apply (run_loop_keeps (invariant (num_beds p)) (invariant_step _)).
  split; cbn [bed_capacity beds_in_use occupancy_log patient_log set_env];
    try reflexivity; try constructor.
  - unfold admitted. cbn [env set_env staff put_queue List.length].
    rewrite !weight_schedule. reflexivity.
  - lia.
Qed.

End Invariant.
End DashboardFacts.

(** ** The dashboard engine: staff in use

    The staff units in use are those of the patients whose next event is
    in the heap, so they are never more than the beds in use. *)

Module StaffFacts.
Import SimPy SimPyFacts Dashboard DashboardFacts.

(** The patient that an event in the heap resumes while it holds a unit
    of staff. *)
Definition care_name (ev : Event) : list Z :=
  match ev with
  | Request_granted r | Timeout_treatment r _ _ => [req_name r]
  | _ => []
  end.

Definition care_names (q : list (entry Event)) : list Z :=
  flat_map (fun x => care_name (e_event x)) q.

Lemma care_names_heappush x q :
  Permutation (care_names (heappush x q))
              (care_name (e_event x) ++ care_names q).
Proof.
  induction q as [|y q IH]; cbn [heappush].
  - reflexivity.
  - destruct (before x y); [reflexivity|].
    cbn [care_names flat_map]. fold (care_names (heappush x q)).
    fold (care_names q). rewrite IH.
    rewrite !app_assoc. apply Permutation_app_tail, Permutation_app_comm.
Qed.

Lemma care_names_weight q :
  Z.of_nat (List.length (care_names q)) = weight in_care q.
Proof.
  induction q as [|x q IH]; [reflexivity|].
  cbn [care_names flat_map weight]. fold (care_names q).
  rewrite length_app, Nat2Z.inj_add, IH.
  destruct (e_event x); reflexivity.
Qed.

(** Removing the first element of a given name removes that name. *)
Lemma list_remove_names (n : Z) (l : list Request) (m : list Z) :
  Permutation (map req_name l) (n :: m) ->
  Permutation (map req_name (list_remove (fun r => (n =? req_name r)%Z) l)) m.
Proof.
  revert m. induction l as [|r l IH]; intros m H.
  - apply Permutation_nil in H. discriminate.
  - cbn [list_remove map] in *.
    destruct (n =? req_name r)%Z eqn:E.
    + apply Z.eqb_eq in E. subst n. now apply Permutation_cons_inv in H.
    + apply Z.eqb_neq in E.
      assert (Hin : In (req_name r) (n :: m)).
      { apply (Permutation_in _ H). left. reflexivity. }
      destruct Hin as [Hin|Hin]; [congruence|].
      apply in_split in Hin. destruct Hin as (m1 & m2 & ->).
      cbn [map].
      rewrite <- Permutation_middle. apply perm_skip. apply IH.
      apply Permutation_cons_inv with (a := req_name r).
      rewrite H.
      change (n :: m1 ++ req_name r :: m2)
        with ((n :: m1) ++ req_name r :: m2).
      rewrite <- Permutation_middle. reflexivity.
Qed.

Section Staffed.
Context {G : Generator}.

(** The names of the users are the names of the patients in the heap. *)
Definition staffed (h : Hospital G) : Prop :=
  Permutation (map req_name (users (staff h)))
              (care_names (queue (env h))).

(** [kept l h h']: from [h] to [h'] the users are the same and the names
    [l] have joined the heap. *)
Definition kept (l : list Z) (h h' : Hospital G) : Prop :=
  users (staff h') = users (staff h) /\
  Permutation (care_names (queue (env h')))
              (l ++ care_names (queue (env h))).

Lemma kept_trans l1 l2 h1 h2 h3 :
  kept l1 h1 h2 -> kept l2 h2 h3 -> kept (l2 ++ l1) h1 h3.
Proof.
  intros [A1 A2] [B1 B2]. split; [congruence|].
  rewrite B2, A2. now rewrite app_assoc.
Qed.

Lemma kept_schedule h ev prio delay :
  kept (care_name ev) h (set_env h (schedule (env h) ev prio delay)).
Proof. split; [reflexivity|]. apply care_names_heappush. Qed.

Lemma kept_timeout h ev delay e :
  timeout (env h) ev delay = Ok e -> kept (care_name ev) h (set_env h e).
Proof.
  unfold timeout. destruct (Qlt_le_dec delay 0); [discriminate|].
  intros [= <-]. apply kept_schedule.
Qed.

Lemma kept_exponential h scale x h' :
  exponential h scale = Ok (x, h') -> kept [] h h'.
Proof.
  unfold exponential, np_random_exponential, bind.
  destruct (Qlt_le_dec scale 0); [discriminate|].
  destruct (standard_exponential G (rng h)) as [y g].
  intros [= <- <-]. split; reflexivity.
Qed.

Lemma kept_get_treatment_time h x h' :
  get_treatment_time h = Ok (x, h') -> kept [] h h'.
Proof.
  unfold get_treatment_time.
  destruct (scenario (params h) =? _)%string; [apply kept_exponential|].
  destruct (scenario (params h) =? _)%string.
  { destruct (np_random_rand (rng h)) as [u g]. intros H.
    apply kept_exponential in H. destruct H as [H1 H2].
    split; assumption. }
  destruct (scenario (params h) =? _)%string.
  { unfold bind at 1. destruct (py_div _ _); [|discriminate].
    apply kept_exponential. }
  intros [= <- <-]. split; reflexivity.
Qed.

Lemma kept_patient_source_wait h patient_id mins h' :
  patient_source_wait h patient_id mins = Ok h' -> kept [] h h'.
Proof.
  unfold patient_source_wait, bind.
  destruct (exponential h mins) as [[d h1]|] eqn:He; [|discriminate].
  destruct (timeout (env h1) _ d) as [e|] eqn:Ht; [|discriminate].
  intros [= <-]. apply kept_exponential in He. apply kept_timeout in Ht.
  exact (kept_trans _ _ _ _ _ He Ht).
Qed.

Lemma kept_staffed l h h' :
  kept l h h' ->
  Permutation (map req_name (users (staff h)))
              (l ++ care_names (queue (env h))) ->
  staffed h'.
Proof.
  intros [A1 A2] H. unfold staffed. rewrite A1, A2.
  assumption.
Qed.

(** Serving the head of the queue keeps users and heap in step. *)
Lemma staffed_trigger_put h :
  staffed h -> staffed (staff_trigger_put h).
Proof.
  unfold staffed, staff_trigger_put, trigger_put. intros H.
  destruct (put_queue (staff h)) as [|r rest]; [exact H|].
  destruct (count (staff h) <? capacity (staff h))%Z; [|exact H].
  cbn [staff set_staff set_env env users schedule queue].
  rewrite care_names_heappush, map_app. cbn [e_event care_name map].
  rewrite <- H. apply Permutation_app_comm.
Qed.

Lemma staffed_staff_request h req :
  staffed h -> staffed (staff_request h req).
Proof.
  unfold staffed, staff_request, request, trigger_put. intros H.
  cbn [put_queue].
  destruct (put_queue (staff h) ++ [req]) as [|r rest]; [exact H|].
  change (count {| capacity := capacity (staff h); users := users (staff h);
                   put_queue := _ |}) with (count (staff h)).
  cbn [capacity users].
  destruct (count (staff h) <? capacity (staff h))%Z; [|exact H].
  cbn [staff set_staff set_env env users schedule queue].
  rewrite care_names_heappush, map_app. cbn [e_event care_name map].
  rewrite <- H. apply Permutation_app_comm.
Qed.

Lemma staffed_step (h h' : Hospital G) :
  staffed h -> DashboardFacts.after_step (step h) = Some h' -> staffed h'.
Proof.
  intros S. unfold step, pop.
  destruct (queue (env h)) as [|x q] eqn:Hq; [intros [= <-]; exact S|].
  unfold staffed in S. rewrite Hq in S.
  cbn [care_names flat_map] in S. fold (care_names q) in S.
  set (h0 := set_env h _).
  assert (Hu : users (staff h0) = users (staff h)) by reflexivity.
  assert (Hc : care_names (queue (env h0)) = care_names q) by reflexivity.
  destruct (e_event x) as [| n | | pid mins | req | req wt tt |];
    cbn [care_name app] in S; cbn [DashboardFacts.after_step continue].
  - unfold patient_source, bind. destruct (py_div _ _); [|discriminate].
    destruct (patient_source_wait _ _ _) as [h1|] eqn:H1; intros [= <-].
    apply kept_patient_source_wait in H1.
    apply (kept_staffed _ _ _ H1). now rewrite Hu, Hc.
  - intros [= <-]. unfold patient.
    destruct (beds_in_use h0 >=? bed_capacity h0)%Z.
    + unfold staffed. cbn [staff patient_log_append env]. now rewrite Hu, Hc.
    + apply staffed_staff_request. unfold staffed.
      cbn [staff occupancy_log_append set_beds_in_use env].
      now rewrite Hu, Hc.
  - intros [= <-]. unfold staffed. now rewrite Hu, Hc.
  - unfold patient_source_resume.
    destruct (patient_source_wait _ _ _) as [h1|] eqn:H1; intros [= <-].
    apply kept_patient_source_wait in H1.
    pose proof (kept_trans _ _ _ _ _
                  (kept_schedule h0 (Initialize_patient (pid + 1)) URGENT 0)
                  H1) as K.
    apply (kept_staffed _ _ _ K). now rewrite Hu, Hc.
  - unfold patient_staffed, bind.
    destruct (get_treatment_time h0) as [[t h1]|] eqn:Hg; [|discriminate].
    destruct (timeout (env h1) _ t) as [e|] eqn:Ht; [|discriminate].
    intros [= <-]. apply kept_get_treatment_time in Hg.
    apply kept_timeout in Ht.
    pose proof (kept_trans _ _ _ _ _ Hg Ht) as K.
    apply (kept_staffed _ _ _ K). rewrite Hu, Hc. exact S.
  - intros [= <-]. unfold staffed, patient_treated.
    cbn [staff set_staff set_env env users schedule queue release
         patient_log_append occupancy_log_append set_beds_in_use].
    rewrite care_names_heappush. cbn [e_event care_name app].
    rewrite Hu, Hc. unfold same_request.
    now apply list_remove_names.
  - intros [= <-]. apply staffed_trigger_put. unfold staffed.
    now rewrite Hu, Hc.
Qed.

(** In every state of a run the staff units in use are at most the beds
    in use. *)
Lemma staff_in_use_le_beds_in_use fuel p (g0 : rng_state G) h :
  DashboardFacts.after_run (simulate fuel p g0) = Some h ->
  (count (staff h) <= beds_in_use h)%Z.
Proof.
  intros Hrun.
  destruct (invariant_simulate fuel p g0 h Hrun) as [_ I2 _ _ _ _ _].
  assert (S : staffed h).
  { revert Hrun. unfold simulate, Hospital_init, Resource_init, bind, env_run.
    destruct (num_staff p <=? 0)%Z; [discriminate|].
    cbn [env now set_env Environment_init schedule].
    destruct (Qle_bool _ _); [discriminate|].
    apply (run_loop_keeps staffed staffed_step). unfold staffed.
    cbn [staff set_env users map env]. unfold schedule. cbn [queue].
    rewrite care_names_heappush. cbn [e_event care_name app].
    rewrite care_names_heappush. reflexivity. }
  unfold staffed in S. apply Permutation_length in S.
  rewrite length_map in S.
  rewrite I2. unfold admitted, count. rewrite <- care_names_weight. lia.
Qed.

End Staffed.
End StaffFacts.

(** ** Claims about the occupancy series and about balking *)

(** A small ward for running the engine on concrete inputs, with values
    the dashboard's controls allow: one arrival a day on average, one
    member of staff, a week of simulated time, a mean treatment of three
    days (five for junior staff). *)
Definition small_ward (scen : string) (beds : Z) : Dashboard.Params := {|
  Dashboard.scenario := scen;
  Dashboard.arrival_rate := 1;
  Dashboard.num_beds := beds;
  Dashboard.num_staff := 1;
  Dashboard.simulation_duration := 7;
  Dashboard.senior_staff_mix := 50;
  Dashboard.senior_service_days := 3;
  Dashboard.junior_service_days := 5;
  Dashboard.workload_factor_alpha := 3 # 2
|}.

Definition baseline : string := "Baseline Model (Homogeneous Staff)".

(** One arrival, after one day; the next one would come after the
    horizon.  In the baseline scenario the treatment lasts two days. *)
Definition one_arrival : Generator := scripted [1; 10; 2 # 3].




(** The script: the bed pool never has a waiting request, since a patient
    asks for a bed only after finding one free. *)
Module ScriptFacts.
Import SimPy Script.

Section BedQueue.
Context {G : Generator} (C : Constants).

Definition after_step (s : Step G) : option (World G) :=
  match s with
  | Continue w | StopSimulation w | EmptySchedule w => Some w
  | Raised _ => None
  end.

Definition after_run (o : Outcome G) : option (World G) :=
  match o with
  | Finished w | OutOfFuel w => Some w
  | Failed _ => None
  end.

(** What every event keeps, the event loop keeps. *)
Lemma script_run_loop_keeps (P : World G -> Prop) :
  (forall w w', P w -> after_step (step C w) = Some w' -> P w') ->
  forall fuel w w', P w -> after_run (run_loop C fuel w) = Some w' -> P w'.
Proof.
  intros Hstep. induction fuel as [|fuel IH]; intros w w' HP;
    cbn [run_loop after_run].
  - intros [= <-]. exact HP.
  - pose proof (Hstep w) as Hs.
    destruct (step C w) as [w1|w1|w1|ex]; cbn [after_step after_run] in *.
    + apply IH. exact (Hs w1 HP eq_refl).
    + intros [= <-]. exact (Hs w1 HP eq_refl).
    + intros [= <-]. exact (Hs w1 HP eq_refl).
    + discriminate.
Qed.

Lemma beds_staff_request (w : World G) s name :
  beds (staff_request w s name) = beds w.
Proof.
  unfold staff_request.
  destruct (request (staff w s) name) as [r [n|]]; destruct s; reflexivity.
Qed.

Lemma beds_patient_generator (w w' : World G) patient_id :
  patient_generator C w patient_id = Ok w' -> beds w' = beds w.
Proof.
  unfold patient_generator, bind.
  destruct (py_div 1 _); [|discriminate].
  destruct (np_random_exponential _ _) as [[d g]|]; [|discriminate].
  destruct (timeout _ _ _); [|discriminate].
  intros [= <-]. reflexivity.
Qed.

Lemma beds_patient_assigned (w w' : World G) name :
  patient_assigned C w name = Ok w' -> beds w' = beds w.
Proof.
  unfold patient_assigned, bind.
  destruct (race_get name (races w)); [|intros [= <-]; reflexivity].
  destruct (mu_ideal_of C _); [|discriminate].
  destruct (mu_actual C _ _); [|discriminate].
  destruct (py_div 1 _); [|discriminate].
  destruct (np_random_exponential _ _) as [[d g]|]; [|discriminate].
  destruct (timeout _ _ _); [|discriminate].
  intros [= <-]. reflexivity.
Qed.

Lemma bed_queue_patient (w : World G) name :
  put_queue (beds w) = [] -> put_queue (beds (patient w name)) = [].
Proof.
  intros Hq. unfold patient.
  destruct (count (beds w) >=? capacity (beds w))%Z eqn:E; [exact Hq|].
  unfold beds_request, request, trigger_put. rewrite Hq.
  cbn [put_queue app].
  change (count {| capacity := capacity (beds w); users := users (beds w);
                   put_queue := _ |}) with (count (beds w)).
  cbn [capacity].
  destruct (count (beds w) <? capacity (beds w))%Z eqn:E'; [reflexivity|lia].
Qed.

Lemma bed_queue_step (w w' : World G) :
  put_queue (beds w) = [] -> after_step (step C w) = Some w' ->
  put_queue (beds w') = [].
Proof.
  intros Hq. unfold step.
  destruct (pop (env w)) as [[ev e]|]; [|intros [= <-]; exact Hq].
  destruct ev as [| n | | pid | req | s n | n | n a b c st | pool];
    cbn [after_step continue].
  - destruct (patient_generator _ _ _) as [w1|] eqn:H; intros [= <-].
    now rewrite (beds_patient_generator _ _ _ H).
  - intros [= <-]. now apply bed_queue_patient.
  - intros [= <-]. exact Hq.
  - unfold patient_generator_resume.
    destruct (patient_generator _ _ _) as [w1|] eqn:H; intros [= <-].
    now rewrite (beds_patient_generator _ _ _ H).
  - intros [= <-]. unfold patient_bedded. cbn [beds set_race].
    now rewrite !beds_staff_request.
  - intros [= <-]. unfold staff_request_fired.
    destruct (race_get _ _); [|exact Hq].
    destruct (built _ || triggered _)%bool; exact Hq.
  - destruct (patient_assigned _ _ _) as [w1|] eqn:H; intros [= <-].
    now rewrite (beds_patient_assigned _ _ _ H).
  - intros [= <-]. unfold patient_treated. destruct st; exact Hq.
  - intros [= <-]. unfold trigger_put_pool, trigger_put.
    destruct pool.
    + cbn [beds set_env]. rewrite Hq. exact Hq.
    + destruct (put_queue (staff_senior _)); [exact Hq|].
      destruct (_ <? _)%Z; exact Hq.
    + destruct (put_queue (staff_junior _)); [exact Hq|].
      destruct (_ <? _)%Z; exact Hq.
Qed.

(** In every state that the script reaches, no request waits for a bed. *)
Lemma bed_queue_main fuel (g0 : rng_state G) (w : World G) :
  after_run (main C fuel g0) = Some w -> put_queue (beds w) = [].
Proof.
  unfold main, Resource_init, bind, env_run.
  destruct (NUM_BEDS C <=? 0)%Z; [discriminate|].
  destruct (NUM_SENIOR_STAFF C <=? 0)%Z; [discriminate|].
  destruct (NUM_JUNIOR_STAFF C <=? 0)%Z; [discriminate|].
  destruct (Qle_bool _ _); [discriminate|].
  apply (script_run_loop_keeps (fun w => put_queue (beds w) = [])
           bed_queue_step). reflexivity.
Qed.

End BedQueue.
End ScriptFacts.

(** The record that [Hospital.patient] logs for a patient who balks. *)
Definition balked_row (name : Z) (arrival_time : Q) : Dashboard.Row := {|
  Dashboard.PatientID := name;
  Dashboard.ArrivalTime := arrival_time;
  Dashboard.WaitTime := None;
  Dashboard.TreatmentTime := None;
  Dashboard.TotalTime := None;
  Dashboard.Status := "Balked (No Beds)";
  Dashboard.TreatedBy := "N/A"
|}.

(** The record that the script logs for a patient who balks. *)
Definition script_balked_row (name : Z) (arrival_time : Q) : Script.Row := {|
  Script.name := name;
  Script.arrival_time := arrival_time;
  Script.waited_for_bed := None;
  Script.waited_for_staff := None;
  Script.treatment_duration := None;
  Script.staff_type := None;
  Script.status := "Balked"
|}.

Lemma dashboard_patient_balks {G : Generator} (h : Dashboard.Hospital G) name :
  (Dashboard.beds_in_use h >= Dashboard.bed_capacity h)%Z ->
  Dashboard.patient h name
  = Dashboard.patient_log_append h
      (balked_row name (SimPy.now (Dashboard.env h))).
Proof.
  intros Hfull. unfold Dashboard.patient.
  destruct (Dashboard.beds_in_use h >=? Dashboard.bed_capacity h)%Z eqn:E;
    [reflexivity | lia].
Qed.

Lemma dashboard_patient_admitted {G : Generator} (h : Dashboard.Hospital G)
      name :
  (Dashboard.beds_in_use h < Dashboard.bed_capacity h)%Z ->
  Dashboard.beds_in_use (Dashboard.patient h name)
  = (Dashboard.beds_in_use h + 1)%Z
  /\ Dashboard.patient_log (Dashboard.patient h name) = Dashboard.patient_log h.
Proof.
  intros Hfree. unfold Dashboard.patient.
  destruct (Dashboard.beds_in_use h >=? Dashboard.bed_capacity h)%Z eqn:E;
    [lia|].
  set (h1 := Dashboard.occupancy_log_append _ _).
  destruct (DashboardFacts.staff_request_ward h1
              {| Dashboard.req_name := name;
                 Dashboard.req_arrival_time := SimPy.now (Dashboard.env h) |})
    as (_ & A2 & _ & A4).
  rewrite A2, A4. split; reflexivity.
Qed.

Lemma script_patient_balks {G : Generator} (w : Script.World G) name :
  (SimPy.count (Script.beds w) >= SimPy.capacity (Script.beds w))%Z ->
  Script.patient w name
  = Script.patient_log_append w
      (script_balked_row name (SimPy.now (Script.env w))).
Proof.
  intros Hfull. unfold Script.patient.
  destruct (SimPy.count (Script.beds w) >=? SimPy.capacity (Script.beds w))%Z
    eqn:E; [reflexivity | lia].
Qed.

Lemma script_patient_admitted {G : Generator} (w : Script.World G) name :
  (SimPy.count (Script.beds w) < SimPy.capacity (Script.beds w))%Z ->
  SimPy.put_queue (Script.beds w) = [] ->
  SimPy.users (Script.beds (Script.patient w name))
  = SimPy.users (Script.beds w)
      ++ [{| Script.bed_name := name;
             Script.bed_arrival_time := SimPy.now (Script.env w) |}]
  /\ SimPy.put_queue (Script.beds (Script.patient w name)) = []
  /\ Script.patient_log (Script.patient w name) = Script.patient_log w.
Proof.
  intros Hfree Hq. unfold Script.patient.
  destruct (SimPy.count (Script.beds w) >=? SimPy.capacity (Script.beds w))%Z
    eqn:E; [lia|].
  unfold Script.beds_request, SimPy.request, SimPy.trigger_put.
  rewrite Hq. cbn [SimPy.put_queue app].
  change (SimPy.count {| SimPy.capacity := SimPy.capacity (Script.beds w);
                         SimPy.users := SimPy.users (Script.beds w);
                         SimPy.put_queue := _ |})
    with (SimPy.count (Script.beds w)).
  cbn [SimPy.capacity].
  destruct (SimPy.count (Script.beds w) <? SimPy.capacity (Script.beds w))%Z
    eqn:E'; [|lia].
  cbn. repeat split.
Qed.

(** C4. An arriving patient balks exactly when the beds in use have
    reached the capacity: the balked record is logged at once and nothing
    else changes (no bed is taken, no request is queued); otherwise one
    bed is taken and nothing is logged yet.  This holds for the dashboard
    engine and for the script, where no request ever waits for a bed.
    With a bed capacity of 0, every record of the patient log of a run is
    a balked one, none is a discharge. *)
Theorem balks_iff_beds_full :
  (forall (G : Generator) (h : Dashboard.Hospital G) (name : Z),
      ((Dashboard.beds_in_use h >= Dashboard.bed_capacity h)%Z ->
       Dashboard.patient h name
       = Dashboard.patient_log_append h
           (balked_row name (SimPy.now (Dashboard.env h))))
      /\ ((Dashboard.beds_in_use h < Dashboard.bed_capacity h)%Z ->
          Dashboard.beds_in_use (Dashboard.patient h name)
          = (Dashboard.beds_in_use h + 1)%Z
          /\ Dashboard.patient_log (Dashboard.patient h name)
             = Dashboard.patient_log h))
  /\ (forall (G : Generator) (w : Script.World G) (name : Z),
      ((SimPy.count (Script.beds w) >= SimPy.capacity (Script.beds w))%Z ->
       Script.patient w name
       = Script.patient_log_append w
           (script_balked_row name (SimPy.now (Script.env w))))
      /\ ((SimPy.count (Script.beds w) < SimPy.capacity (Script.beds w))%Z ->
          SimPy.put_queue (Script.beds w) = [] ->
          SimPy.users (Script.beds (Script.patient w name))
          = SimPy.users (Script.beds w)
              ++ [{| Script.bed_name := name;
                     Script.bed_arrival_time := SimPy.now (Script.env w) |}]
          /\ SimPy.put_queue (Script.beds (Script.patient w name)) = []
          /\ Script.patient_log (Script.patient w name)
             = Script.patient_log w))
  /\ (forall (G : Generator) (C : Script.Constants) (fuel : nat)
             (g0 : rng_state G) (w : Script.World G),
      ScriptFacts.after_run (Script.main C fuel g0) = Some w ->
      SimPy.put_queue (Script.beds w) = [])
  /\ (forall (G : Generator) (fuel : nat) (p : Dashboard.Params)
             (g0 : rng_state G) (h : Dashboard.Hospital G),
      Dashboard.num_beds p = 0%Z ->
      DashboardFacts.after_run (Dashboard.simulate fuel p g0) = Some h ->
      forall r, In r (Dashboard.patient_log h) ->
                Dashboard.Status r = "Balked (No Beds)"
                /\ Dashboard.Status r <> "Discharged").
Proof.
  split; [|split; [|split]].
  - intros G h name. split.
    + apply dashboard_patient_balks.
    + apply dashboard_patient_admitted.
  - intros G w name. split.
    + apply script_patient_balks.
    + apply script_patient_admitted.
  - intros G C fuel g0 w. apply ScriptFacts.bed_queue_main.
  - intros G fuel p g0 h Hcap Hrun r Hin.
    destruct (DashboardFacts.invariant_simulate fuel p g0 h Hrun)
      as [_ _ _ _ _ _ Hb].
    assert (Hle : (Dashboard.num_beds p <= 0)%Z) by lia.
    specialize (Hb Hle). rewrite Forall_forall in Hb.
    destruct (Hb r Hin) as (Hs & _). rewrite Hs. split; [reflexivity|].
    discriminate.
Qed.

Lemma balks_iff_beds_full_witness :
  exists h : Dashboard.Hospital one_arrival,
    DashboardFacts.after_run
      (@Dashboard.simulate one_arrival 20 (small_ward baseline 0) [])
    = Some h
    /\ List.length (Dashboard.patient_log h) = 1%nat
    /\ forall r, In r (Dashboard.patient_log h) ->
                 Dashboard.Status r = "Balked (No Beds)"
                 /\ Dashboard.Status r <> "Discharged".
Proof.
  eexists. split; [vm_compute; reflexivity|].
  split; [reflexivity|].
  refine (proj2 (proj2 (proj2 balks_iff_beds_full))
            one_arrival 20%nat (small_ward baseline 0) [] _ eq_refl _).
  vm_compute; reflexivity.
Defined.

(** ** Determinism *)


(** ** The KPIs *)

Module KPIFacts.
Import Dashboard.

(** A row with its three durations in days. *)
Definition in_days (r : Row) : Row :=
  {| PatientID := PatientID r; ArrivalTime := ArrivalTime r;
     WaitTime := to_days (WaitTime r);
     TreatmentTime := to_days (TreatmentTime r);
     TotalTime := to_days (TotalTime r);
     Status := Status r; TreatedBy := TreatedBy r |}.

(** The records that the KPIs call treated: those with a wait time. *)
Definition treated (log : list Row) : list Row :=
  filter (fun r => notna (WaitTime r)) log.

(** The records whose status mentions balking. *)
Definition balked_records (log : list Row) : list Row :=
  filter (fun r => str_contains "Balked" (Status r)) log.

Lemma columns_nonempty (log : list Row) :
  log <> [] -> columns (DataFrame_of_records log) = Row_keys.
Proof. destruct log; [congruence | reflexivity]. Qed.

Lemma converted_columns (log : list Row) :
  log <> [] -> columns (convert_to_days (DataFrame_of_records log)) = Row_keys.
Proof. intros H. cbn [convert_to_days columns]. now apply columns_nonempty. Qed.

Lemma converted_rows (log : list Row) :
  log <> [] ->
  rows (convert_to_days (DataFrame_of_records log)) = map in_days log.
Proof.
  intros H. unfold convert_to_days, has_column.
  rewrite (columns_nonempty log H). reflexivity.
Qed.

Lemma treated_in_days (log : list Row) :
  filter (fun r => notna (WaitTime r)) (map in_days log)
  = map in_days (treated log).
Proof.
  unfold treated. induction log as [|r log IH]; [reflexivity|].
  cbn [map filter]. rewrite IH.
  cbn [in_days WaitTime]. destruct (WaitTime r); reflexivity.
Qed.

Lemma balked_in_days (log : list Row) :
  List.length (filter (fun r => str_contains "Balked" (Status r))
                      (map in_days log))
  = List.length (balked_records log).
Proof.
  unfold balked_records. induction log as [|r log IH]; [reflexivity|].
  cbn [map filter in_days Status].
  destruct (str_contains "Balked" (Status r)); cbn [List.length]; congruence.
Qed.

(** The KPIs of a log that is not empty, in closed form. *)
Lemma process_results_nonempty (p : Params) (log : list Row)
      (occ : list (Q * Z)) :
  log <> [] ->
  process_results p log occ =
  Ok {| kpis :=
          {| Blocking_Probability :=
               inject_Z (Z.of_nat (List.length (balked_records log)))
               / inject_Z (Z.of_nat (List.length log)) * 100;
             Average_Wait_for_Staff :=
               match treated log with
               | [] => Some 0
               | _ :: _ => mean (map WaitTime (map in_days (treated log)))
               end;
             Average_Patient_Length_of_Stay :=
               match treated log with
               | [] => Some 0
               | _ :: _ => mean (map TotalTime (map in_days (treated log)))
               end;
             Total_Patients_Served := Z.of_nat (List.length (treated log));
             Average_Bed_Occupancy := average_bed_occupancy p occ |};
        patient_log_df := convert_to_days (DataFrame_of_records log);
        occupancy_df := occ |}.
Proof.
  intros H. unfold process_results, dropna_WaitTime, has_column, count_balked,
    empty, bind.
  rewrite (converted_columns log H), (converted_rows log H).
  cbn [existsb Row_keys String.eqb Ascii.eqb Bool.eqb orb andb columns rows].
  rewrite treated_in_days, balked_in_days, !length_map.
  assert (Hpos : (0 <? Z.of_nat (List.length log))%Z = true).
  { destruct log; [congruence|]. cbn [List.length]. apply Z.ltb_lt. lia. }
  rewrite Hpos.
  destruct (treated log) as [|r l]; reflexivity.
Qed.



End KPIFacts.



(** A quiet week: one arrival in twenty days on average, and a first
    variate of 0.4693, so that the first arrival would come after more
    than nine days. *)
Definition quiet_week : Dashboard.Params := {|
  Dashboard.scenario := baseline;
  Dashboard.arrival_rate := 1 # 20;
  Dashboard.num_beds := 2;
  Dashboard.num_staff := 1;
  Dashboard.simulation_duration := 7;
  Dashboard.senior_staff_mix := 50;
  Dashboard.senior_service_days := 3;
  Dashboard.junior_service_days := 5;
  Dashboard.workload_factor_alpha := 3 # 2
|}.

Definition no_arrival : Generator := scripted [4693 # 10000].

(** C8 (the code departs from the claim).  On an empty patient log the
    KPI computation does not return zeros: [dropna(subset=['WaitTime'])]
    raises [KeyError], the frame built from no record having no column.
    So does a whole run in which nobody arrives. *)
Theorem empty_patient_log_raises_KeyError :
  (forall (p : Dashboard.Params) (occ : list (Q * Z)),
      Dashboard.process_results p [] occ = Raise (KeyError "WaitTime"))
  /\ @Dashboard.run_hospital_simulation no_arrival 20 quiet_week []
     = Some (Raise (KeyError "WaitTime")).
Proof.
  split; [intros p occ; reflexivity | vm_compute; reflexivity].
Qed.

(** The time-weighted average occupancy as the specification words it:
    the integral over [[0, horizon]] of the right-continuous step
    function of the samples, each interval counting the occupancy
    [in_force] since the earlier sample, divided by the horizon. *)
Fixpoint step_integral (samples : list (Q * Z)) (horizon : Q)
         (in_force : Z) (last_time : Q) : Q :=
  match samples with
  | [] => inject_Z in_force * (horizon - last_time)
  | (time, patients_in_system) :: rest =>
      inject_Z in_force * (time - last_time)
      + step_integral rest horizon patients_in_system time
  end.

Definition time_weighted_average_occupancy (samples : list (Q * Z))
           (horizon : Q) : Q :=
  step_integral samples horizon 0%Z 0 / horizon.

(** Samples equal up to the equality of rationals. *)
Definition same_samples (a b : list (Q * Z)) : Prop :=
  Forall2 (fun s s' => fst s == fst s' /\ snd s = snd s') a b.

(** C1 (the code departs from the claim).  One patient is admitted after
    one day (minute 1440) and discharged after three (minute 4320) of a
    run of a week with two beds.  The step function is 1 for 2880
    minutes, but the KPI loop multiplies each interval by the count of
    the sample that ends it and leaves out the time after the last
    sample: it finds 1440 patient-minutes, and an average bed occupancy
    of 50/7 percent where the time-weighted average over the capacity is
    100/7 percent. *)
Theorem average_occupancy_weighs_later_sample :
  exists h : Dashboard.Hospital one_arrival,
    @Dashboard.simulate one_arrival 20 (small_ward baseline 2) []
    = Dashboard.Finished h
    /\ same_samples (Dashboard.occupancy_log h) [(1440, 1%Z); (4320, 0%Z)]
    /\ Dashboard.patient_minutes (Dashboard.occupancy_log h) 0 0 == 1440
    /\ step_integral (Dashboard.occupancy_log h) (7 * Dashboard.MINS_IN_DAY)
         0%Z 0 == 2880
    /\ Dashboard.average_bed_occupancy (small_ward baseline 2)
         (Dashboard.occupancy_log h) == 50 # 7
    /\ time_weighted_average_occupancy (Dashboard.occupancy_log h)
         (7 * Dashboard.MINS_IN_DAY) / inject_Z 2 * 100 == 100 # 7.
Proof.
  eexists. split; [vm_compute; reflexivity|].
  cbn [Dashboard.occupancy_log].
  split; [repeat constructor; vm_compute; reflexivity|].
  repeat split; vm_compute; reflexivity.
Qed.

(** ** Configurations that the run does not check *)


Section Rejections.
Context {G : Generator}.


Lemma MINS_IN_DAY_pos : 0 < Dashboard.MINS_IN_DAY.
Proof. reflexivity. Qed.







End Rejections.






(** ** The workload-dependent service rate *)

(** The rate as the specification has it: [mu_ideal * min(1, alpha*s/n)],
    [n] being the occupancy clamped to at least 1. *)
Definition claimed_rate (mu_ideal alpha : Q) (s n : Z) : Q :=
  mu_ideal * Qmin 1 (alpha * inject_Z s / inject_Z (Z.max 1 n)).

Definition workload : string :=
  "Workload-Dependent Model (Dynamic Service Rates)".

Lemma py_min_Qmin a b : py_min a b == Qmin a b.
Proof.
  unfold py_min. destruct (Qlt_le_dec b a) as [H|H].
  - symmetry. apply Q.min_r. lra.
  - symmetry. apply Q.min_l. exact H.
Qed.

Lemma count_nonneg {R} (res : SimPy.Resource R) : (0 <= SimPy.count res)%Z.
Proof. unfold SimPy.count. lia. Qed.

Lemma inject_Z_pos n : (1 <= n)%Z -> 0 < inject_Z n.
Proof. intros H. unfold Qlt, inject_Z; cbn. lia. Qed.

Section Workload.
Context {G : Generator}.

(** The script computes the claimed rate. *)
Lemma script_mu_actual (C : Script.Constants) (w : Script.World G) (mu : Q) :
  exists m,
    Script.mu_actual C w mu = Ok m
    /\ m == claimed_rate mu (Script.ALPHA C)
              (Script.NUM_SENIOR_STAFF C + Script.NUM_JUNIOR_STAFF C)
              (SimPy.count (Script.beds w)).
Proof.
  unfold Script.mu_actual, claimed_rate, py_div, bind.
  pose proof (count_nonneg (Script.beds w)) as Hc.
  set (n := if (SimPy.count (Script.beds w) =? 0)%Z then 1%Z
            else SimPy.count (Script.beds w)).
  assert (Hn : n = Z.max 1 (SimPy.count (Script.beds w))).
  { subst n. destruct (SimPy.count (Script.beds w) =? 0)%Z eqn:E; lia. }
  assert (Hpos : 0 < inject_Z n) by (apply inject_Z_pos; lia).
  destruct (Qeq_bool (inject_Z n) 0) eqn:E.
  { apply Qeq_bool_iff in E. lra. }
  eexists. split; [reflexivity|].
  rewrite py_min_Qmin, Hn. reflexivity.
Qed.

Lemma claimed_rate_le mu alpha s n :
  0 <= mu -> claimed_rate mu alpha s n <= mu.
Proof.
  intros Hmu. unfold claimed_rate.
  pose proof (Q.le_min_l 1 (alpha * inject_Z s / inject_Z (Z.max 1 n))).
  nra.
Qed.

Lemma claimed_rate_ideal mu alpha s n :
  inject_Z (Z.max 1 n) <= alpha * inject_Z s ->
  claimed_rate mu alpha s n == mu.
Proof.
  intros H. unfold claimed_rate.
  assert (Hpos : 0 < inject_Z (Z.max 1 n)) by (apply inject_Z_pos; lia).
  assert (Hr : 1 <= alpha * inject_Z s / inject_Z (Z.max 1 n)).
  { apply Qle_shift_div_l; [exact Hpos | lra]. }
  rewrite (Q.min_l _ _ Hr). ring.
Qed.

(** The factor by which the dashboard engine stretches the mean
    treatment time. *)
Definition workload_factor (h : Dashboard.Hospital G) : Q :=
  let load := inject_Z (SimPy.count (Dashboard.staff h))
              / inject_Z (Dashboard.num_staff (Dashboard.params h)) in
  if Qlt_le_dec (Dashboard.workload_factor_alpha (Dashboard.params h)) load
  then 1 + (load - Dashboard.workload_factor_alpha (Dashboard.params h))
  else 1.

Lemma dashboard_workload_time (h : Dashboard.Hospital G) :
  Dashboard.scenario (Dashboard.params h) = workload ->
  (0 < Dashboard.num_staff (Dashboard.params h))%Z ->
  0 <= Dashboard.senior_service_days (Dashboard.params h) ->
  Dashboard.get_treatment_time h
  = Ok (Dashboard.senior_service_days (Dashboard.params h)
        * Dashboard.MINS_IN_DAY * workload_factor h
        * fst (standard_exponential G (Dashboard.rng h)),
        Dashboard.set_rng h (snd (standard_exponential G (Dashboard.rng h)))).
Proof.
  intros Hs Hc Hd. unfold Dashboard.get_treatment_time. rewrite Hs.
  cbn [String.eqb Ascii.eqb Bool.eqb workload]. unfold py_div, bind.
  assert (Hpos : 0 < inject_Z (Dashboard.num_staff (Dashboard.params h)))
    by (apply inject_Z_pos; lia).
  destruct (Qeq_bool (inject_Z (Dashboard.num_staff (Dashboard.params h))) 0)
    eqn:E.
  { apply Qeq_bool_iff in E. lra. }
  fold (workload_factor h).
  unfold Dashboard.exponential, np_random_exponential, bind.
  destruct (Qlt_le_dec _ 0) as [Hneg|_].
  - exfalso.
    assert (1 <= workload_factor h).
    { unfold workload_factor. destruct (Qlt_le_dec _ _); lra. }
    assert (0 <= Dashboard.senior_service_days (Dashboard.params h)
                 * Dashboard.MINS_IN_DAY)
      by (apply Qmult_le_0_compat; [exact Hd | apply Qlt_le_weak, MINS_IN_DAY_pos]).
    assert (0 <= Dashboard.senior_service_days (Dashboard.params h)
                 * Dashboard.MINS_IN_DAY * workload_factor h)
      by (apply Qmult_le_0_compat; lra).
    lra.
  - destruct (standard_exponential G (Dashboard.rng h)) as [x g].
    reflexivity.
Qed.

Lemma workload_factor_spec (h : Dashboard.Hospital G) :
  workload_factor h
  == 1 + Qmax 0 (inject_Z (SimPy.count (Dashboard.staff h))
                 / inject_Z (Dashboard.num_staff (Dashboard.params h))
                 - Dashboard.workload_factor_alpha (Dashboard.params h))
  /\ 1 <= workload_factor h.
Proof.
  unfold workload_factor. destruct (Qlt_le_dec _ _) as [H|H].
  - rewrite Q.max_r by lra. split; [ring | lra].
  - rewrite Q.max_l by lra. split; [ring | lra].
Qed.

Lemma workload_factor_ideal (h : Dashboard.Hospital G) :
  (0 < Dashboard.num_staff (Dashboard.params h))%Z ->
  inject_Z (SimPy.count (Dashboard.staff h))
  <= Dashboard.workload_factor_alpha (Dashboard.params h)
     * inject_Z (Dashboard.num_staff (Dashboard.params h)) ->
  workload_factor h = 1.
Proof.
  intros Hc Hu. unfold workload_factor.
  destruct (Qlt_le_dec _ _) as [H|H]; [|reflexivity].
  exfalso.
  assert (Hpos : 0 < inject_Z (Dashboard.num_staff (Dashboard.params h)))
    by (apply inject_Z_pos; lia).
  apply Qlt_not_le in H. apply H.
  apply Qle_shift_div_r; assumption.
Qed.

End Workload.

(** The small ward in the workload-dependent scenario, with a capacity
    factor of one half. *)
Definition busy_ward : Dashboard.Params := {|
  Dashboard.scenario := workload;
  Dashboard.arrival_rate := 1;
  Dashboard.num_beds := 2;
  Dashboard.num_staff := 1;
  Dashboard.simulation_duration := 7;
  Dashboard.senior_staff_mix := 100;
  Dashboard.senior_service_days := 3;
  Dashboard.junior_service_days := 3;
  Dashboard.workload_factor_alpha := 1 # 2
|}.

(** C3, as stated, fails on the dashboard engine.  One patient is alone
    in the ward of [busy_ward]: occupancy 1, one member of staff, a
    capacity factor of 1/2, a standard variate of 2/3.  The claimed rate
    is half the ideal rate of 1/4320 per minute, which gives a treatment
    of 5760 minutes; the engine stretches the mean by 1 + (1/1 - 1/2)
    and treats for 4320 minutes. *)
Lemma dashboard_rate_is_not_the_claimed_rate :
  exists (h : Dashboard.Hospital one_arrival) (t : Q),
    @Dashboard.simulate one_arrival 20 busy_ward [] = Dashboard.Finished h
    /\ map Dashboard.TreatmentTime (Dashboard.patient_log h) = [Some t]
    /\ t == 4320
    /\ (2 # 3) / claimed_rate (1 / (3 * Dashboard.MINS_IN_DAY)) (1 # 2) 1 1
       == 5760
    /\ ~ t == (2 # 3)
              / claimed_rate (1 / (3 * Dashboard.MINS_IN_DAY)) (1 # 2) 1 1.
Proof.
  eexists. eexists. split; [vm_compute; reflexivity|].
  split; [reflexivity|].
  split; [vm_compute; reflexivity|].
  split; [vm_compute; reflexivity|].
  vm_compute. discriminate.
Qed.

(** C3, amended.  In the script the effective rate is the claimed one,
    [mu_ideal * min(1, alpha * s / n)] with [n] the bed count when the
    treatment begins, 1 if it is 0, and [s] the total headcount.  In the
    workload-dependent scenario of the dashboard engine the treatment
    time is the standard variate times the ideal mean times
    [1 + max(0, u/c - alpha)], [u] being the staff units in use when the
    treatment begins and [c] the staff capacity.  In both the effective
    rate never exceeds the ideal one (the factor on the mean is at least
    1), and it is the ideal one whenever [alpha * s >= n] in the script,
    [alpha * c >= u] in the dashboard engine; there [u] is at most the
    occupancy in every state of a run, so [alpha * c >= n] is enough. *)
Theorem workload_rate_never_exceeds_ideal :
  (forall (G : Generator) (C : Script.Constants) (w : Script.World G)
          (mu_ideal : Q),
      exists mu_actual,
        Script.mu_actual C w mu_ideal = Ok mu_actual
        /\ mu_actual
           == claimed_rate mu_ideal (Script.ALPHA C)
                (Script.NUM_SENIOR_STAFF C + Script.NUM_JUNIOR_STAFF C)
                (SimPy.count (Script.beds w))
        /\ (0 <= mu_ideal -> mu_actual <= mu_ideal)
        /\ (inject_Z (Z.max 1 (SimPy.count (Script.beds w)))
            <= Script.ALPHA C
               * inject_Z (Script.NUM_SENIOR_STAFF C
                           + Script.NUM_JUNIOR_STAFF C) ->
            mu_actual == mu_ideal))
  /\ (forall (G : Generator) (h : Dashboard.Hospital G),
         Dashboard.scenario (Dashboard.params h) = workload ->
         (0 < Dashboard.num_staff (Dashboard.params h))%Z ->
         0 <= Dashboard.senior_service_days (Dashboard.params h) ->
         Dashboard.get_treatment_time h
         = Ok (Dashboard.senior_service_days (Dashboard.params h)
               * Dashboard.MINS_IN_DAY * workload_factor h
               * fst (standard_exponential G (Dashboard.rng h)),
               Dashboard.set_rng h
                 (snd (standard_exponential G (Dashboard.rng h))))
         /\ workload_factor h
            == 1 + Qmax 0
                     (inject_Z (SimPy.count (Dashboard.staff h))
                      / inject_Z (Dashboard.num_staff (Dashboard.params h))
                      - Dashboard.workload_factor_alpha (Dashboard.params h))
         /\ 1 <= workload_factor h
         /\ (inject_Z (SimPy.count (Dashboard.staff h))
             <= Dashboard.workload_factor_alpha (Dashboard.params h)
                * inject_Z (Dashboard.num_staff (Dashboard.params h)) ->
             workload_factor h = 1))
  /\ (forall (G : Generator) (fuel : nat) (p : Dashboard.Params)
             (g0 : rng_state G) (h : Dashboard.Hospital G),
         DashboardFacts.after_run (Dashboard.simulate fuel p g0) = Some h ->
         (SimPy.count (Dashboard.staff h) <= Dashboard.beds_in_use h)%Z
         /\ ((0 < Dashboard.num_staff (Dashboard.params h))%Z ->
             inject_Z (Dashboard.beds_in_use h)
             <= Dashboard.workload_factor_alpha (Dashboard.params h)
                * inject_Z (Dashboard.num_staff (Dashboard.params h)) ->
             forall e, workload_factor (Dashboard.set_env h e) = 1)).
Proof.
  split; [|split].
  - intros G C w mu.
    destruct (script_mu_actual C w mu) as (m & Hm & Heq).
    exists m. split; [exact Hm|]. split; [exact Heq|]. split.
    + intros Hmu. rewrite Heq. now apply claimed_rate_le.
    + intros Hn. rewrite Heq. now apply claimed_rate_ideal.
  - intros G h Hs Hc Hd.
    split; [now apply dashboard_workload_time|].
    destruct (workload_factor_spec h) as [H1 H2].
    split; [exact H1|]. split; [exact H2|].
    now apply workload_factor_ideal.
  - intros G fuel p g0 h Hrun.
    pose proof (StaffFacts.staff_in_use_le_beds_in_use fuel p g0 h Hrun)
      as Hle.
    split; [exact Hle|]. intros Hc Hn e.
    apply workload_factor_ideal; [exact Hc|].
    cbn [Dashboard.staff Dashboard.params Dashboard.set_env].
    apply Qle_trans with (y := inject_Z (Dashboard.beds_in_use h));
      [|exact Hn].
    rewrite <- Zle_Qle. exact Hle.
Qed.

(** The ward of [busy_ward] when its first patient begins treatment. *)
Definition busy_ward_at_treatment : Dashboard.Hospital one_arrival := {|
  Dashboard.env := SimPy.Environment_init;
  Dashboard.rng := ([2 # 3] : rng_state one_arrival);
  Dashboard.params := busy_ward;
  Dashboard.staff :=
    {| SimPy.capacity := 1;
       SimPy.users := [{| Dashboard.req_name := 1;
                          Dashboard.req_arrival_time := 1440 |}];
       SimPy.put_queue := [] |};
  Dashboard.bed_capacity := 2;
  Dashboard.beds_in_use := 1;
  Dashboard.patient_log := [];
  Dashboard.occupancy_log := [(1440, 1%Z)]
|}.

Lemma workload_rate_witness :
  Dashboard.get_treatment_time busy_ward_at_treatment
  = Ok (3 * Dashboard.MINS_IN_DAY * workload_factor busy_ward_at_treatment
        * (2 # 3),
        Dashboard.set_rng busy_ward_at_treatment [])
  /\ workload_factor busy_ward_at_treatment == 3 # 2.
Proof.
  split.
  - refine (proj1 (proj1 (proj2 workload_rate_never_exceeds_ideal)
                     one_arrival busy_ward_at_treatment _ _ _)).
    + reflexivity.
    + reflexivity.
    + discriminate.
  - reflexivity.
Defined.

(** ** Which staff treats, and at which rate *)

Definition experience : string :=
  "Experience-Based Model (Heterogeneous Staff)".



Section StaffType.
Context {G : Generator}.



Lemma race_get_set name r t : Script.race_get name (Script.race_set name r t) = Some r.
Proof.
  induction t as [|[k r0] t IH]; cbn.
  - now rewrite Z.eqb_refl.
  - destruct (k =? name)%Z eqn:E; cbn; rewrite E; [reflexivity | exact IH].
Qed.




End StaffType.



Module RaceFacts.
Import SimPy Script.

Section Races.
Context {G : Generator} (C : Constants).


Lemma race_get_set_other n m r t :
  n <> m -> race_get m (race_set n r t) = race_get m t.
Proof.
  intros Hnm. induction t as [|[k r0] t IH]; cbn.
  - destruct (n =? m)%Z eqn:E; [apply Z.eqb_eq in E; congruence|reflexivity].
  - destruct (k =? n)%Z eqn:E; cbn.
    + apply Z.eqb_eq in E. subst k.
      destruct (n =? m)%Z eqn:E'; [apply Z.eqb_eq in E'; congruence|].
      reflexivity.
    + destruct (k =? m)%Z; [reflexivity | exact IH].
Qed.







End Races.
End RaceFacts.






(** ** The staffing race *)

(** The first patient arrives at minute 120 and is treated for 3600
    minutes; the next arrival would come after the horizon. *)
Definition lone_patient : Generator := scripted [1 # 2; 100; 1].

(** The script with one member of staff of each type. *)
Definition one_of_each : Script.Constants := {|
  Script.SIM_TIME_MINUTES := 7 * 24 * 60;
  Script.PATIENT_ARRIVAL_RATE := 6 / (24 * 60);
  Script.AVG_TREATMENT_TIME_SENIOR_MINUTES := (5 # 2) * 24 * 60;
  Script.AVG_TREATMENT_TIME_JUNIOR_MINUTES := (7 # 2) * 24 * 60;
  Script.NUM_SENIOR_STAFF := 1;
  Script.NUM_JUNIOR_STAFF := 1;
  Script.NUM_BEDS := 20;
  Script.ALPHA := 1
|}.

(** The script with one senior and two junior members of staff. *)
Definition one_senior_two_juniors : Script.Constants := {|
  Script.SIM_TIME_MINUTES := 7 * 24 * 60;
  Script.PATIENT_ARRIVAL_RATE := 6 / (24 * 60);
  Script.AVG_TREATMENT_TIME_SENIOR_MINUTES := (5 # 2) * 24 * 60;
  Script.AVG_TREATMENT_TIME_JUNIOR_MINUTES := (7 # 2) * 24 * 60;
  Script.NUM_SENIOR_STAFF := 1;
  Script.NUM_JUNIOR_STAFF := 2;
  Script.NUM_BEDS := 20;
  Script.ALPHA := 1
|}.

(** The script without junior staff. *)
Definition no_junior : Script.Constants := {|
  Script.SIM_TIME_MINUTES := 7 * 24 * 60;
  Script.PATIENT_ARRIVAL_RATE := 6 / (24 * 60);
  Script.AVG_TREATMENT_TIME_SENIOR_MINUTES := (5 # 2) * 24 * 60;
  Script.AVG_TREATMENT_TIME_JUNIOR_MINUTES := (7 # 2) * 24 * 60;
  Script.NUM_SENIOR_STAFF := 7;
  Script.NUM_JUNIOR_STAFF := 0;
  Script.NUM_BEDS := 20;
  Script.ALPHA := 1
|}.

(** Two patients: arrivals at minutes 120 and 360, treatments of half
    the mean each; the third arrival would come after the horizon.  The
    variates are in the order in which the run draws them. *)
Definition two_patients : Generator :=
  scripted [1 # 2; 1; 1 # 2; 100; 1 # 2].

(** What is left of the staff pools at the end of a run. *)
Definition staff_left {G : Generator} (w : Script.World G)
  : (list Z * list Z) * (list Z * list Z) :=
  ((SimPy.users (Script.staff_senior w),
    SimPy.put_queue (Script.staff_senior w)),
   (SimPy.users (Script.staff_junior w),
    SimPy.put_queue (Script.staff_junior w))).

Definition discharges {G : Generator} (w : Script.World G)
  : list (Z * option Script.Staff * string) :=
  map (fun r => (Script.name r, Script.staff_type r, Script.status r))
      (Script.patient_log w).

(** C2 (the code departs from the claim).  [senior_req | junior_req]
    withdraws nothing, whatever the comment in [patient] says.

    - With the script's own constants, the first patient finds both pools
      free: both requests are granted, the patient is treated by Senior
      and releases the senior request only.  At the end of the run the
      ward is empty and the junior pool still counts patient 1 among its
      users.
    - With one member of staff of each type, the second patient waits in
      both queues; the senior request is granted when patient 1 leaves,
      and the junior request stays in the junior queue after patient 2
      has been discharged, behind the unit that patient 1 never
      released.
    - With one senior and two juniors, the second patient is treated by
      Junior while its senior request waits; that request is granted when
      patient 1 leaves and is never released, so that the ward ends empty
      with its only senior unit in use.
    - With a staff type at capacity 0 there is no run at all:
      [simpy.Resource] refuses the capacity. *)
Theorem race_loser_is_never_withdrawn :
  (exists w : Script.World lone_patient,
      @Script.main lone_patient Script.script_constants 40 []
      = Script.Finished w
      /\ discharges w = [(1%Z, Some Script.Senior, "Discharged")]
      /\ SimPy.users (Script.beds w) = []
      /\ staff_left w = (([], []), ([1%Z], [])))
  /\ (exists w : Script.World two_patients,
         @Script.main two_patients one_of_each 60 [] = Script.Finished w
         /\ discharges w = [(1%Z, Some Script.Senior, "Discharged");
                            (2%Z, Some Script.Senior, "Discharged")]
         /\ SimPy.users (Script.beds w) = []
         /\ staff_left w = (([], []), ([1%Z], [2%Z])))
  /\ (exists w : Script.World two_patients,
         @Script.main two_patients one_senior_two_juniors 60 []
         = Script.Finished w
         /\ discharges w = [(1%Z, Some Script.Senior, "Discharged");
                            (2%Z, Some Script.Junior, "Discharged")]
         /\ SimPy.users (Script.beds w) = []
         /\ staff_left w = (([2%Z], []), ([1%Z], [])))
  /\ (forall fuel : nat,
         @Script.main lone_patient no_junior fuel []
         = Script.Failed (ValueError "capacity must be > 0")).
Proof.
  split; [|split; [|split]].
  - eexists. split; [vm_compute; reflexivity|]. repeat split.
  - eexists. split; [vm_compute; reflexivity|]. repeat split.
  - eexists. split; [vm_compute; reflexivity|]. repeat split.
  - intros fuel. reflexivity.
Qed.

(** * Further properties of the engines *)

(** ** The heap: order of the events and of the clock *)

Module HeapFacts.
Import SimPy.

Section Order.
Context {E : Type}.

(** [no_later a b]: the key of [a] is not after the key of [b]. *)
Definition no_later (a b : entry E) : Prop := before b a = false.

Lemma before_iff (a b : entry E) :
  before a b = true <->
  e_time a < e_time b
  \/ (e_time a == e_time b
      /\ ((e_prio a < e_prio b)%Z
          \/ (e_prio a = e_prio b /\ (e_eid a < e_eid b)%Z))).
Proof.
  unfold before.
  destruct (e_time a ?= e_time b) eqn:Ht.
  - apply Qeq_alt in Ht.
    destruct (e_prio a ?= e_prio b)%Z eqn:Hp.
    + apply Z.compare_eq in Hp. rewrite Z.ltb_lt. split.
      * intros H. right. split; [exact Ht|]. right. split; assumption.
      * intros [H|[_ [H|[_ H]]]]; [lra | lia | exact H].
    + rewrite Z.compare_lt_iff in Hp. split; [|reflexivity].
      intros _. right. split; [exact Ht|]. left. exact Hp.
    + rewrite Z.compare_gt_iff in Hp. split; [discriminate|].
      intros [H|[_ [H|[H _]]]]; [lra | lia | lia].
  - apply Qlt_alt in Ht. split; [intros _; left; exact Ht | reflexivity].
  - apply Qgt_alt in Ht. split; [discriminate|].
    intros [H|[H _]]; lra.
Qed.

Lemma no_later_iff (a b : entry E) :
  no_later a b <->
  e_time a < e_time b
  \/ (e_time a == e_time b
      /\ ((e_prio a < e_prio b)%Z
          \/ (e_prio a = e_prio b /\ (e_eid a <= e_eid b)%Z))).
Proof.
  unfold no_later. rewrite <- not_true_iff_false, before_iff. split.
  - intros H.
    destruct (Qlt_le_dec (e_time a) (e_time b)) as [Hlt|Hle]; [left; exact Hlt|].
    right. assert (Heq : e_time a == e_time b).
    { destruct (Qlt_le_dec (e_time b) (e_time a)) as [Hlt|Hle'].
      - exfalso. apply H. left. exact Hlt.
      - lra. }
    split; [exact Heq|].
    destruct (Z_lt_le_dec (e_prio a) (e_prio b)) as [Hp|Hp]; [left; exact Hp|].
    right. assert (Hpe : e_prio a = e_prio b).
    { destruct (Z_lt_le_dec (e_prio b) (e_prio a)) as [Hp'|Hp']; [|lia].
      exfalso. apply H. right. split; [symmetry; exact Heq|]. left. exact Hp'. }
    split; [exact Hpe|].
    destruct (Z_lt_le_dec (e_eid b) (e_eid a)) as [He|He]; [|exact He].
    exfalso. apply H. right. split; [symmetry; exact Heq|]. right.
    split; [symmetry; exact Hpe | exact He].
  - intros H [H'|[Ht [H'|[Hp H']]]];
      destruct H as [H|[Ht' [H|[Hp' H]]]]; try lra; try lia.
Qed.

Lemma no_later_trans (a b c : entry E) :
  no_later a b -> no_later b c -> no_later a c.
Proof.
  rewrite !no_later_iff.
  intros [H1|[T1 [H1|[P1 H1]]]] [H2|[T2 [H2|[P2 H2]]]];
    try (left; lra);
    right; (split; [lra|]); try (left; lia); right; split; lia.
Qed.

Lemma before_no_later (a b : entry E) : before a b = true -> no_later a b.
Proof.
  rewrite before_iff, no_later_iff.
  intros [H|[Ht [H|[Hp H]]]]; [left; exact H | right | right];
    (split; [exact Ht|]); [left; exact H | right; split; [exact Hp | lia]].
Qed.

(** Two entries are in one order or the other. *)
Lemma no_later_total (a b : entry E) : no_later a b \/ no_later b a.
Proof.
  destruct (before a b) eqn:H.
  - left. now apply before_no_later.
  - right. exact H.
Qed.

Lemma no_later_time (a b : entry E) : no_later a b -> e_time a <= e_time b.
Proof. rewrite no_later_iff. intros [H|[H _]]; lra. Qed.

(** [heappush] keeps the heap in the order of the keys. *)
Lemma heappush_sorted (x : entry E) (q : list (entry E)) :
  StronglySorted no_later q -> StronglySorted no_later (heappush x q).
Proof.
  induction q as [|y q IH]; intros Hs; cbn [heappush].
  - repeat constructor.
  - apply StronglySorted_inv in Hs. destruct Hs as [Hs Hy].
    destruct (before x y) eqn:Hb.
    + constructor; [constructor; assumption|].
      apply before_no_later in Hb. constructor; [exact Hb|].
      rewrite Forall_forall in *. intros z Hz.
      exact (no_later_trans _ _ _ Hb (Hy z Hz)).
    + constructor; [now apply IH|].
      rewrite Forall_forall in *. intros z Hz.
      apply SimPyFacts.In_heappush in Hz. destruct Hz as [->|Hz]; [exact Hb | now apply Hy].
Qed.

(** Ties are broken by the order of scheduling: an entry that is pushed
    with the time and priority of a queued entry, and a later [eid],
    lands behind it. *)
Lemma heappush_fifo (x y : entry E) (q : list (entry E)) :
  StronglySorted no_later q -> In y q ->
  e_time y == e_time x -> e_prio y = e_prio x -> (e_eid y < e_eid x)%Z ->
  exists l1 l2 l3, heappush x q = l1 ++ y :: l2 ++ x :: l3.
Proof.
  intros Hs Hin Ht Hp He.
  assert (Hyx : before x y = false).
  { apply not_true_iff_false. rewrite before_iff.
    intros [H|[_ [H|[_ H]]]]; [lra | lia | lia]. }
  induction q as [|z q IH]; [destruct Hin|].
  apply StronglySorted_inv in Hs. destruct Hs as [Hs Hz].
  cbn [heappush]. destruct (before x z) eqn:Hb.
  - exfalso. destruct Hin as [->|Hin]; [congruence|].
    rewrite Forall_forall in Hz. specialize (Hz y Hin).
    apply before_no_later in Hb.
    pose proof (no_later_trans _ _ _ Hb Hz) as Hxy.
    rewrite no_later_iff in Hxy.
    destruct Hxy as [H|[_ [H|[_ H]]]]; [lra | lia | lia].
  - destruct Hin as [->|Hin].
    + assert (Hx : In x (heappush x q)) by (apply SimPyFacts.In_heappush; now left).
      apply in_split in Hx. destruct Hx as (l2 & l3 & ->).
      exists [], l2, l3. reflexivity.
    + destruct (IH Hs Hin) as (l1 & l2 & l3 & ->).
      exists (z :: l1), l2, l3. reflexivity.
Qed.

(** The heap of an environment is well formed: sorted by key, with no
    entry due before the clock. *)
Definition heap_ok (env : Environment E) : Prop :=
  StronglySorted no_later (queue env)
  /\ Forall (fun x => now env <= e_time x) (queue env).

Lemma heap_ok_init : heap_ok (@Environment_init E).
Proof. split; constructor. Qed.

Lemma heap_ok_schedule (env : Environment E) ev prio delay :
  heap_ok env -> 0 <= delay -> heap_ok (schedule env ev prio delay).
Proof.
  intros [Hs Hn] Hd. split; cbn [schedule queue now].
  - now apply heappush_sorted.
  - rewrite Forall_forall in *. intros y Hy. apply SimPyFacts.In_heappush in Hy.
    destruct Hy as [->|Hy]; [cbn; lra | now apply Hn].
Qed.

Lemma heap_ok_timeout (env env' : Environment E) ev delay :
  heap_ok env -> timeout env ev delay = Ok env' -> heap_ok env'.
Proof.
  unfold timeout. intros H. destruct (Qlt_le_dec delay 0); [discriminate|].
  intros [= <-]. now apply heap_ok_schedule.
Qed.

(** Popping an event never moves the clock backward, hands out an entry
    that no remaining entry precedes, and leaves a well-formed heap. *)
Lemma heap_ok_pop (env env' : Environment E) ev :
  heap_ok env -> pop env = Some (ev, env') ->
  heap_ok env' /\ now env <= now env'
  /\ exists x, queue env = x :: queue env' /\ e_event x = ev
               /\ now env' = e_time x
               /\ Forall (no_later x) (queue env').
Proof.
  intros [Hs Hn]. unfold pop.
  destruct (queue env) as [|x q] eqn:Hq; [discriminate|].
  intros [= <- <-]. apply StronglySorted_inv in Hs. destruct Hs as [Hs Hx].
  apply Forall_cons_iff in Hn. destruct Hn as [Hnx Hn].
  split; [|split].
  - split; cbn [queue now]; [exact Hs|].
    rewrite Forall_forall in *. intros y Hy.
    now apply no_later_time, Hx.
  - exact Hnx.
  - exists x. cbn [queue now]. repeat split. exact Hx.
Qed.

End Order.
End HeapFacts.

(** ** The pools: capacity *)

Module ResourceFacts.
Import SimPy.

Section Pool.
Context {R : Type}.

Definition within_capacity (res : Resource R) : Prop :=
  (count res <= capacity res)%Z.

Lemma trigger_put_capacity (res : Resource R) :
  capacity (fst (trigger_put res)) = capacity res.
Proof.
  unfold trigger_put. destruct (put_queue res); [reflexivity|].
  destruct (count res <? capacity res)%Z; reflexivity.
Qed.

(** Serving the queue never takes the pool over its capacity. *)
Lemma trigger_put_within (res : Resource R) :
  within_capacity res -> within_capacity (fst (trigger_put res)).
Proof.
  unfold within_capacity, trigger_put. intros H.
  destruct (put_queue res) as [|r rest]; [exact H|].
  destruct (count res <? capacity res)%Z eqn:E; [|exact H].
  apply Z.ltb_lt in E. unfold count in *. cbn [fst users capacity].
  rewrite length_app. cbn [List.length]. lia.
Qed.

Lemma request_capacity (res : Resource R) r :
  capacity (fst (request res r)) = capacity res.
Proof. unfold request. now rewrite trigger_put_capacity. Qed.

Lemma request_within (res : Resource R) r :
  within_capacity res -> within_capacity (fst (request res r)).
Proof. intros H. unfold request. apply trigger_put_within. exact H. Qed.

Lemma list_remove_length (same : R -> bool) (l : list R) :
  (List.length (list_remove same l) <= List.length l)%nat.
Proof.
  induction l as [|x l IH]; cbn [list_remove List.length]; [lia|].
  destruct (same x); cbn [List.length]; lia.
Qed.

Lemma release_within (res : Resource R) same :
  within_capacity res -> within_capacity (release res same).
Proof.
  unfold within_capacity, release, count. cbn [users capacity].
  pose proof (list_remove_length same (users res)). lia.
Qed.

Lemma list_remove_last (same : R -> bool) (l : list R) (r : R) :
  Forall (fun u => same u = false) l -> same r = true ->
  list_remove same (l ++ [r]) = l.
Proof.
  intros Hl Hr. induction l as [|x l IH]; cbn [app list_remove].
  - now rewrite Hr.
  - apply Forall_cons_iff in Hl. destruct Hl as [Hx Hl].
    rewrite Hx. now rewrite IH.
Qed.

(** A request on a pool with a free unit and nobody waiting is granted
    at once, and releasing it gives the pool back as it was. *)
Lemma request_release (res : Resource R) (r : R) (same : R -> bool) :
  (count res < capacity res)%Z -> put_queue res = [] ->
  Forall (fun u => same u = false) (users res) -> same r = true ->
  snd (request res r) = Some r
  /\ users (fst (request res r)) = users res ++ [r]
  /\ release (fst (request res r)) same = res.
Proof.
  intros Hfree Hq Hu Hr. unfold request, trigger_put. rewrite Hq.
  cbn [put_queue app].
  change (count {| capacity := capacity res; users := users res;
                   put_queue := [r] |}) with (count res).
  cbn [capacity].
  apply Z.ltb_lt in Hfree. rewrite Hfree. cbn [fst snd users].
  split; [reflexivity|]. split; [reflexivity|].
  unfold release. cbn [users capacity put_queue].
  rewrite (list_remove_last same _ _ Hu Hr).
  destruct res as [c u q]. cbn in *. now subst q.
Qed.

End Pool.
End ResourceFacts.

(** ** The dashboard engine: what a run keeps *)

Module DashboardRun.
Import SimPy SimPyFacts HeapFacts ResourceFacts Dashboard DashboardFacts.

(** The times of the samples do not decrease, [prev] being the time
    before the first one. *)
Fixpoint rising (prev : Q) (log : list (Q * Z)) : Prop :=
  match log with
  | [] => True
  | (t, _) :: log' => prev <= t /\ rising t log'
  end.

Definition last_time (log : list (Q * Z)) : Q :=
  fold_left (fun _ s => fst s) log 0.

(** The record of a discharge: a wait and a treatment that are not
    negative, a total time that is their sum, and a departure within
    the horizon [T].  [unit] is the number of minutes of the unit of the
    three durations: 1 in the log, [MINS_IN_DAY] in the data frame.  The
    arrival time is in minutes in both. *)
Definition discharged (unit T : Q) (r : Row) : Prop :=
  Status r = "Discharged" /\ TreatedBy r = "Staff"
  /\ exists w t tot,
      WaitTime r = Some w /\ TreatmentTime r = Some t
      /\ TotalTime r = Some tot /\ 0 <= w /\ 0 <= t /\ tot == w + t
      /\ ArrivalTime r + tot * unit <= T.

Definition row_ok (unit T : Q) (r : Row) : Prop :=
  (0 <= ArrivalTime r /\ ArrivalTime r <= T)
  /\ (balked r \/ discharged unit T r).

(** What an entry of the heap promises about the patient it resumes. *)
Definition entry_ok (T : Q) (x : entry Event) : Prop :=
  match e_event x with
  | Until => e_time x == T
  | Request_granted req =>
      0 <= req_arrival_time req /\ req_arrival_time req <= e_time x
  | Timeout_treatment req wait_time treatment_time =>
      0 <= req_arrival_time req /\ 0 <= wait_time /\ 0 <= treatment_time
      /\ e_time x == req_arrival_time req + wait_time + treatment_time
  | _ => True
  end.

(** The stop event of the run is on the heap. *)
Definition until_in (q : list (entry Event)) : Prop :=
  exists x, In x q /\ e_event x = Until.

(** What the logs satisfy at clock [t] of a run that stops at [T]. *)
Definition settled_of (T t : Q) (plog : list Row) (olog : list (Q * Z))
  : Prop :=
  0 <= t /\ t <= T /\ rising 0 olog /\ last_time olog <= t
  /\ Forall (row_ok 1 T) plog.

Definition timed_of (T : Q) (e : Environment Event) (s : Resource Request)
           (plog : list Row) (olog : list (Q * Z)) : Prop :=
  heap_ok e /\ Forall (entry_ok T) (queue e)
  /\ Forall (fun r => 0 <= req_arrival_time r /\ req_arrival_time r <= now e)
            (put_queue s)
  /\ until_in (queue e)
  /\ settled_of T (now e) plog olog.

Lemma rising_app prev log t n :
  rising prev log -> fold_left (fun _ s => fst s) log prev <= t ->
  rising prev (log ++ [(t, n)]).
Proof.
  revert prev. induction log as [|[t0 n0] log IH]; intros prev; cbn.
  - tauto.
  - intros [H1 H2] H3. split; [exact H1|]. now apply IH.
Qed.

Lemma last_time_app log s : last_time (log ++ [s]) = fst s.
Proof. unfold last_time. now rewrite fold_left_app. Qed.

Lemma rising_nth log : forall prev i s1 s2,
  rising prev log ->
  nth_error log i = Some s1 -> nth_error log (S i) = Some s2 ->
  fst s1 <= fst s2.
Proof.
  induction log as [|[t n] log IH]; intros prev i s1 s2 Hr H1 H2.
  - destruct i; discriminate.
  - destruct Hr as [_ Hr]. destruct i as [|i].
    + injection H1 as <-. destruct log as [|[t' n'] log]; [discriminate|].
      injection H2 as <-. destruct Hr as [Hr _]. exact Hr.
    + exact (IH t i s1 s2 Hr H1 H2).
Qed.

Lemma rising_bounds log : forall prev,
  rising prev log ->
  Forall (fun s => prev <= fst s
                   /\ fst s <= fold_left (fun _ x => fst x) log prev) log.
Proof.
  induction log as [|[t n] log IH]; intros prev Hr; [constructor|].
  destruct Hr as [H1 H2]. specialize (IH t H2).
  assert (Hlast : t <= fold_left (fun _ x => fst x) log t).
  { destruct log as [|[t' n'] log']; [cbn; lra|].
    apply Forall_inv in IH. cbn in IH. cbn. lra. }
  constructor.
  - cbn. split; [exact H1 | exact Hlast].
  - rewrite Forall_forall in *. intros s Hs. specialize (IH s Hs).
    cbn. split; [lra | tauto].
Qed.

(** *** The shape of what the processes do *)

Section Shapes.
Context {G : Generator}.

(** Only the generator state differs. *)
Definition only_rng (h h' : Hospital G) : Prop :=
  env h' = env h /\ params h' = params h /\ staff h' = staff h
  /\ bed_capacity h' = bed_capacity h /\ beds_in_use h' = beds_in_use h
  /\ patient_log h' = patient_log h /\ occupancy_log h' = occupancy_log h.

Lemma only_rng_refl h : only_rng h h.
Proof. repeat split. Qed.

Lemma only_rng_trans h1 h2 h3 :
  only_rng h1 h2 -> only_rng h2 h3 -> only_rng h1 h3.
Proof.
  intros (A1 & A2 & A3 & A4 & A5 & A6 & A7) (B1 & B2 & B3 & B4 & B5 & B6 & B7).
  repeat split; congruence.
Qed.

Lemma exponential_shape (h : Hospital G) scale x h' :
  exponential h scale = Ok (x, h') ->
  only_rng h h' /\ 0 <= scale
  /\ x = scale * fst (standard_exponential G (rng h))
  /\ rng h' = snd (standard_exponential G (rng h)).
Proof.
  unfold exponential, np_random_exponential, bind.
  destruct (Qlt_le_dec scale 0); [discriminate|].
  destruct (standard_exponential G (rng h)) as [y g].
  intros [= <- <-]. repeat split. assumption.
Qed.

Lemma exponential_ok (h : Hospital G) scale :
  0 <= scale ->
  exponential h scale
  = Ok (scale * fst (standard_exponential G (rng h)),
        set_rng h (snd (standard_exponential G (rng h)))).
Proof.
  intros Hs. unfold exponential, np_random_exponential, bind.
  destruct (Qlt_le_dec scale 0); [lra|].
  destruct (standard_exponential G (rng h)) as [y g]. reflexivity.
Qed.

Lemma get_treatment_time_shape (h : Hospital G) x h' :
  get_treatment_time h = Ok (x, h') -> only_rng h h'.
Proof.
  unfold get_treatment_time.
  destruct (scenario (params h) =? _)%string.
  { intros H. now apply exponential_shape in H. }
  destruct (scenario (params h) =? _)%string.
  { destruct (np_random_rand (rng h)) as [u g]. intros H.
    apply exponential_shape in H. destruct H as [H _].
    refine (only_rng_trans _ _ _ _ H). repeat split. }
  destruct (scenario (params h) =? _)%string.
  { unfold bind at 1. destruct (py_div _ _); [|discriminate].
    intros H. now apply exponential_shape in H. }
  intros [= <- <-]. apply only_rng_refl.
Qed.

Lemma timeout_shape {E} (e e' : Environment E) ev d :
  timeout e ev d = Ok e' -> 0 <= d /\ e' = schedule e ev NORMAL d.
Proof.
  unfold timeout. destruct (Qlt_le_dec d 0); [discriminate|].
  intros [= <-]. split; [assumption | reflexivity].
Qed.

Lemma patient_source_wait_shape (h : Hospital G) patient_id mins h' :
  patient_source_wait h patient_id mins = Ok h' ->
  exists h1 d,
    only_rng h h1 /\ 0 <= d
    /\ h' = set_env h1 (schedule (env h1) (Timeout_source patient_id mins)
                                 NORMAL d).
Proof.
  unfold patient_source_wait, bind.
  destruct (exponential h mins) as [[d h1]|] eqn:He; [|discriminate].
  destruct (timeout (env h1) _ d) as [e|] eqn:Ht; [|discriminate].
  intros [= <-]. apply exponential_shape in He. destruct He as [He _].
  apply timeout_shape in Ht. destruct Ht as [Hd ->].
  exists h1, d. split; [exact He | split; [exact Hd | reflexivity]].
Qed.

Lemma patient_staffed_shape (h : Hospital G) req h' :
  patient_staffed h req = Ok h' ->
  exists h1 t,
    only_rng h h1 /\ 0 <= t
    /\ get_treatment_time h = Ok (t, h1)
    /\ h' = set_env h1
              (schedule (env h1)
                 (Timeout_treatment req (now (env h) - req_arrival_time req) t)
                 NORMAL t).
Proof.
  unfold patient_staffed, bind.
  destruct (get_treatment_time h) as [[t h1]|] eqn:Hg; [|discriminate].
  destruct (timeout (env h1) _ t) as [e|] eqn:Ht; [|discriminate].
  intros [= <-]. pose proof (get_treatment_time_shape _ _ _ Hg) as Ho.
  apply timeout_shape in Ht. destruct Ht as [Hd ->].
  exists h1, t. split; [exact Ho | split; [exact Hd | split; reflexivity]].
Qed.

End Shapes.

(** *** Clock, heap and logs along a run that stops at [T] *)

Section Timed.
Context {G : Generator}.
Variable T : Q.

Definition timed (h : Hospital G) : Prop :=
  timed_of T (env h) (staff h) (patient_log h) (occupancy_log h).

Definition settled (h : Hospital G) : Prop :=
  settled_of T (now (env h)) (patient_log h) (occupancy_log h).

Ltac conjs :=
  unfold timed, settled, timed_of, settled_of in *;
  cbn [env staff patient_log occupancy_log set_env set_staff
       patient_log_append occupancy_log_append set_beds_in_use
       beds_in_use] in *;
  repeat match goal with |- _ /\ _ => split end.

Lemma timed_settled h : timed h -> settled h.
Proof. intros (_ & _ & _ & _ & H). exact H. Qed.

Lemma timed_only_rng (h h1 : Hospital G) :
  only_rng h h1 -> timed h -> timed h1.
Proof.
  intros (E1 & _ & E3 & _ & _ & E6 & E7). unfold timed.
  now rewrite E1, E3, E6, E7.
Qed.

Lemma timed_of_schedule e s pl ol ev prio d :
  timed_of T e s pl ol -> 0 <= d ->
  entry_ok T {| e_time := now e + d; e_prio := prio; e_eid := eid e;
              e_event := ev |} ->
  timed_of T (schedule e ev prio d) s pl ol.
Proof.
  intros (H1 & H2 & H3 & H4 & H5) Hd Hx. conjs.
  - now apply heap_ok_schedule.
  - cbn [schedule queue]. rewrite Forall_forall in *. intros y Hy.
    apply In_heappush in Hy. destruct Hy as [->|Hy]; [exact Hx | now apply H2].
  - exact H3.
  - destruct H4 as (u & Hu & Hev). exists u. split; [|exact Hev].
    cbn [schedule queue]. apply In_heappush. now right.
  - apply H5.
  - apply H5.
  - apply H5.
  - apply H5.
  - apply H5.
Qed.

(** Popping an event other than the stop event. *)
Lemma timed_of_pop e s pl ol ev e' :
  timed_of T e s pl ol -> pop e = Some (ev, e') -> ev <> Until ->
  timed_of T e' s pl ol
  /\ entry_ok T {| e_time := now e'; e_prio := 0; e_eid := 0; e_event := ev |}.
Proof.
  intros (H1 & H2 & H3 & H4 & H5) Hp Hne.
  destruct (heap_ok_pop _ _ _ H1 Hp) as (K1 & K2 & x & Hq & Hev & Hnow & Hx).
  rewrite Hq in H2, H4. apply Forall_cons_iff in H2. destruct H2 as [Hx2 H2].
  destruct H4 as (u & [Hu|Hu] & Hue).
  { subst u. congruence. }
  destruct H5 as (S1 & S2 & S3 & S4 & S5).
  assert (Hle : now e' <= T).
  { assert (Hut : e_time u == T).
    { rewrite Forall_forall in H2. specialize (H2 u Hu).
      unfold entry_ok in H2. now rewrite Hue in H2. }
    rewrite Forall_forall in Hx. apply Hx in Hu. apply no_later_time in Hu.
    rewrite Hnow. lra. }
  split.
  - conjs; try assumption.
    + rewrite Forall_forall in *. intros r Hr. specialize (H3 r Hr). lra.
    + exists u. auto.
    + lra.
    + lra.
  - unfold entry_ok in *. cbn [e_event e_time]. rewrite Hev in Hx2.
    rewrite Hnow. exact Hx2.
Qed.

(** Serving the queue of the staff pool. *)
Lemma timed_of_grant e (s : Resource Request) pl ol :
  timed_of T e s pl ol ->
  timed_of T
    (match snd (trigger_put s) with
     | Some r => schedule e (Request_granted r) NORMAL 0
     | None => e
     end)
    (fst (trigger_put s)) pl ol.
Proof.
  intros H. unfold trigger_put.
  destruct (put_queue s) as [|r rest] eqn:Hq; [exact H|].
  destruct (count s <? capacity s)%Z; [|exact H].
  cbn [fst snd]. pose proof H as (H1 & H2 & H3 & H4 & H5).
  rewrite Hq in H3. apply Forall_cons_iff in H3. destruct H3 as [Hr H3].
  apply timed_of_schedule; [|lra|].
  - conjs; try apply H1; try apply H5; assumption.
  - unfold entry_ok. cbn [e_event e_time]. lra.
Qed.

Lemma timed_staff_trigger_put h : timed h -> timed (staff_trigger_put h).
Proof.
  intros H. apply timed_of_grant in H. unfold timed, staff_trigger_put.
  destruct (trigger_put (staff h)) as [s [r|]]; exact H.
Qed.

Lemma timed_staff_request h req :
  timed h -> 0 <= req_arrival_time req <= now (env h) ->
  timed (staff_request h req).
Proof.
  intros (H1 & H2 & H3 & H4 & H5) Hr.
  assert (H : timed_of T (env h)
                {| capacity := capacity (staff h); users := users (staff h);
                   put_queue := put_queue (staff h) ++ [req] |}
                (patient_log h) (occupancy_log h)).
  { conjs; try apply H1; try apply H5; try assumption.
    cbn [put_queue]. apply Forall_app. split; [exact H3|].
    constructor; [exact Hr | constructor]. }
  apply timed_of_grant in H. unfold timed, staff_request, request.
  destruct (trigger_put _) as [s [r|]]; exact H.
Qed.

Lemma timed_patient h name : timed h -> timed (patient h name).
Proof.
  intros H. unfold patient.
  destruct (beds_in_use h >=? bed_capacity h)%Z.
  - destruct H as (H1 & H2 & H3 & H4 & S1 & S2 & S3 & S4 & S5).
    conjs; try apply H1; try assumption.
    cbn [patient_log patient_log_append]. apply Forall_app.
    split; [exact S5|]. constructor; [|constructor].
    split; [cbn [ArrivalTime]; split; assumption|].
    left. unfold balked. cbn. tauto.
  - apply timed_staff_request.
    + destruct H as (H1 & H2 & H3 & H4 & S1 & S2 & S3 & S4 & S5).
      conjs; try apply H1; try assumption;
        cbn [occupancy_log occupancy_log_append set_beds_in_use env].
      * apply rising_app; [exact S3 | exact S4].
      * rewrite last_time_app. cbn [fst]. lra.
    + destruct H as (_ & _ & _ & _ & S1 & _). cbn. lra.
Qed.

Lemma timed_patient_treated h req wait_time treatment_time :
  timed h -> 0 <= req_arrival_time req ->
  0 <= wait_time -> 0 <= treatment_time ->
  now (env h) == req_arrival_time req + wait_time + treatment_time ->
  timed (patient_treated h req wait_time treatment_time).
Proof.
  intros (H1 & H2 & H3 & H4 & S1 & S2 & S3 & S4 & S5) Ha Hw Ht Hn.
  unfold timed, patient_treated.
  cbn [env staff patient_log occupancy_log set_env set_staff
       patient_log_append occupancy_log_append set_beds_in_use
       beds_in_use].
  apply timed_of_schedule; [|lra|exact I].
  conjs; try apply H1; try assumption.
  - apply rising_app; [exact S3 | exact S4].
  - rewrite last_time_app. cbn [fst]. lra.
  - apply Forall_app. split; [exact S5|]. constructor; [|constructor].
    split; [cbn [ArrivalTime]; lra|].
    right. unfold discharged. cbn [Status TreatedBy WaitTime TreatmentTime
      TotalTime ArrivalTime]. split; [reflexivity|]. split; [reflexivity|].
    exists wait_time, treatment_time, (now (env h) - req_arrival_time req).
    conjs; try reflexivity; try assumption; lra.
Qed.

Lemma timed_patient_source_wait h patient_id mins h' :
  timed h -> patient_source_wait h patient_id mins = Ok h' -> timed h'.
Proof.
  intros H Hw. apply patient_source_wait_shape in Hw.
  destruct Hw as (h1 & d & Ho & Hd & ->).
  apply (timed_only_rng _ _ Ho) in H.
  unfold timed. cbn [env staff patient_log occupancy_log set_env].
  apply timed_of_schedule; [exact H | exact Hd | exact I].
Qed.

Lemma timed_set_env h e :
  timed_of T e (staff h) (patient_log h) (occupancy_log h) ->
  timed (set_env h e).
Proof. intros H. exact H. Qed.

(** Every event but the stop event keeps the clock, the heap and the
    logs well formed. *)
Lemma timed_step h h' : timed h -> step h = Continue h' -> timed h'.
Proof.
  intros H. unfold step.
  destruct (pop (env h)) as [[ev e]|] eqn:Hp; [|discriminate].
  destruct ev as [|name| |patient_id mins|req|req wait_time treatment_time|];
    try discriminate;
    (destruct (timed_of_pop _ _ _ _ _ _ H Hp) as [H0 Hx];
     [discriminate|]); apply timed_set_env in H0;
    unfold entry_ok in Hx; cbn [e_event e_time] in Hx.
  - unfold patient_source, bind. destruct (py_div _ _); [|discriminate].
    destruct (patient_source_wait _ _ _) as [h1|] eqn:Hw; [|discriminate].
    intros [= <-]. exact (timed_patient_source_wait _ _ _ _ H0 Hw).
  - intros [= <-]. now apply timed_patient.
  - unfold patient_source_resume.
    destruct (patient_source_wait _ _ _) as [h1|] eqn:Hw; [|discriminate].
    intros [= <-]. refine (timed_patient_source_wait _ _ _ _ _ Hw).
    unfold timed. cbn [env staff patient_log occupancy_log set_env].
    apply timed_of_schedule; [exact H0 | lra | exact I].
  - destruct (patient_staffed _ _) as [h2|] eqn:Hs; [|discriminate].
    intros [= <-]. apply patient_staffed_shape in Hs.
    destruct Hs as (h1 & t & Ho & Ht & _ & ->).
    pose proof Ho as (E1 & _).
    apply (timed_only_rng _ _ Ho) in H0.
    unfold timed. cbn [env staff patient_log occupancy_log set_env].
    apply timed_of_schedule; [exact H0 | exact Ht |].
    unfold entry_ok. cbn [e_event e_time env set_env] in *.
    rewrite E1. cbn [env set_env]. conjs; [lra | lra | exact Ht | lra].
  - intros [= <-]. destruct Hx as (Ha & Hw & Ht & Hn).
    now apply timed_patient_treated.
  - intros [= <-]. now apply timed_staff_trigger_put.
Qed.

(** When the stop event fires the clock is at [T]. *)
Lemma timed_stop h h' :
  timed h -> step h = StopSimulation h' -> settled h' /\ now (env h') == T.
Proof.
  intros (H1 & H2 & H3 & H4 & S1 & S2 & S3 & S4 & S5). unfold step.
  destruct (pop (env h)) as [[ev e]|] eqn:Hp; [|discriminate].
  destruct (heap_ok_pop _ _ _ H1 Hp) as (K1 & K2 & x & Hq & Hev & Hnow & Hx).
  destruct ev; try discriminate;
    try (destruct (patient_source _); discriminate);
    try (destruct (patient_source_resume _ _ _); discriminate);
    try (destruct (patient_staffed _ _); discriminate).
  intros [= <-]. cbn [env set_env].
  assert (Ht : now e == T).
  { rewrite Hq in H2. apply Forall_inv in H2. unfold entry_ok in H2.
    rewrite Hev in H2. rewrite Hnow. exact H2. }
  split; [|exact Ht].
  unfold settled, settled_of. cbn [env set_env patient_log occupancy_log].
  conjs; try assumption; lra.
Qed.

Lemma timed_never_empty h h' : timed h -> step h = EmptySchedule h' -> False.
Proof.
  intros (_ & _ & _ & (u & Hu & _) & _). unfold step, pop.
  destruct (queue (env h)) as [|x q]; [destruct Hu|].
  destruct (e_event x); try discriminate;
    cbn [continue]; try (destruct (patient_source _); discriminate);
    try (destruct (patient_source_resume _ _ _); discriminate);
    destruct (patient_staffed _ _); discriminate.
Qed.

End Timed.

(** *** Runs of [simulate] *)

Section Runs.
Context {G : Generator}.

(** What every event but the last keeps, and what then holds when the
    loop ends, whether by the stop event or for lack of fuel. *)
Lemma run_loop_ends (P Q : Hospital G -> Prop) :
  (forall h, P h -> Q h) ->
  (forall h h', P h -> step h = Continue h' -> P h') ->
  (forall h h', P h -> step h = StopSimulation h' -> Q h') ->
  (forall h h', P h -> step h = EmptySchedule h' -> Q h') ->
  forall fuel h h', P h -> after_run (run_loop fuel h) = Some h' -> Q h'.
Proof.
  intros HPQ Hc Hs He. induction fuel as [|fuel IH]; intros h h' HP;
    cbn [run_loop after_run].
  - intros [= <-]. now apply HPQ.
  - destruct (step h) as [h1|h1|h1|ex] eqn:Hstep; cbn [after_run].
    + apply IH. exact (Hc h h1 HP Hstep).
    + intros [= <-]. exact (Hs h h1 HP Hstep).
    + intros [= <-]. exact (He h h1 HP Hstep).
    + discriminate.
Qed.

(** The horizon of the run, in minutes. *)
Definition horizon (p : Params) : Q := simulation_duration p * MINS_IN_DAY.

(** The state in which [env.run] enters its loop. *)
Definition start (p : Params) (s : Resource Request) : Hospital G :=
  let hospital_ward :=
    {| env := Environment_init; rng := seed G RANDOM_SEED; params := p;
       staff := s; bed_capacity := num_beds p; beds_in_use := 0%Z;
       patient_log := []; occupancy_log := [] |} in
  let h := set_env hospital_ward
             (schedule (env hospital_ward) Initialize_source URGENT 0) in
  set_env h (schedule (env h) Until URGENT (horizon p - now (env h))).

Lemma simulate_start fuel p (g0 : rng_state G) o :
  simulate fuel p g0 = o -> (forall e, o <> Failed e) ->
  (0 < num_staff p)%Z /\ 0 < horizon p
  /\ o = run_loop fuel
           (start p {| capacity := num_staff p; users := [];
                       put_queue := [] |}).
Proof.
  unfold simulate, Hospital_init, Resource_init, bind, env_run.
  destruct (num_staff p <=? 0)%Z eqn:Hn.
  { intros <- H. now elim (H _ eq_refl). }
  cbn [env now set_env Environment_init].
  destruct (Qle_bool _ _) eqn:Hd.
  { intros <- H. now elim (H _ eq_refl). }
  intros <- _. apply Z.leb_gt in Hn. split; [exact Hn|]. split.
  - unfold horizon. destruct (Qlt_le_dec 0 (simulation_duration p * MINS_IN_DAY))
      as [H|H]; [exact H|].
    apply Qle_bool_iff in H. cbn [schedule now Environment_init] in Hd.
    congruence.
  - reflexivity.
Qed.

Lemma simulate_runs fuel p (g0 : rng_state G) h :
  after_run (simulate fuel p g0) = Some h ->
  (0 < num_staff p)%Z /\ 0 < horizon p
  /\ after_run
       (run_loop fuel
          (start p {| capacity := num_staff p; users := [];
                      put_queue := [] |})) = Some h.
Proof.
  intros H.
  destruct (simulate_start fuel p g0 _ eq_refl) as (H1 & H2 & H3).
  { intros e He. rewrite He in H. discriminate. }
  rewrite H3 in H. auto.
Qed.

Lemma timed_start p s :
  0 < horizon p -> put_queue s = [] -> timed (horizon p) (start p s).
Proof.
  intros Hp Hs. unfold timed, start, timed_of, settled_of.
  cbn [env staff patient_log occupancy_log set_env].
  rewrite Hs.
  repeat match goal with |- _ /\ _ => split end.
  - apply heap_ok_schedule; [apply heap_ok_schedule|].
    + apply heap_ok_init.
    + lra.
    + cbn [schedule now Environment_init]. lra.
  - cbn [schedule queue now Environment_init].
    rewrite Forall_forall. intros x Hx. apply In_heappush in Hx.
    destruct Hx as [->|Hx]; [unfold entry_ok; cbn [e_event e_time]; lra|].
    apply In_heappush in Hx. destruct Hx as [->|[]]. exact I.
  - constructor.
  - eexists. split.
    + cbn [schedule queue]. apply In_heappush. left. reflexivity.
    + reflexivity.
  - cbn. lra.
  - cbn [schedule now Environment_init]. lra.
  - exact I.
  - cbn. lra.
  - constructor.
Qed.


Lemma run_loop_finished (P Q : Hospital G -> Prop) :
  (forall h h', P h -> step h = Continue h' -> P h') ->
  (forall h h', P h -> step h = StopSimulation h' -> Q h') ->
  (forall h h', P h -> step h = EmptySchedule h' -> Q h') ->
  forall fuel h h', P h -> run_loop fuel h = Finished h' -> Q h'.
Proof.
  intros Hc Hs He. induction fuel as [|fuel IH]; intros h h' HP;
    cbn [run_loop]; [discriminate|].
  destruct (step h) as [h1|h1|h1|ex] eqn:Hstep.
  - apply IH. exact (Hc h h1 HP Hstep).
  - intros [= <-]. exact (Hs h h1 HP Hstep).
  - intros [= <-]. exact (He h h1 HP Hstep).
  - discriminate.
Qed.

(** Every state of a run has its clock and its logs within the horizon. *)
Lemma settled_simulate fuel p (g0 : rng_state G) h :
  after_run (simulate fuel p g0) = Some h -> settled (horizon p) h.
Proof.
  intros H. apply simulate_runs in H. destruct H as (Hn & Hp & H).
  revert H. apply (run_loop_ends (timed (horizon p))).
  - apply timed_settled.
  - apply timed_step.
  - intros h1 h2 H1 H2. now apply (timed_stop _ _ _ H1).
  - intros h1 h2 H1 H2. destruct (timed_never_empty _ _ _ H1 H2).
  - now apply timed_start.
Qed.

(** A run ends by its stop event, with the clock at the horizon. *)
Lemma finished_simulate fuel p (g0 : rng_state G) h :
  simulate fuel p g0 = Finished h -> now (env h) == horizon p.
Proof.
  intros H. destruct (simulate_start fuel p g0 _ H) as (Hn & Hp & H1).
  { discriminate. }
  symmetry in H1. revert H1.
  apply (run_loop_finished (timed (horizon p))
           (fun h => now (env h) == horizon p)).
  - apply timed_step.
  - intros h1 h2 H1 H2. now apply (timed_stop _ _ _ H1).
  - intros h1 h2 H1 H2. destruct (timed_never_empty _ _ _ H1 H2).
  - now apply timed_start.
Qed.

(** *** The staff pool along a run *)

Definition staffing (p : Params) (h : Hospital G) : Prop :=
  params h = p /\ capacity (staff h) = num_staff p
  /\ within_capacity (staff h).

Lemma staffing_only_rng p (h h1 : Hospital G) :
  only_rng h h1 -> staffing p h -> staffing p h1.
Proof.
  intros (_ & E2 & E3 & _). unfold staffing. now rewrite E2, E3.
Qed.

Lemma staffing_staff_trigger_put p h :
  staffing p h -> staffing p (staff_trigger_put h).
Proof.
  intros (H1 & H2 & H3). unfold staff_trigger_put.
  pose proof (trigger_put_capacity (staff h)) as Hc.
  pose proof (trigger_put_within (staff h) H3) as Hw.
  destruct (trigger_put (staff h)) as [s [r|]]; cbn [fst] in *;
    repeat split; cbn [params staff set_env set_staff]; congruence.
Qed.

Lemma staffing_staff_request p h req :
  staffing p h -> staffing p (staff_request h req).
Proof.
  intros (H1 & H2 & H3). unfold staff_request.
  pose proof (request_capacity (staff h) req) as Hc.
  pose proof (request_within (staff h) req H3) as Hw.
  destruct (request (staff h) req) as [s [r|]]; cbn [fst] in *;
    repeat split; cbn [params staff set_env set_staff]; congruence.
Qed.

Lemma staffing_step p h h' :
  staffing p h -> after_step (step h) = Some h' -> staffing p h'.
Proof.
  intros H. unfold step.
  destruct (pop (env h)) as [[ev e]|] eqn:Hp; [|intros [= <-]; exact H].
  assert (H0 : staffing p (set_env h e)) by exact H.
  destruct ev as [|name| |patient_id mins|req|req wait_time treatment_time|];
    cbn [after_step continue].
  - unfold patient_source, bind. destruct (py_div _ _); [|discriminate].
    destruct (patient_source_wait _ _ _) as [h2|] eqn:Hw; [|discriminate].
    intros [= <-]. apply patient_source_wait_shape in Hw.
    destruct Hw as (h1 & d & Ho & _ & ->).
    exact (staffing_only_rng _ _ _ Ho H0).
  - intros [= <-]. unfold patient.
    destruct (beds_in_use _ >=? bed_capacity _)%Z; [exact H0|].
    now apply staffing_staff_request.
  - intros [= <-]. exact H0.
  - unfold patient_source_resume.
    destruct (patient_source_wait _ _ _) as [h2|] eqn:Hw; [|discriminate].
    intros [= <-]. apply patient_source_wait_shape in Hw.
    destruct Hw as (h1 & d & Ho & _ & ->).
    refine (staffing_only_rng _ _ _ Ho _). exact H0.
  - destruct (patient_staffed _ _) as [h2|] eqn:Hs; [|discriminate].
    intros [= <-]. apply patient_staffed_shape in Hs.
    destruct Hs as (h1 & t & Ho & _ & _ & ->).
    exact (staffing_only_rng _ _ _ Ho H0).
  - intros [= <-]. destruct H0 as (H1 & H2 & H3).
    unfold patient_treated. repeat split; try assumption.
    cbn [staff set_env set_staff]. now apply release_within.
  - intros [= <-]. now apply staffing_staff_trigger_put.
Qed.


End Runs.
End DashboardRun.

(** ** The dashboard engine: what the results of a run satisfy *)

Module ResultFacts.
Import SimPy Dashboard DashboardFacts KPIFacts DashboardRun.

Lemma in_days_row_ok T (r : Row) :
  row_ok 1 T r -> row_ok MINS_IN_DAY T (in_days r).
Proof.
  intros [Ha [Hb|(Hs & Hb & w & t & tot & Hw & Ht & Htot & H1 & H2 & H3 & H4)]];
    (split; [exact Ha|]).
  - left. destruct Hb as (B1 & B2 & B3 & B4 & B5). unfold balked.
    cbn [in_days Status WaitTime TreatmentTime TotalTime TreatedBy].
    rewrite B2, B3, B4. auto.
  - right. unfold discharged.
    cbn [in_days Status WaitTime TreatmentTime TotalTime TreatedBy
         ArrivalTime].
    split; [exact Hs|]. split; [exact Hb|].
    exists (w / MINS_IN_DAY), (t / MINS_IN_DAY), (tot / MINS_IN_DAY).
    rewrite Hw, Ht, Htot. cbn [to_days option_map].
    assert (Hm : 0 < MINS_IN_DAY) by reflexivity.
    repeat split.
    + apply Qle_shift_div_l; [exact Hm | lra].
    + apply Qle_shift_div_l; [exact Hm | lra].
    + rewrite H3. field. intros H. rewrite H in Hm. discriminate.
    + assert (E : tot / MINS_IN_DAY * MINS_IN_DAY == tot).
      { field. intros H. rewrite H in Hm. discriminate. }
      rewrite E. lra.
Qed.

(** Each record is counted once: as treated or as balked. *)
Lemma treated_or_balked u T (log : list Row) :
  Forall (row_ok u T) log ->
  (List.length (treated log) + List.length (balked_records log)
   = List.length log)%nat.
Proof.
  unfold treated, balked_records.
  induction 1 as [|r log [_ Hr] _ IH]; [reflexivity|].
  cbn [filter List.length].
  destruct Hr as [(B1 & B2 & _)|(D1 & _ & w & _ & _ & D2 & _)].
  - rewrite B1, B2. cbn [notna]. 
    change (str_contains "Balked" "Balked (No Beds)") with true.
    cbn [List.length]. lia.
  - rewrite D1, D2. cbn [notna].
    change (str_contains "Balked" "Discharged") with false.
    cbn [List.length]. lia.
Qed.

Lemma sumQ_from (l : list Q) (a : Q) : fold_left Qplus l a == a + sumQ l.
Proof.
  unfold sumQ. revert a. induction l as [|x l IH]; intros a; cbn [fold_left].
  - lra.
  - rewrite (IH (a + x)), (IH (0 + x)). lra.
Qed.

Lemma sumQ_cons (x : Q) (l : list Q) : sumQ (x :: l) == x + sumQ l.
Proof. unfold sumQ at 1. cbn [fold_left]. rewrite sumQ_from. lra. Qed.

(** The waits and the stays of the treated records, in days. *)
Lemma treated_values T (log : list Row) :
  Forall (row_ok MINS_IN_DAY T) log ->
  exists ws ts,
    values (map WaitTime (treated log)) = ws
    /\ values (map TotalTime (treated log)) = ts
    /\ List.length ws = List.length (treated log)
    /\ List.length ts = List.length (treated log)
    /\ 0 <= sumQ ws /\ sumQ ws <= sumQ ts
    /\ sumQ ts * MINS_IN_DAY <= inject_Z (Z.of_nat (List.length ts)) * T.
Proof.
  unfold treated.
  induction 1 as [|r log [Ha Hr] _ IH].
  - exists [], []. cbn [filter map values List.length].
    repeat split; unfold sumQ; cbn [fold_left];
      change (inject_Z (Z.of_nat 0)) with 0; lra.
  - destruct IH as (ws & ts & I1 & I2 & I3 & I4 & I5 & I6 & I7).
    cbn [filter].
    destruct Hr as [(B1 & B2 & _)
                   |(D1 & _ & w & t & tot & D2 & _ & D3 & D4 & D5 & D6 & D7)].
    + rewrite B2. cbn [notna]. exists ws, ts. auto 10.
    + rewrite D2. cbn [notna map values]. rewrite D2, D3.
      exists (w :: ws), (tot :: ts). rewrite I1, I2.
      cbn [List.length]. rewrite I3, I4.
      repeat split; rewrite ?sumQ_cons; try lra.
      rewrite Nat2Z.inj_succ, <- Z.add_1_r, inject_Z_plus, <- I4.
      change (inject_Z 1) with 1. lra.
Qed.




Section OfRuns.
Context {G : Generator}.

(** A run that returns results has ended by its stop event with a log
    that is not empty. *)
Lemma run_results fuel p (g0 : rng_state G) r :
  run_hospital_simulation fuel p g0 = Some (Ok r) ->
  exists h,
    simulate fuel p g0 = Finished h /\ patient_log h <> []
    /\ process_results p (patient_log h) (occupancy_log h) = Ok r.
Proof.
  unfold run_hospital_simulation.
  destruct (simulate fuel p g0) as [h|e|h] eqn:Hs; try discriminate.
  intros [= Hr]. exists h. split; [reflexivity|]. split; [|exact Hr].
  intros Hnil. rewrite Hnil in Hr. discriminate.
Qed.

Lemma finished_settled fuel p (g0 : rng_state G) h :
  simulate fuel p g0 = Finished h ->
  0 < horizon p /\ settled (horizon p) h /\ invariant (num_beds p) h.
Proof.
  intros H.
  assert (Hrun : after_run (simulate fuel p g0) = Some h) by now rewrite H.
  split; [|split].
  - now destruct (simulate_runs _ _ _ _ Hrun) as (_ & Hp & _).
  - now apply (settled_simulate fuel p g0).
  - now apply (invariant_simulate fuel p g0).
Qed.

End OfRuns.
End ResultFacts.

(** ** Properties of the dashboard engine's runs and results *)

(** X1. In every state that a run of the dashboard engine reaches, the
    samples of the occupancy series are in time order: from one sample
    to the next the time does not decrease, and every time lies between
    0 and the horizon of the run, [simulation_duration * MINS_IN_DAY]
    minutes. *)
Theorem occupancy_samples_in_time_order :
  forall (G : Generator) (fuel : nat) (p : Dashboard.Params)
         (g0 : rng_state G) (h : Dashboard.Hospital G),
    DashboardFacts.after_run (Dashboard.simulate fuel p g0) = Some h ->
    (forall i s1 s2,
        nth_error (Dashboard.occupancy_log h) i = Some s1 ->
        nth_error (Dashboard.occupancy_log h) (S i) = Some s2 ->
        fst s1 <= fst s2)
    /\ Forall (fun s => 0 <= fst s
                        /\ fst s <= Dashboard.simulation_duration p
                                    * Dashboard.MINS_IN_DAY)
              (Dashboard.occupancy_log h).
Proof.
  intros G fuel p g0 h Hrun.
  destruct (DashboardRun.settled_simulate fuel p g0 h Hrun)
    as (S1 & S2 & S3 & S4 & _).
  split.
  - intros i s1 s2. exact (DashboardRun.rising_nth _ 0 i s1 s2 S3).
  - pose proof (DashboardRun.rising_bounds _ 0 S3) as Hb.
    fold (DashboardRun.last_time (Dashboard.occupancy_log h)) in Hb.
    unfold DashboardRun.horizon in S2.
    rewrite Forall_forall in *. intros s Hs. specialize (Hb s Hs). lra.
Qed.

Lemma occupancy_samples_witness :
  exists h : Dashboard.Hospital one_arrival,
    DashboardFacts.after_run
      (@Dashboard.simulate one_arrival 20 (small_ward baseline 2) [])
    = Some h
    /\ List.length (Dashboard.occupancy_log h) = 2%nat
    /\ Forall (fun s => 0 <= fst s /\ fst s <= 7 * Dashboard.MINS_IN_DAY)
              (Dashboard.occupancy_log h).
Proof.
  eexists. split; [vm_compute; reflexivity|].
  split; [reflexivity|].
  refine (proj2 (occupancy_samples_in_time_order
                   one_arrival 20%nat (small_ward baseline 2) [] _ _)).
  vm_compute; reflexivity.
Defined.



(** X3. In the results of a run the patients served and the balked
    records add up to the arrivals recorded, so that the blocking
    probability is the share of the recorded arrivals that were not
    served, a number between 0 and 100. *)
Theorem served_and_balked_add_up_to_arrivals :
  forall (G : Generator) (fuel : nat) (p : Dashboard.Params)
         (g0 : rng_state G) (r : Dashboard.Results),
    Dashboard.run_hospital_simulation fuel p g0 = Some (Ok r) ->
    let total :=
      Z.of_nat (List.length (Dashboard.rows (Dashboard.patient_log_df r))) in
    let served := Dashboard.Total_Patients_Served (Dashboard.kpis r) in
    (0 < total)%Z
    /\ (served + Dashboard.count_balked (Dashboard.patient_log_df r)
        = total)%Z
    /\ Dashboard.Blocking_Probability (Dashboard.kpis r)
       = inject_Z (total - served) / inject_Z total * 100
    /\ 0 <= Dashboard.Blocking_Probability (Dashboard.kpis r)
    /\ Dashboard.Blocking_Probability (Dashboard.kpis r) <= 100.
Proof.
  intros G fuel p g0 r Hrun.
  destruct (ResultFacts.run_results fuel p g0 r Hrun) as (h & Hs & Hne & Hr).
  destruct (ResultFacts.finished_settled fuel p g0 h Hs)
    as (_ & (_ & _ & _ & _ & Hrows) & _).
  rewrite (KPIFacts.process_results_nonempty p _ _ Hne) in Hr.
  injection Hr as <-.
  cbn [Dashboard.patient_log_df Dashboard.kpis
       Dashboard.Total_Patients_Served Dashboard.Blocking_Probability].
  unfold Dashboard.count_balked.
  rewrite (KPIFacts.converted_rows _ Hne), KPIFacts.balked_in_days,
    length_map.
  pose proof (ResultFacts.treated_or_balked _ _ _ Hrows) as Hsum.
  set (log := Dashboard.patient_log h) in *.
  assert (Hpos : (0 < Z.of_nat (List.length log))%Z).
  { destruct log; [congruence | cbn [List.length]; lia]. }
  assert (Hb : (Z.of_nat (List.length log)
                - Z.of_nat (List.length (KPIFacts.treated log)))%Z
               = Z.of_nat (List.length (KPIFacts.balked_records log)))
    by lia.
  cbv zeta. rewrite Hb.
  split; [exact Hpos|]. split; [lia|]. split; [reflexivity|].
  assert (Hq : 0 < inject_Z (Z.of_nat (List.length log))).
  { rewrite Zlt_Qlt in Hpos. exact Hpos. }
  assert (H0 : 0 <= inject_Z (Z.of_nat
                                (List.length (KPIFacts.balked_records log)))).
  { change 0 with (inject_Z 0). rewrite <- Zle_Qle. lia. }
  assert (H1 : inject_Z (Z.of_nat
                           (List.length (KPIFacts.balked_records log)))
               <= inject_Z (Z.of_nat (List.length log))).
  { rewrite <- Zle_Qle. lia. }
  set (b := inject_Z (Z.of_nat (List.length (KPIFacts.balked_records log))))
    in *.
  set (n := inject_Z (Z.of_nat (List.length log))) in *.
  assert (J0 : 0 <= b / n) by (apply Qle_shift_div_l; lra).
  assert (J1 : b / n <= 1) by (apply Qle_shift_div_r; lra).
  split; lra.
Qed.

Lemma served_and_balked_witness :
  exists r,
    @Dashboard.run_hospital_simulation one_arrival 20
      (small_ward baseline 0) [] = Some (Ok r)
    /\ Dashboard.Total_Patients_Served (Dashboard.kpis r) = 0%Z
    /\ Dashboard.count_balked (Dashboard.patient_log_df r) = 1%Z
    /\ Dashboard.Blocking_Probability (Dashboard.kpis r) <= 100.
Proof.
  eexists. split; [vm_compute; reflexivity|].
  split; [reflexivity|]. split; [reflexivity|].
  refine (proj2 (proj2 (proj2 (proj2
           (served_and_balked_add_up_to_arrivals
              one_arrival 20%nat (small_ward baseline 0) [] _ _))))).
  vm_compute; reflexivity.
Defined.



(** X5. In the results of a run the two averages over the treated
    patients are numbers, not NaN: the average wait for staff is not
    negative, it is at most the average length of stay, and the average
    length of stay is at most the simulated period, all in days. *)
Theorem average_wait_at_most_average_stay :
  forall (G : Generator) (fuel : nat) (p : Dashboard.Params)
         (g0 : rng_state G) (r : Dashboard.Results),
    Dashboard.run_hospital_simulation fuel p g0 = Some (Ok r) ->
    exists w s : Q,
      Dashboard.Average_Wait_for_Staff (Dashboard.kpis r) = Some w
      /\ Dashboard.Average_Patient_Length_of_Stay (Dashboard.kpis r) = Some s
      /\ 0 <= w /\ w <= s /\ s <= Dashboard.simulation_duration p.
Proof.
  intros G fuel p g0 r Hrun.
  destruct (ResultFacts.run_results fuel p g0 r Hrun) as (h & Hs & Hne & Hr).
  destruct (ResultFacts.finished_settled fuel p g0 h Hs)
    as (HT & (_ & _ & _ & _ & Hrows) & _).
  rewrite (KPIFacts.process_results_nonempty p _ _ Hne) in Hr.
  injection Hr as <-.
  cbn [Dashboard.kpis Dashboard.Average_Wait_for_Staff
       Dashboard.Average_Patient_Length_of_Stay].
  assert (Hd : 0 < Dashboard.simulation_duration p).
  { unfold DashboardRun.horizon in HT.
    assert (0 < Dashboard.MINS_IN_DAY) by reflexivity.
    destruct (Qlt_le_dec 0 (Dashboard.simulation_duration p)) as [H1|H1];
      [exact H1|].
    assert (Dashboard.simulation_duration p * Dashboard.MINS_IN_DAY
            <= 0 * Dashboard.MINS_IN_DAY)
      by (apply Qmult_le_compat_r; lra).
    lra. }
  assert (Hdays : Forall (DashboardRun.row_ok Dashboard.MINS_IN_DAY
                            (DashboardRun.horizon p))
                         (map KPIFacts.in_days (Dashboard.patient_log h))).
  { rewrite Forall_forall in *. intros x Hx. apply in_map_iff in Hx.
    destruct Hx as (y & <- & Hy). apply ResultFacts.in_days_row_ok.
    exact (Hrows y Hy). }
  destruct (ResultFacts.treated_values _ _ Hdays)
    as (ws & ts & E1 & E2 & L1 & L2 & B1 & B2 & B3).
  unfold KPIFacts.treated in E1, E2, L1, L2.
  rewrite KPIFacts.treated_in_days in E1, E2, L1, L2.
  rewrite length_map in L1, L2.
  destruct (KPIFacts.treated (Dashboard.patient_log h)) as [|x l] eqn:Ht.
  - exists 0, 0. repeat split; lra.
  - unfold Dashboard.mean. rewrite E1, E2.
    destruct ws as [|w0 ws]; [discriminate|].
    destruct ts as [|t0 ts]; [discriminate|].
    eexists. eexists. split; [reflexivity|]. split; [reflexivity|].
    rewrite L1, <- L2.
    set (n := inject_Z (Z.of_nat (List.length (t0 :: ts)))) in *.
    assert (Hn : 0 < n).
    { unfold n. change 0 with (inject_Z 0). rewrite <- Zlt_Qlt.
      cbn [List.length]. lia. }
    set (a := Dashboard.sumQ (w0 :: ws)) in *.
    set (b := Dashboard.sumQ (t0 :: ts)) in *.
    assert (Hm : 0 < Dashboard.MINS_IN_DAY) by reflexivity.
    unfold DashboardRun.horizon in B3.
    split; [apply Qle_shift_div_l; lra|]. split.
    + apply Qle_shift_div_l; [exact Hn|].
      assert (E : a / n * n == a) by (field; lra). lra.
    + apply Qle_shift_div_r; [exact Hn|].
      assert (b * Dashboard.MINS_IN_DAY
              <= Dashboard.simulation_duration p * n * Dashboard.MINS_IN_DAY)
        by lra.
      apply (Qmult_lt_0_le_reg_r _ _ Dashboard.MINS_IN_DAY); [exact Hm|].
      lra.
Qed.

Lemma average_wait_witness :
  exists r,
    @Dashboard.run_hospital_simulation one_arrival 20
      (small_ward baseline 2) [] = Some (Ok r)
    /\ exists w s : Q,
      Dashboard.Average_Wait_for_Staff (Dashboard.kpis r) = Some w
      /\ Dashboard.Average_Patient_Length_of_Stay (Dashboard.kpis r) = Some s
      /\ 0 <= w /\ w <= s /\ s <= 7.
Proof.
  eexists. split; [vm_compute; reflexivity|].
  refine (average_wait_at_most_average_stay
            one_arrival 20%nat (small_ward baseline 2) [] _ _).
  vm_compute; reflexivity.
Defined.

(** ** The workload-dependent scenario below its threshold

    The load of the workload-dependent scenario is the number of staff
    units in use over the number of staff, which never exceeds 1.  With
    a capacity factor of at least 1 the scenario therefore never
    degrades a treatment, and a run is the run of the baseline
    scenario. *)

Module WorkloadFacts.
Import SimPy ResourceFacts Dashboard DashboardFacts DashboardRun.


Definition baseline_name : string := "Baseline Model (Homogeneous Staff)".
Definition workload_name : string :=
  "Workload-Dependent Model (Dynamic Service Rates)".

Lemma Qmult_1_r_eq (q : Q) : q * 1 = q.
Proof.
  destruct q as [n d]. unfold Qmult. cbn [Qnum Qden].
  now rewrite Z.mul_1_r, Pos.mul_1_r.
Qed.

Section Relabel.
Context {G : Generator}.
Variable p' : Params.

(** The same state under the parameters [p']. *)
Definition relabel (h : Hospital G) : Hospital G :=
  {| env := env h; rng := rng h; params := p';
     staff := staff h; bed_capacity := bed_capacity h;
     beds_in_use := beds_in_use h; patient_log := patient_log h;
     occupancy_log := occupancy_log h |}.

Definition relabel_result (r : result (Hospital G)) : result (Hospital G) :=
  match r with
  | Ok h => Ok (relabel h)
  | Raise e => Raise e
  end.

Definition relabel_step (r : Step G) : Step G :=
  match r with
  | Continue h => Continue (relabel h)
  | StopSimulation h => StopSimulation (relabel h)
  | EmptySchedule h => EmptySchedule (relabel h)
  | Raised e => Raised e
  end.

Definition relabel_outcome (o : Outcome G) : Outcome G :=
  match o with
  | Finished h => Finished (relabel h)
  | Failed e => Failed e
  | OutOfFuel h => OutOfFuel (relabel h)
  end.

Lemma relabel_exponential (h : Hospital G) scale :
  exponential (relabel h) scale
  = match exponential h scale with
    | Ok (x, h') => Ok (x, relabel h')
    | Raise e => Raise e
    end.
Proof.
  unfold exponential, np_random_exponential, bind. cbn [rng relabel].
  destruct (Qlt_le_dec scale 0); [reflexivity|].
  destruct (standard_exponential G (rng h)); reflexivity.
Qed.

Lemma relabel_patient_source_wait (h : Hospital G) patient_id mins :
  patient_source_wait (relabel h) patient_id mins
  = relabel_result (patient_source_wait h patient_id mins).
Proof.
  unfold patient_source_wait, bind at 1 3. rewrite relabel_exponential.
  destruct (exponential h mins) as [[d h1]|]; [|reflexivity].
  unfold bind, timeout. cbn [env relabel].
  destruct (Qlt_le_dec d 0); reflexivity.
Qed.

Lemma relabel_patient_source (h : Hospital G) :
  arrival_rate p' = arrival_rate (params h) ->
  patient_source (relabel h) = relabel_result (patient_source h).
Proof.
  intros Ha. unfold patient_source, bind. cbn [params relabel].
  rewrite Ha. destruct (py_div _ _); [|reflexivity].
  apply relabel_patient_source_wait.
Qed.

Lemma relabel_patient_source_resume (h : Hospital G) patient_id mins :
  patient_source_resume (relabel h) patient_id mins
  = relabel_result (patient_source_resume h patient_id mins).
Proof.
  unfold patient_source_resume. rewrite <- relabel_patient_source_wait.
  reflexivity.
Qed.

Lemma relabel_staff_request (h : Hospital G) req :
  staff_request (relabel h) req = relabel (staff_request h req).
Proof.
  unfold staff_request. cbn [staff relabel].
  destruct (request (staff h) req) as [r [g|]]; reflexivity.
Qed.

Lemma relabel_patient (h : Hospital G) name :
  patient (relabel h) name = relabel (patient h name).
Proof.
  unfold patient. cbn [beds_in_use bed_capacity relabel env].
  destruct (beds_in_use h >=? bed_capacity h)%Z; [reflexivity|].
  rewrite <- relabel_staff_request. reflexivity.
Qed.

Lemma relabel_staff_trigger_put (h : Hospital G) :
  staff_trigger_put (relabel h) = relabel (staff_trigger_put h).
Proof.
  unfold staff_trigger_put. cbn [staff relabel].
  destruct (trigger_put (staff h)) as [r [g|]]; reflexivity.
Qed.

(** Two parameter sets that agree on what the run reads outside
    [get_treatment_time], and from which the treatment times are drawn
    alike, give the same run. *)
Variable p : Params.
Hypothesis same_arrival_rate : arrival_rate p' = arrival_rate p.
Hypothesis same_num_beds : num_beds p' = num_beds p.
Hypothesis same_num_staff : num_staff p' = num_staff p.
Hypothesis same_duration : simulation_duration p' = simulation_duration p.
Hypothesis same_treatment :
  forall h : Hospital G,
    staffing p h ->
    get_treatment_time (relabel h)
    = match get_treatment_time h with
      | Ok (x, h') => Ok (x, relabel h')
      | Raise e => Raise e
      end.

Lemma relabel_patient_staffed (h : Hospital G) req :
  staffing p h ->
  patient_staffed (relabel h) req = relabel_result (patient_staffed h req).
Proof.
  intros Hs. unfold patient_staffed, bind at 1 3.
  rewrite (same_treatment h Hs).
  destruct (get_treatment_time h) as [[t h1]|]; [|reflexivity].
  unfold bind, timeout. cbn [env relabel].
  destruct (Qlt_le_dec t 0); reflexivity.
Qed.

Lemma relabel_a_step (h : Hospital G) :
  staffing p h -> step (relabel h) = relabel_step (step h).
Proof.
  intros Hst. pose proof Hst as (Hp & Hcap & Hw).
  unfold step. cbn [env relabel].
  destruct (pop (env h)) as [[ev e]|]; [|reflexivity].
  change (set_env (relabel h) e) with (relabel (set_env h e)).
  assert (H0 : staffing p (set_env h e)) by exact Hst.
  destruct ev as [|name| |patient_id mins|req|req wait_time treatment_time|].
  - rewrite relabel_patient_source
      by (cbn [params set_env]; now rewrite Hp).
    destruct (patient_source _); reflexivity.
  - now rewrite relabel_patient.
  - reflexivity.
  - rewrite relabel_patient_source_resume.
    destruct (patient_source_resume _ _ _); reflexivity.
  - rewrite (relabel_patient_staffed _ _ H0).
    destruct (patient_staffed _ _); reflexivity.
  - reflexivity.
  - now rewrite relabel_staff_trigger_put.
Qed.

Lemma relabel_run_loop fuel : forall h : Hospital G,
  staffing p h ->
  run_loop fuel (relabel h) = relabel_outcome (run_loop fuel h).
Proof.
  induction fuel as [|fuel IH]; intros h Hst; cbn [run_loop]; [reflexivity|].
  rewrite (relabel_a_step h Hst).
  pose proof (staffing_step p h) as Hk.
  destruct (step h) as [h1|h1|h1|ex]; cbn [relabel_step relabel_outcome];
    try reflexivity.
  apply IH. apply Hk; [exact Hst | reflexivity].
Qed.

Lemma relabel_simulate fuel (g0 : rng_state G) :
  simulate fuel p' g0 = relabel_outcome (simulate fuel p g0).
Proof.
  unfold simulate, Hospital_init, Resource_init, bind, env_run.
  rewrite same_num_staff, same_num_beds, same_duration.
  destruct (num_staff p <=? 0)%Z eqn:Hn; [reflexivity|].
  cbn [env now set_env Environment_init].
  destruct (Qle_bool _ _); [reflexivity|].
  rewrite <- relabel_run_loop; [reflexivity|].
  repeat split. unfold within_capacity, count.
  cbn [staff set_env users capacity List.length]. lia.
Qed.

Lemma relabel_process_results (log : list Row) (occ : list (Q * Z)) :
  process_results p' log occ = process_results p log occ.
Proof.
  unfold process_results, average_bed_occupancy.
  now rewrite same_num_beds, same_duration.
Qed.

Lemma relabel_run fuel (g0 : rng_state G) :
  run_hospital_simulation fuel p' g0 = run_hospital_simulation fuel p g0.
Proof.
  unfold run_hospital_simulation. rewrite relabel_simulate.
  destruct (simulate fuel p g0); cbn [relabel_outcome]; try reflexivity.
  cbn [relabel patient_log occupancy_log].
  now rewrite relabel_process_results.
Qed.

End Relabel.

Section Threshold.
Context {G : Generator}.

(** With at most [num_staff] units in use and a capacity factor of at
    least 1, the workload-dependent treatment time is drawn as the
    baseline one. *)
Lemma workload_get_treatment_time (p' : Params) (h : Hospital G) :
  scenario (params h) = workload_name ->
  scenario p' = baseline_name ->
  senior_service_days p' = senior_service_days (params h) ->
  1 <= workload_factor_alpha (params h) ->
  (0 < num_staff (params h))%Z ->
  (count (staff h) <= num_staff (params h))%Z ->
  get_treatment_time (relabel p' h)
  = match get_treatment_time h with
    | Ok (x, h') => Ok (x, relabel p' h')
    | Raise e => Raise e
    end.
Proof.
  intros Hs Hs' Hd Ha Hn Hc. unfold get_treatment_time.
  cbn [params relabel].
  rewrite Hs, Hs', Hd. unfold baseline_name, workload_name.
  cbn [String.eqb Ascii.eqb Bool.eqb].
  unfold py_div, bind at 1.
  assert (Hq : 0 < inject_Z (num_staff (params h))).
  { change 0 with (inject_Z 0). now rewrite <- Zlt_Qlt. }
  destruct (Qeq_bool (inject_Z (num_staff (params h))) 0) eqn:Hz.
  { apply Qeq_bool_iff in Hz. lra. }
  assert (Hle : inject_Z (count (staff h)) / inject_Z (num_staff (params h))
                <= 1).
  { apply Qle_shift_div_r; [exact Hq|]. rewrite Zle_Qle in Hc. lra. }
  destruct (Qlt_le_dec _ _) as [Hlt|_]; [lra|].
  rewrite Qmult_1_r_eq. apply relabel_exponential.
Qed.

(** The workload-dependent run under its threshold is the baseline run
    of any parameters that agree with it on the arrival rate, the
    beds, the staff, the period and the senior service days. *)
Lemma workload_run (p p' : Params) fuel (g0 : rng_state G) :
  scenario p = workload_name ->
  1 <= workload_factor_alpha p ->
  scenario p' = baseline_name ->
  arrival_rate p' = arrival_rate p ->
  num_beds p' = num_beds p ->
  num_staff p' = num_staff p ->
  simulation_duration p' = simulation_duration p ->
  senior_service_days p' = senior_service_days p ->
  run_hospital_simulation fuel p' g0 = run_hospital_simulation fuel p g0.
Proof.
  intros Hs Ha Hs' E1 E2 E3 E4 E5.
  destruct (Z_lt_le_dec 0 (num_staff p)) as [Hn|Hn].
  - apply relabel_run; try assumption.
    intros h (Hp & Hcap & Hw).
    apply workload_get_treatment_time; rewrite ?Hp; try assumption.
    rewrite <- Hcap. exact Hw.
  - unfold run_hospital_simulation, simulate, Hospital_init, Resource_init,
      bind.
    rewrite E3. apply Z.leb_le in Hn. rewrite Hn. reflexivity.
Qed.

End Threshold.
End WorkloadFacts.





(** ** The dashboard engine: admissible parameters never make the event
    loop fail *)

Module NoFailure.
Import SimPy SimPyFacts ResourceFacts Dashboard DashboardFacts DashboardRun.

Section Sane.
Context {G : Generator}.
Variable p : Params.
(** The generator states that a run can meet: from them the exponential
    variates are not negative, as NumPy's are. *)
Variable good : rng_state G -> Prop.
Hypothesis good_exponential :
  forall g, good g ->
    0 <= fst (standard_exponential G g)
    /\ good (snd (standard_exponential G g)).
Hypothesis good_uniform :
  forall g, good g -> good (snd (random_sample G g)).
Hypothesis some_staff : (0 < num_staff p)%Z.
Hypothesis some_arrivals : 0 < arrival_rate p.
Hypothesis senior_days : 0 <= senior_service_days p.
Hypothesis junior_days : 0 <= junior_service_days p.

Definition source_ok (x : entry Event) : Prop :=
  match e_event x with
  | Timeout_source _ mins => 0 <= mins
  | _ => True
  end.

Definition sane (h : Hospital G) : Prop :=
  staffing p h /\ good (rng h) /\ Forall source_ok (queue (env h)).

Lemma sane_schedule (h : Hospital G) ev prio d :
  sane h ->
  source_ok {| e_time := now (env h) + d; e_prio := prio;
               e_eid := eid (env h); e_event := ev |} ->
  sane (set_env h (schedule (env h) ev prio d)).
Proof.
  intros (H1 & H2 & H3) Hx. split; [exact H1|]. split; [exact H2|].
  cbn [env set_env schedule queue]. rewrite Forall_forall in *.
  intros y Hy. apply In_heappush in Hy.
  destruct Hy as [->|Hy]; [exact Hx | now apply H3].
Qed.

Lemma sane_exponential (h : Hospital G) scale :
  sane h -> 0 <= scale ->
  exists x h', exponential h scale = Ok (x, h') /\ 0 <= x /\ sane h'.
Proof.
  intros (H1 & H2 & H3) Hs. rewrite (exponential_ok h scale Hs).
  destruct (good_exponential _ H2) as [Hx Hg].
  eexists. eexists. split; [reflexivity|]. split.
  - apply Qmult_le_0_compat; assumption.
  - split; [exact H1|]. split; [exact Hg | exact H3].
Qed.

Lemma sane_patient_source_wait (h : Hospital G) patient_id mins :
  sane h -> 0 <= mins ->
  exists h', patient_source_wait h patient_id mins = Ok h' /\ sane h'.
Proof.
  intros Hs Hm. unfold patient_source_wait, bind.
  destruct (sane_exponential h mins Hs Hm) as (d & h1 & -> & Hd & H1).
  unfold timeout. destruct (Qlt_le_dec d 0); [lra|].
  eexists. split; [reflexivity|]. now apply sane_schedule.
Qed.

Lemma sane_get_treatment_time (h : Hospital G) :
  sane h ->
  exists t h', get_treatment_time h = Ok (t, h') /\ 0 <= t /\ sane h'.
Proof.
  intros Hs. pose proof Hs as ((Hp & Hcap & Hw) & Hg & Hq).
  assert (Hm : 0 < MINS_IN_DAY) by reflexivity.
  assert (Hsen : 0 <= senior_service_days p * MINS_IN_DAY).
  { apply Qmult_le_0_compat; lra. }
  assert (Hjun : 0 <= junior_service_days p * MINS_IN_DAY).
  { apply Qmult_le_0_compat; lra. }
  unfold get_treatment_time. rewrite Hp.
  destruct (scenario p =? _)%string.
  { now apply sane_exponential. }
  destruct (scenario p =? _)%string.
  { unfold np_random_rand.
    destruct (random_sample G (rng h)) as [u g] eqn:Hu.
    apply sane_exponential.
    - split; [exact (conj Hp (conj Hcap Hw))|]. split; [|exact Hq].
      cbn [rng set_rng]. pose proof (good_uniform _ Hg) as H.
      now rewrite Hu in H.
    - destruct (Qlt_le_dec u _); assumption. }
  destruct (scenario p =? _)%string.
  { unfold py_div, bind at 1.
    assert (Hn : 0 < inject_Z (num_staff p)).
    { change 0 with (inject_Z 0). now rewrite <- Zlt_Qlt. }
    destruct (Qeq_bool (inject_Z (num_staff p)) 0) eqn:Hz.
    { apply Qeq_bool_iff in Hz. lra. }
    apply sane_exponential; [exact Hs|].
    apply Qmult_le_0_compat; [exact Hsen|].
    destruct (Qlt_le_dec _ _); lra. }
  exists 0, h. split; [reflexivity|]. split; [lra | exact Hs].
Qed.

Lemma sane_staff_request (h : Hospital G) req :
  sane h -> sane (staff_request h req).
Proof.
  intros (H1 & H2 & H3).
  pose proof (staffing_staff_request p h req H1) as Hst.
  split; [exact Hst|]. unfold staff_request in *.
  destruct (request (staff h) req) as [s [r|]]; cbn [rng set_env set_staff];
    (split; [exact H2|]); [|exact H3].
  cbn [env set_env set_staff schedule queue]. rewrite Forall_forall in *.
  intros y Hy. apply In_heappush in Hy.
  destruct Hy as [->|Hy]; [exact I | now apply H3].
Qed.

Lemma sane_staff_trigger_put (h : Hospital G) :
  sane h -> sane (staff_trigger_put h).
Proof.
  intros (H1 & H2 & H3).
  pose proof (staffing_staff_trigger_put p h H1) as Hst.
  split; [exact Hst|]. unfold staff_trigger_put in *.
  destruct (trigger_put (staff h)) as [s [r|]]; cbn [rng set_env set_staff];
    (split; [exact H2|]); [|exact H3].
  cbn [env set_env set_staff schedule queue]. rewrite Forall_forall in *.
  intros y Hy. apply In_heappush in Hy.
  destruct Hy as [->|Hy]; [exact I | now apply H3].
Qed.

(** No event raises, and every event keeps the state sane. *)
Lemma sane_step (h : Hospital G) :
  sane h ->
  match step h with
  | Continue h' => sane h'
  | Raised _ => False
  | _ => True
  end.
Proof.
  intros Hs. unfold step. unfold pop.
  destruct (queue (env h)) as [|x q] eqn:Hq; [exact I|].
  pose proof Hs as (H1 & H2 & H3). rewrite Hq in H3.
  apply Forall_cons_iff in H3. destruct H3 as [Hx H3].
  set (e := {| now := e_time x; eid := eid (env h); queue := q |}).
  assert (H0 : sane (set_env h e)).
  { split; [exact H1|]. split; [exact H2 | exact H3]. }
  unfold source_ok in Hx.
  destruct (e_event x)
    as [|name| |patient_id mins|req|req wait_time treatment_time|].
  - unfold patient_source, bind. cbn [params set_env].
    destruct H1 as (Hp & _). rewrite Hp. unfold py_div.
    destruct (Qeq_bool (arrival_rate p) 0) eqn:Hz.
    { apply Qeq_bool_iff in Hz. lra. }
    assert (Hm : 0 <= MINS_IN_DAY / arrival_rate p).
    { apply Qle_shift_div_l; [exact some_arrivals|].
      assert (0 < MINS_IN_DAY) by reflexivity. lra. }
    destruct (sane_patient_source_wait (set_env h e) 0%Z _ H0 Hm)
      as (h' & -> & Hh'). exact Hh'.
  - unfold patient.
    destruct (beds_in_use _ >=? bed_capacity _)%Z; [exact H0|].
    now apply sane_staff_request.
  - exact I.
  - unfold patient_source_resume.
    match goal with
    | |- context [patient_source_wait ?h1 ?i ?m] =>
        destruct (sane_patient_source_wait h1 i m) as (h' & -> & Hh')
    end.
    + apply (sane_schedule (set_env h e)); [exact H0 | exact I].
    + exact Hx.
    + exact Hh'.
  - unfold patient_staffed, bind.
    destruct (sane_get_treatment_time (set_env h e) H0)
      as (t & h1 & -> & Ht & Hh1).
    unfold timeout. destruct (Qlt_le_dec t 0); [lra|].
    cbn [continue]. apply sane_schedule; [exact Hh1 | exact I].
  - unfold patient_treated.
    apply (sane_schedule
             (set_staff
                (patient_log_append
                   (occupancy_log_append
                      (set_beds_in_use (set_env h e) _) _) _) _));
      [|exact I].
    destruct H0 as ((Hp & Hcap & Hw) & Hg & Hqq).
    split; [|split; [exact Hg | exact Hqq]].
    split; [exact Hp|]. split; [exact Hcap|].
    now apply release_within.
  - now apply sane_staff_trigger_put.
Qed.

Lemma sane_run_loop fuel : forall (h : Hospital G) e,
  sane h -> run_loop fuel h <> Failed e.
Proof.
  induction fuel as [|fuel IH]; intros h e Hs; cbn [run_loop];
    [discriminate|].
  pose proof (sane_step h Hs) as Hk.
  destruct (step h) as [h1|h1|h1|ex]; try discriminate.
  - now apply IH.
  - destruct Hk.
Qed.

End Sane.
End NoFailure.

(** With admissible parameters and a generator whose exponential
    variates are not negative, neither the set-up nor an event of the
    run raises. *)
Lemma simulate_never_fails :
  forall (G : Generator) (good : rng_state G -> Prop) (fuel : nat)
         (p : Dashboard.Params) (g0 : rng_state G),
    good (seed G Dashboard.RANDOM_SEED) ->
    (forall g, good g ->
       0 <= fst (standard_exponential G g)
       /\ good (snd (standard_exponential G g))) ->
    (forall g, good g -> good (snd (random_sample G g))) ->
    (0 < Dashboard.num_staff p)%Z ->
    0 < Dashboard.simulation_duration p ->
    0 < Dashboard.arrival_rate p ->
    0 <= Dashboard.senior_service_days p ->
    0 <= Dashboard.junior_service_days p ->
    forall e, Dashboard.simulate fuel p g0 <> Dashboard.Failed e.
Proof.
  intros G good fuel p g0 Hseed Hexp Huni Hstaff Hdur Hrate Hsen Hjun e.
  unfold Dashboard.simulate, Dashboard.Hospital_init,
    SimPy.Resource_init, bind, Dashboard.env_run.
  destruct (Dashboard.num_staff p <=? 0)%Z eqn:Hn;
    [apply Z.leb_le in Hn; lia|].
  cbn [Dashboard.env SimPy.now Dashboard.set_env SimPy.Environment_init
       SimPy.schedule].
  destruct (Qle_bool _ _) eqn:Hd.
  { apply Qle_bool_iff in Hd.
    assert (0 < Dashboard.MINS_IN_DAY) by reflexivity.
    assert (0 < Dashboard.simulation_duration p * Dashboard.MINS_IN_DAY)
      by (apply Qmult_lt_0_compat; assumption).
    lra. }
  apply (NoFailure.sane_run_loop p good Hexp Huni Hstaff Hrate Hsen Hjun).
  split; [|split].
  - repeat split. unfold ResourceFacts.within_capacity, SimPy.count.
    cbn [Dashboard.staff Dashboard.set_env SimPy.users SimPy.capacity
         List.length]. lia.
  - exact Hseed.
  - cbn [Dashboard.env Dashboard.set_env SimPy.queue].
    rewrite Forall_forall. intros y Hy.
    apply SimPyFacts.In_heappush in Hy. destruct Hy as [->|Hy]; [exact I|].
    apply SimPyFacts.In_heappush in Hy. destruct Hy as [->|[]]. exact I.
Qed.

(** What [run_hospital_simulation] gives when the run does not fail. *)
Lemma run_without_failure {G : Generator} (fuel : nat)
      (p : Dashboard.Params) (g0 : rng_state G) :
  (forall e, Dashboard.simulate fuel p g0 <> Dashboard.Failed e) ->
  Dashboard.run_hospital_simulation fuel p g0 = None
  \/ Dashboard.run_hospital_simulation fuel p g0
     = Some (Raise (KeyError "WaitTime"))
  \/ exists r, Dashboard.run_hospital_simulation fuel p g0 = Some (Ok r).
Proof.
  intros Hnf. unfold Dashboard.run_hospital_simulation.
  destruct (Dashboard.simulate fuel p g0) as [h|e|h].
  - destruct (Dashboard.patient_log h) as [|r0 log] eqn:Hlog.
    + right. left. reflexivity.
    + right. right. rewrite KPIFacts.process_results_nonempty by discriminate.
      eexists. reflexivity.
  - now elim (Hnf e).
  - left. reflexivity.
Qed.

(** X8. With staff, a simulated period and an arrival rate that are
    positive, service days that are not negative, and a generator whose
    exponential variates are not negative, no event of a run raises: the
    run fails neither in its set-up nor in its event loop.  The only
    exception [run_hospital_simulation] can then raise is the
    [KeyError] of the KPI computation on a log without a record. *)
Theorem admissible_parameters_never_fail_the_event_loop :
  forall (G : Generator) (good : rng_state G -> Prop) (fuel : nat)
         (p : Dashboard.Params) (g0 : rng_state G),
    good (seed G Dashboard.RANDOM_SEED) ->
    (forall g, good g ->
       0 <= fst (standard_exponential G g)
       /\ good (snd (standard_exponential G g))) ->
    (forall g, good g -> good (snd (random_sample G g))) ->
    (0 < Dashboard.num_staff p)%Z ->
    0 < Dashboard.simulation_duration p ->
    0 < Dashboard.arrival_rate p ->
    0 <= Dashboard.senior_service_days p ->
    0 <= Dashboard.junior_service_days p ->
    (forall e, Dashboard.simulate fuel p g0 <> Dashboard.Failed e)
    /\ (Dashboard.run_hospital_simulation fuel p g0 = None
        \/ Dashboard.run_hospital_simulation fuel p g0
           = Some (Raise (KeyError "WaitTime"))
        \/ exists r,
            Dashboard.run_hospital_simulation fuel p g0 = Some (Ok r)).
Proof.
  intros G good fuel p g0 Hseed Hexp Huni Hstaff Hdur Hrate Hsen Hjun.
  assert (Hnf : forall e, Dashboard.simulate fuel p g0 <> Dashboard.Failed e).
  { now apply (simulate_never_fails G good). }
  split; [exact Hnf|]. now apply run_without_failure.
Qed.

Lemma admissible_parameters_witness :
  @Dashboard.run_hospital_simulation one_arrival 20
    (small_ward baseline 2) [] = None
  \/ @Dashboard.run_hospital_simulation one_arrival 20
       (small_ward baseline 2) [] = Some (Raise (KeyError "WaitTime"))
  \/ exists r,
      @Dashboard.run_hospital_simulation one_arrival 20
        (small_ward baseline 2) [] = Some (Ok r).
Proof.
  refine (proj2 (admissible_parameters_never_fail_the_event_loop
                   one_arrival (Forall (fun x => 0 <= x)) 20%nat
                   (small_ward baseline 2) [] _ _ _ _ _ _ _ _)).
  - repeat constructor; discriminate.
  - intros [|x g] Hg.
    + split; [discriminate | constructor].
    + apply Forall_cons_iff in Hg. exact Hg.
  - intros [|x g] Hg.
    + constructor.
    + apply Forall_cons_iff in Hg. apply Hg.
  - reflexivity.
  - reflexivity.
  - reflexivity.
  - discriminate.
  - discriminate.
Defined.

(** ** The script: what a run keeps *)

Module ScriptRun.
Import SimPy SimPyFacts HeapFacts ResourceFacts Script ScriptFacts.

(** The record of a patient who balked: three keys only. *)
Definition balked (r : Row) : Prop :=
  status r = "Balked" /\ waited_for_bed r = None
  /\ waited_for_staff r = None /\ treatment_duration r = None
  /\ staff_type r = None.

(** The record of a discharge: no wait for the bed, a wait for staff
    and a treatment that are not negative, and a departure within the
    horizon [T]. *)
Definition discharged (T : Q) (r : Row) : Prop :=
  status r = "Discharged"
  /\ exists b s t st,
      waited_for_bed r = Some b /\ waited_for_staff r = Some s
      /\ treatment_duration r = Some t /\ staff_type r = Some st
      /\ b == 0 /\ 0 <= s /\ 0 <= t
      /\ arrival_time r + s + t <= T.

Definition row_ok (T : Q) (r : Row) : Prop :=
  (0 <= arrival_time r /\ arrival_time r <= T)
  /\ (balked r \/ discharged T r).

Definition entry_ok (T : Q) (x : entry Event) : Prop :=
  match e_event x with
  | Until => e_time x == T
  | Bed_request req =>
      0 <= bed_arrival_time req /\ e_time x == bed_arrival_time req
  | Timeout_treatment _ arrival_time bed_assign_time staff_assign_time _ =>
      0 <= arrival_time /\ bed_assign_time == arrival_time
      /\ bed_assign_time <= staff_assign_time
      /\ staff_assign_time <= e_time x
  | _ => True
  end.

Definition race_ok (t : Q) (r : Race) : Prop :=
  0 <= race_arrival_time r
  /\ race_bed_assign_time r == race_arrival_time r
  /\ race_bed_assign_time r <= t.

Definition until_in (q : list (entry Event)) : Prop :=
  exists x, In x q /\ e_event x = Until.

Definition timed_of (T : Q) (e : Environment Event)
           (b : Resource BedRequest) (rs : list (Z * Race))
           (log : list Row) : Prop :=
  heap_ok e /\ Forall (entry_ok T) (queue e)
  /\ put_queue b = []
  /\ (forall n r, race_get n rs = Some r -> race_ok (now e) r)
  /\ until_in (queue e)
  /\ 0 <= now e /\ now e <= T
  /\ Forall (row_ok T) log.

Section Timed.
Context {G : Generator} (C : Constants).
Variable T : Q.

Definition timed (w : World G) : Prop :=
  timed_of T (env w) (beds w) (races w) (patient_log w).

Ltac parts :=
  unfold timed, timed_of in *;
  repeat match goal with |- _ /\ _ => split end.

Lemma script_timed_of_schedule e b rs log ev prio d :
  timed_of T e b rs log -> 0 <= d ->
  entry_ok T {| e_time := now e + d; e_prio := prio; e_eid := eid e;
                e_event := ev |} ->
  timed_of T (schedule e ev prio d) b rs log.
Proof.
  intros (H1 & H2 & H3 & H4 & H5 & H6 & H7 & H8) Hd Hx. parts;
    try assumption.
  - now apply heap_ok_schedule.
  - cbn [schedule queue]. rewrite Forall_forall in *. intros y Hy.
    apply In_heappush in Hy. destruct Hy as [->|Hy]; [exact Hx | now apply H2].
  - destruct H5 as (u & Hu & Hev). exists u. split; [|exact Hev].
    cbn [schedule queue]. apply In_heappush. now right.
Qed.

Lemma timed_succeed (w : World G) ev :
  timed w ->
  entry_ok T {| e_time := now (env w) + 0; e_prio := NORMAL;
                e_eid := eid (env w); e_event := ev |} ->
  timed (succeed w ev).
Proof.
  intros H Hx. unfold timed, succeed.
  cbn [env beds races patient_log set_env].
  apply script_timed_of_schedule; [exact H | lra | exact Hx].
Qed.

Lemma script_timed_of_pop e b rs log ev e' :
  timed_of T e b rs log -> pop e = Some (ev, e') -> ev <> Until ->
  timed_of T e' b rs log
  /\ entry_ok T {| e_time := now e'; e_prio := 0; e_eid := 0; e_event := ev |}.
Proof.
  intros (H1 & H2 & H3 & H4 & H5 & H6 & H7 & H8) Hp Hne.
  destruct (heap_ok_pop _ _ _ H1 Hp) as (K1 & K2 & x & Hq & Hev & Hnow & Hx).
  rewrite Hq in H2, H5. apply Forall_cons_iff in H2. destruct H2 as [Hx2 H2].
  destruct H5 as (u & [Hu|Hu] & Hue).
  { subst u. congruence. }
  assert (Hle : now e' <= T).
  { assert (Hut : e_time u == T).
    { rewrite Forall_forall in H2. specialize (H2 u Hu).
      unfold entry_ok in H2. now rewrite Hue in H2. }
    rewrite Forall_forall in Hx. apply Hx in Hu. apply no_later_time in Hu.
    rewrite Hnow. lra. }
  split.
  - parts; try assumption.
    + intros n r Hr. destruct (H4 n r Hr) as (A1 & A2 & A3).
      repeat split; try assumption. lra.
    + exists u. auto.
    + lra.
  - unfold entry_ok in *. cbn [e_event e_time]. rewrite Hev in Hx2.
    rewrite Hnow. exact Hx2.
Qed.

Lemma script_timed_staff_request (w : World G) s n :
  timed w -> timed (staff_request w s n).
Proof.
  intros H. unfold staff_request.
  destruct (request (staff w s) n) as [r [k|]].
  - apply timed_succeed; [|exact I]. destruct s; exact H.
  - destruct s; exact H.
Qed.

Lemma timed_trigger_put_pool (w : World G) pool :
  timed w -> timed (trigger_put_pool w pool).
Proof.
  intros H. unfold trigger_put_pool. destruct pool.
  - unfold trigger_put.
    destruct H as (H1 & H2 & H3 & H4 & H5 & H6 & H7 & H8).
    rewrite H3. parts; assumption.
  - destruct (trigger_put (staff_senior w)) as [r [k|]]; [|exact H].
    apply timed_succeed; [exact H | exact I].
  - destruct (trigger_put (staff_junior w)) as [r [k|]]; [|exact H].
    apply timed_succeed; [exact H | exact I].
Qed.

Lemma script_timed_patient (w : World G) name : timed w -> timed (patient w name).
Proof.
  intros H. unfold patient.
  destruct (count (beds w) >=? capacity (beds w))%Z eqn:E.
  - destruct H as (H1 & H2 & H3 & H4 & H5 & H6 & H7 & H8).
    parts; try assumption.
    cbn [patient_log patient_log_append]. apply Forall_app.
    split; [exact H8|]. constructor; [|constructor].
    split; [cbn [arrival_time]; split; assumption|].
    left. unfold balked. cbn. tauto.
  - pose proof H as (H1 & H2 & H3 & H4 & H5 & H6 & H7 & H8).
    unfold beds_request, request, trigger_put. rewrite H3.
    cbn [put_queue app].
    change (count {| capacity := capacity (beds w); users := users (beds w);
                     put_queue := _ |}) with (count (beds w)).
    cbn [capacity].
    destruct (count (beds w) <? capacity (beds w))%Z eqn:E'; [|lia].
    apply timed_succeed.
    + parts; cbn [env beds races patient_log set_beds put_queue];
        try assumption; reflexivity.
    + unfold entry_ok. cbn [e_event e_time bed_arrival_time env set_beds].
      split; lra.
Qed.

Lemma timed_set_race (w : World G) n r :
  timed w -> race_ok (now (env w)) r -> timed (set_race w n r).
Proof.
  intros (H1 & H2 & H3 & H4 & H5 & H6 & H7 & H8) Hr. parts; try assumption.
  cbn [races set_race env]. intros m r' Hm.
  destruct (Z.eq_dec n m) as [->|Hnm].
  - rewrite race_get_set in Hm. injection Hm as <-. exact Hr.
  - rewrite RaceFacts.race_get_set_other in Hm by exact Hnm.
    exact (H4 m r' Hm).
Qed.

Lemma env_staff_request_now (w : World G) s n :
  now (env (staff_request w s n)) = now (env w).
Proof.
  unfold staff_request.
  destruct (request (staff w s) n) as [r [k|]]; destruct s; reflexivity.
Qed.

Lemma timed_patient_bedded (w : World G) req :
  timed w -> 0 <= bed_arrival_time req ->
  now (env w) == bed_arrival_time req ->
  timed (patient_bedded w req).
Proof.
  intros H Ha Hn. unfold patient_bedded. apply timed_set_race.
  - now do 2 apply script_timed_staff_request.
  - rewrite !env_staff_request_now. unfold race_ok.
    cbn [race_arrival_time race_bed_assign_time]. repeat split; lra.
Qed.

Lemma timed_staff_request_fired (w : World G) s n :
  timed w -> timed (staff_request_fired w s n).
Proof.
  intros H. unfold staff_request_fired.
  destruct (race_get n (races w)) as [r|] eqn:Hr; [|exact H].
  assert (H1 : timed (set_race w n
    {| race_arrival_time := race_arrival_time r;
       race_bed_assign_time := race_bed_assign_time r;
       senior_processed :=
         match s with Senior => true | Junior => senior_processed r end;
       junior_processed :=
         match s with Senior => junior_processed r | Junior => true end;
       triggered := orb (triggered r) (negb (built r));
       built := built r |})).
  { apply timed_set_race; [exact H|].
    destruct H as (_ & _ & _ & H4 & _). exact (H4 n r Hr). }
  destruct (built r || triggered r)%bool; [exact H1|].
  apply timed_succeed; [exact H1 | exact I].
Qed.

Lemma timed_patient_generator (w w' : World G) patient_id :
  timed w -> patient_generator C w patient_id = Ok w' -> timed w'.
Proof.
  intros H. unfold patient_generator, bind.
  destruct (py_div 1 _); [|discriminate].
  destruct (np_random_exponential _ _) as [[d g]|]; [|discriminate].
  unfold timeout. destruct (Qlt_le_dec d 0); [discriminate|].
  intros [= <-]. unfold timed.
  cbn [env beds races patient_log set_env set_rng].
  apply script_timed_of_schedule; [exact H | assumption | exact I].
Qed.

Lemma timed_patient_assigned (w w' : World G) n :
  timed w -> patient_assigned C w n = Ok w' -> timed w'.
Proof.
  intros H. unfold patient_assigned.
  destruct (race_get n (races w)) as [r|] eqn:Hr; [|intros [= <-]; exact H].
  pose proof H as (_ & _ & _ & H4 & _).
  destruct (H4 n r Hr) as (A1 & A2 & A3).
  set (r1 := {| race_arrival_time := _ |}).
  assert (H1 : timed (set_race w n r1)).
  { apply timed_set_race; [exact H|]. repeat split; assumption. }
  unfold bind.
  destruct (mu_ideal_of C _); [|discriminate].
  destruct (mu_actual C _ _); [|discriminate].
  destruct (py_div 1 _); [|discriminate].
  destruct (np_random_exponential _ _) as [[d g]|]; [|discriminate].
  unfold timeout. destruct (Qlt_le_dec d 0); [discriminate|].
  intros [= <-]. unfold timed.
  cbn [env beds races patient_log set_env set_rng].
  apply script_timed_of_schedule; [exact H1 | assumption |].
  unfold entry_ok. cbn [e_event e_time env set_race set_rng].
  repeat split; try assumption; lra.
Qed.

Lemma script_timed_patient_treated (w : World G) n a b c st :
  timed w -> 0 <= a -> b == a -> b <= c -> c <= now (env w) ->
  timed (patient_treated w n a b c st).
Proof.
  intros H Ha Hb Hc Hn. unfold patient_treated.
  apply timed_succeed; [|exact I].
  set (w1 := succeed _ _).
  assert (H1 : timed w1).
  { apply timed_succeed; [|exact I]. destruct st; exact H. }
  assert (Hnow : now (env w1) = now (env w)) by (destruct st; reflexivity).
  destruct H1 as (H1 & H2 & H3 & H4 & H5 & H6 & H7 & H8).
  parts; try assumption.
  cbn [patient_log patient_log_append set_beds]. apply Forall_app.
  split; [exact H8|]. constructor; [|constructor].
  rewrite Hnow in *.
  split; [cbn [arrival_time]; lra|].
  right. unfold discharged.
  cbn [status waited_for_bed waited_for_staff treatment_duration staff_type
       arrival_time].
  split; [reflexivity|].
  exists (b - a), (c - b), (now (env w) - c), st.
  repeat split; lra.
Qed.

(** Every event but the stop event keeps the clock, the heap and the
    log well formed. *)
Lemma script_timed_step (w w' : World G) :
  timed w -> step C w = Continue w' -> timed w'.
Proof.
  intros H. unfold step.
  destruct (pop (env w)) as [[ev e]|] eqn:Hp; [|discriminate].
  destruct ev as [| n | | pid | req | s n | n | n a b c st | pool];
    try discriminate;
    (destruct (script_timed_of_pop _ _ _ _ _ _ H Hp) as [H0 Hx];
     [discriminate|]);
    change (timed (set_env w e)) in H0;
    unfold entry_ok in Hx; cbn [e_event e_time] in Hx; cbn [continue].
  - destruct (patient_generator _ _ _) as [w1|] eqn:Hw; [|discriminate].
    intros [= <-]. exact (timed_patient_generator _ _ _ H0 Hw).
  - intros [= <-]. now apply script_timed_patient.
  - unfold patient_generator_resume.
    destruct (patient_generator _ _ _) as [w1|] eqn:Hw; [|discriminate].
    intros [= <-]. refine (timed_patient_generator _ _ _ _ Hw).
    unfold timed. cbn [env beds races patient_log set_env].
    apply script_timed_of_schedule; [exact H0 | lra | exact I].
  - intros [= <-]. destruct Hx as [Ha Hn].
    apply timed_patient_bedded; assumption.
  - intros [= <-]. now apply timed_staff_request_fired.
  - destruct (patient_assigned _ _ _) as [w1|] eqn:Hw; [|discriminate].
    intros [= <-]. exact (timed_patient_assigned _ _ _ H0 Hw).
  - intros [= <-]. destruct Hx as (Ha & Hb & Hc & Hn).
    now apply script_timed_patient_treated.
  - intros [= <-]. now apply timed_trigger_put_pool.
Qed.


(** What the log and the clock satisfy in every state of a run. *)
Definition logged (w : World G) : Prop :=
  0 <= now (env w) /\ now (env w) <= T
  /\ Forall (row_ok T) (patient_log w).

Lemma timed_logged (w : World G) : timed w -> logged w.
Proof.
  intros (_ & _ & _ & _ & _ & H6 & H7 & H8). repeat split; assumption.
Qed.

Lemma script_timed_stop (w w' : World G) :
  timed w -> step C w = StopSimulation w' -> logged w'.
Proof.
  intros (H1 & H2 & H3 & H4 & H5 & H6 & H7 & H8). unfold step.
  destruct (pop (env w)) as [[ev e]|] eqn:Hp; [|discriminate].
  destruct (heap_ok_pop _ _ _ H1 Hp) as (K1 & K2 & x & Hq & Hev & Hnow & Hx).
  destruct ev; try discriminate;
    try (destruct (patient_generator _ _ _); discriminate);
    try (destruct (patient_generator_resume _ _ _); discriminate);
    try (destruct (patient_assigned _ _ _); discriminate).
  intros [= <-].
  assert (Ht : now e == T).
  { rewrite Hq in H2. apply Forall_inv in H2. unfold entry_ok in H2.
    rewrite Hev in H2. rewrite Hnow. exact H2. }
  unfold logged. cbn [env set_env patient_log].
  repeat split; try assumption; lra.
Qed.

Lemma script_timed_never_empty (w w' : World G) :
  timed w -> step C w = EmptySchedule w' -> False.
Proof.
  intros (_ & _ & _ & _ & (u & Hu & _) & _). unfold step, pop.
  destruct (queue (env w)) as [|x q]; [destruct Hu|].
  destruct (e_event x); try discriminate; cbn [continue];
    try (destruct (patient_generator _ _ _); discriminate);
    try (destruct (patient_generator_resume _ _ _); discriminate);
    destruct (patient_assigned _ _ _); discriminate.
Qed.

End Timed.

Section Runs.
Context {G : Generator} (C : Constants).

Lemma script_run_loop_ends (P Q : World G -> Prop) :
  (forall w, P w -> Q w) ->
  (forall w w', P w -> step C w = Continue w' -> P w') ->
  (forall w w', P w -> step C w = StopSimulation w' -> Q w') ->
  (forall w w', P w -> step C w = EmptySchedule w' -> Q w') ->
  forall fuel w w', P w -> after_run (run_loop C fuel w) = Some w' -> Q w'.
Proof.
  intros HPQ Hc Hs He. induction fuel as [|fuel IH]; intros w w' HP;
    cbn [run_loop after_run].
  - intros [= <-]. now apply HPQ.
  - destruct (step C w) as [w1|w1|w1|ex] eqn:Hstep; cbn [after_run].
    + apply IH. exact (Hc w w1 HP Hstep).
    + intros [= <-]. exact (Hs w w1 HP Hstep).
    + intros [= <-]. exact (He w w1 HP Hstep).
    + discriminate.
Qed.

(** Every state of a run of the script has its clock and its log
    within the horizon. *)
Lemma logged_main fuel (g0 : rng_state G) (w : World G) :
  after_run (main C fuel g0) = Some w -> logged (SIM_TIME_MINUTES C) w.
Proof.
  unfold main, Resource_init, bind, env_run.
  destruct (NUM_BEDS C <=? 0)%Z; [discriminate|].
  destruct (NUM_SENIOR_STAFF C <=? 0)%Z; [discriminate|].
  destruct (NUM_JUNIOR_STAFF C <=? 0)%Z; [discriminate|].
  cbn [env now schedule Environment_init].
  destruct (Qle_bool _ _) eqn:Hd; [discriminate|].
  assert (HT : 0 < SIM_TIME_MINUTES C).
  { destruct (Qlt_le_dec 0 (SIM_TIME_MINUTES C)) as [H|H]; [exact H|].
    apply Qle_bool_iff in H. congruence. }
  apply (script_run_loop_ends (timed (SIM_TIME_MINUTES C))).
  - apply timed_logged.
  - apply script_timed_step.
  - apply script_timed_stop.
  - intros w1 w2 H1 H2. destruct (script_timed_never_empty _ _ _ _ H1 H2).
  - unfold timed, timed_of.
    cbn [env beds races patient_log set_env put_queue].
    repeat match goal with |- _ /\ _ => split end.
    + apply heap_ok_schedule; [apply heap_ok_schedule|].
      * apply heap_ok_init.
      * lra.
      * cbn [schedule now Environment_init]. lra.
    + cbn [schedule queue now Environment_init].
      rewrite Forall_forall. intros x Hx. apply In_heappush in Hx.
      destruct Hx as [->|Hx]; [unfold entry_ok; cbn [e_event e_time]; lra|].
      apply In_heappush in Hx. destruct Hx as [->|[]]. exact I.
    + reflexivity.
    + cbn [race_get]. discriminate.
    + eexists. split.
      * cbn [schedule queue]. apply In_heappush. left. reflexivity.
      * reflexivity.
    + cbn. lra.
    + cbn [schedule now Environment_init]. lra.
    + constructor.
Qed.

(** *** The three pools *)

Definition pools (w : World G) : Prop :=
  (capacity (beds w) = NUM_BEDS C /\ within_capacity (beds w))
  /\ (capacity (staff_senior w) = NUM_SENIOR_STAFF C
      /\ within_capacity (staff_senior w))
  /\ (capacity (staff_junior w) = NUM_JUNIOR_STAFF C
      /\ within_capacity (staff_junior w)).

Lemma pools_staff_request (w : World G) s n :
  pools w -> pools (staff_request w s n).
Proof.
  intros (Hb & [Hs1 Hs2] & [Hj1 Hj2]). unfold staff_request.
  pose proof (request_capacity (staff w s) n) as Hc.
  pose proof (fun H => request_within (staff w s) n H) as Hw.
  destruct (request (staff w s) n) as [r [k|]]; cbn [fst] in *;
    destruct s; cbn [staff] in *; unfold pools;
    cbn [beds staff_senior staff_junior succeed set_env set_staff];
    repeat split; try apply Hb; try assumption; try congruence; auto.
Qed.

Lemma pools_trigger_put_pool (w : World G) pool :
  pools w -> pools (trigger_put_pool w pool).
Proof.
  intros ([Hb1 Hb2] & [Hs1 Hs2] & [Hj1 Hj2]). unfold trigger_put_pool.
  destruct pool.
  - pose proof (trigger_put_capacity (beds w)) as Hc.
    pose proof (trigger_put_within (beds w) Hb2) as Hw.
    destruct (trigger_put (beds w)) as [r [k|]]; cbn [fst] in *;
      unfold pools;
      cbn [beds staff_senior staff_junior succeed set_env set_beds];
      repeat split; try assumption; congruence.
  - pose proof (trigger_put_capacity (staff_senior w)) as Hc.
    pose proof (trigger_put_within (staff_senior w) Hs2) as Hw.
    destruct (trigger_put (staff_senior w)) as [r [k|]]; cbn [fst] in *;
      unfold pools;
      cbn [beds staff_senior staff_junior succeed set_env set_staff];
      repeat split; try assumption; congruence.
  - pose proof (trigger_put_capacity (staff_junior w)) as Hc.
    pose proof (trigger_put_within (staff_junior w) Hj2) as Hw.
    destruct (trigger_put (staff_junior w)) as [r [k|]]; cbn [fst] in *;
      unfold pools;
      cbn [beds staff_senior staff_junior succeed set_env set_staff];
      repeat split; try assumption; congruence.
Qed.

Lemma pools_patient (w : World G) name : pools w -> pools (patient w name).
Proof.
  intros H. unfold patient.
  destruct (count (beds w) >=? capacity (beds w))%Z; [exact H|].
  destruct H as ([Hb1 Hb2] & Hs & Hj). unfold beds_request.
  pose proof (request_capacity (beds w)
                {| bed_name := name; bed_arrival_time := now (env w) |}) as Hc.
  pose proof (request_within (beds w)
                {| bed_name := name; bed_arrival_time := now (env w) |} Hb2)
    as Hw.
  destruct (request (beds w) _) as [r [k|]]; cbn [fst] in *; unfold pools;
    cbn [beds staff_senior staff_junior succeed set_env set_beds];
    repeat split; try apply Hs; try apply Hj; try assumption; congruence.
Qed.

Lemma pools_patient_generator (w w' : World G) patient_id :
  pools w -> patient_generator C w patient_id = Ok w' -> pools w'.
Proof.
  intros H. unfold patient_generator, bind.
  destruct (py_div 1 _); [|discriminate].
  destruct (np_random_exponential _ _) as [[d g]|]; [|discriminate].
  destruct (timeout _ _ _); [|discriminate].
  intros [= <-]. exact H.
Qed.

Lemma pools_patient_assigned (w w' : World G) n :
  pools w -> patient_assigned C w n = Ok w' -> pools w'.
Proof.
  intros H. unfold patient_assigned, bind.
  destruct (race_get n (races w)); [|intros [= <-]; exact H].
  destruct (mu_ideal_of C _); [|discriminate].
  destruct (mu_actual C _ _); [|discriminate].
  destruct (py_div 1 _); [|discriminate].
  destruct (np_random_exponential _ _) as [[d g]|]; [|discriminate].
  destruct (timeout _ _ _); [|discriminate].
  intros [= <-]. exact H.
Qed.

Lemma pools_patient_treated (w : World G) n a b c st :
  pools w -> pools (patient_treated w n a b c st).
Proof.
  intros ([Hb1 Hb2] & [Hs1 Hs2] & [Hj1 Hj2]). unfold patient_treated, pools.
  destruct st;
    cbn [beds staff_senior staff_junior succeed set_env set_beds set_staff
         patient_log_append staff capacity release];
    repeat split; try assumption;
    try (apply (release_within _ _ Hb2));
    try (apply (release_within _ _ Hs2));
    try (apply (release_within _ _ Hj2)).
Qed.

Lemma pools_step (w w' : World G) :
  pools w -> after_step (step C w) = Some w' -> pools w'.
Proof.
  intros H. unfold step.
  destruct (pop (env w)) as [[ev e]|]; [|intros [= <-]; exact H].
  assert (H0 : pools (set_env w e)) by exact H.
  destruct ev as [| n | | pid | req | s n | n | n a b c st | pool];
    cbn [after_step continue].
  - destruct (patient_generator _ _ _) as [w1|] eqn:Hw; intros [= <-].
    exact (pools_patient_generator _ _ _ H0 Hw).
  - intros [= <-]. now apply pools_patient.
  - intros [= <-]. exact H0.
  - unfold patient_generator_resume.
    destruct (patient_generator _ _ _) as [w1|] eqn:Hw; intros [= <-].
    refine (pools_patient_generator _ _ _ _ Hw). exact H0.
  - intros [= <-]. unfold patient_bedded.
    change (pools (staff_request (staff_request (set_env w e) Senior
                                    (bed_name req)) Junior (bed_name req))).
    now do 2 apply pools_staff_request.
  - intros [= <-]. unfold staff_request_fired.
    destruct (race_get _ _); [|exact H0].
    destruct (built _ || triggered _)%bool; exact H0.
  - destruct (patient_assigned _ _ _) as [w1|] eqn:Hw; intros [= <-].
    exact (pools_patient_assigned _ _ _ H0 Hw).
  - intros [= <-]. now apply pools_patient_treated.
  - intros [= <-]. now apply pools_trigger_put_pool.
Qed.

Lemma pools_main fuel (g0 : rng_state G) (w : World G) :
  after_run (main C fuel g0) = Some w -> pools w.
Proof.
  unfold main, Resource_init, bind, env_run.
  destruct (NUM_BEDS C <=? 0)%Z eqn:E1; [discriminate|].
  destruct (NUM_SENIOR_STAFF C <=? 0)%Z eqn:E2; [discriminate|].
  destruct (NUM_JUNIOR_STAFF C <=? 0)%Z eqn:E3; [discriminate|].
  destruct (Qle_bool _ _); [discriminate|].
  apply (script_run_loop_keeps C pools pools_step).
  apply Z.leb_gt in E1, E2, E3.
  unfold pools, within_capacity, count.
  cbn [beds staff_senior staff_junior set_env capacity users List.length].
  repeat split; lia.
Qed.

End Runs.
End ScriptRun.

(** ** The script: analysis and output

    The part of [assets/simulation.py] that follows [env.run].  What it
    prints is returned as a record; writing the CSV file is left out. *)

Module ScriptAnalysis.
Import Script.

(** The keys of a logged dictionary: a balked record has three. *)
Definition has_key (r : Row) (key : string) : bool :=
  if (key =? "name")%string then true
  else if (key =? "arrival_time")%string then true
  else if (key =? "status")%string then true
  else if (key =? "waited_for_bed")%string
       then Dashboard.notna (waited_for_bed r)
  else if (key =? "waited_for_staff")%string
       then Dashboard.notna (waited_for_staff r)
  else if (key =? "treatment_duration")%string
       then Dashboard.notna (treatment_duration r)
  else if (key =? "staff_type")%string
       then match staff_type r with Some _ => true | None => false end
  else false.

(** [df[key]] on [pd.DataFrame(records)]: the columns are the keys that
    occur in the records, a key that occurs in none is a [KeyError]. *)
Definition column {A : Type} (records rows : list Row) (key : string)
           (field : Row -> A) : result (list A) :=
  if existsb (fun r => has_key r key) records
  then Ok (map field rows)
  else Raise (KeyError key).

Definition is_staff (s : Staff) (r : Row) : bool :=
  match staff_type r, s with
  | Some Senior, Senior | Some Junior, Junior => true
  | _, _ => false
  end.

(** [groupby('staff_type')['treatment_duration'].mean()]: one entry for
    each staff type that occurs, in the order of the labels. *)
Definition group_means (rows : list Row) : list (Staff * option Q) :=
  flat_map
    (fun s =>
       match filter (is_staff s) rows with
       | [] => []
       | g => [(s, Dashboard.mean (map treatment_duration g))]
       end)
    [Junior; Senior].

Record Averages : Type := {
  avg_wait_for_bed : option Q;
  avg_wait_for_staff : option Q;
  avg_duration_by_staff : list (Staff * option Q)
}.

Record Report : Type := {
  averages : option Averages;   (* [None]: 'No patients were discharged.' *)
  blocking_prob : option Q;     (* printed when [total_patients > 0] *)
  total_patients : Z;
  total_discharged : Z;
  total_balked : Z
}.

(** Lines 114 to 141. *)
Definition analysis (patient_log : list Row) : result Report :=
  let log_df := patient_log in
  st <- column log_df log_df "status" status ;;
  let discharged_patients :=
    filter (fun r => (status r =? "Discharged")%string) log_df in
  let balked_patients :=
    filter (fun r => (status r =? "Balked")%string) log_df in
  avgs <-
    match discharged_patients with
    | _ :: _ =>
        b <- column log_df discharged_patients "waited_for_bed"
                    waited_for_bed ;;
        s <- column log_df discharged_patients "waited_for_staff"
                    waited_for_staff ;;
        _ <- column log_df discharged_patients "staff_type" staff_type ;;
        _ <- column log_df discharged_patients "treatment_duration"
                    treatment_duration ;;
        Ok (Some {| avg_wait_for_bed := Dashboard.mean b;
                    avg_wait_for_staff := Dashboard.mean s;
                    avg_duration_by_staff :=
                      group_means discharged_patients |})
    | [] => Ok None
    end ;;
  let total_patients := Z.of_nat (List.length log_df) in
  let blocking :=
    if (0 <? total_patients)%Z
    then Some (inject_Z (Z.of_nat (List.length balked_patients))
               / inject_Z total_patients)
    else None in
  Ok {| averages := avgs;
        blocking_prob := blocking;
        total_patients := total_patients;
        total_discharged := Z.of_nat (List.length discharged_patients);
        total_balked := Z.of_nat (List.length balked_patients) |}.

(** The script, from its first line to its last.  [None]: the event
    loop did not end within [fuel] events. *)
Definition script {G : Generator} (C : Constants) (fuel : nat)
           (g0 : rng_state G) : option (result Report) :=
  match main C fuel g0 with
  | OutOfFuel _ => None
  | Failed e => Some (Raise e)
  | Finished w => Some (analysis (patient_log w))
  end.

End ScriptAnalysis.

(** ** Properties of the script's runs *)

(** X9. In every state that a run of the script reaches, each record of
    the patient log has an arrival time between 0 and the horizon and is
    either the three-key record of a patient who balked or the record
    of a discharge, in which the wait for a bed is 0, the wait for staff
    and the treatment duration are not negative, and the departure is
    within the horizon. *)
Theorem script_records_never_wait_for_a_bed :
  forall (G : Generator) (C : Script.Constants) (fuel : nat)
         (g0 : rng_state G) (w : Script.World G),
    ScriptFacts.after_run (Script.main C fuel g0) = Some w ->
    Forall (ScriptRun.row_ok (Script.SIM_TIME_MINUTES C))
           (Script.patient_log w).
Proof.
  intros G C fuel g0 w Hrun.
  now destruct (ScriptRun.logged_main C fuel g0 w Hrun) as (_ & _ & H).
Qed.

Lemma script_records_witness :
  exists w : Script.World lone_patient,
    ScriptFacts.after_run (@Script.main lone_patient one_of_each 20 [])
    = Some w
    /\ map Script.status (Script.patient_log w) = ["Discharged"]
    /\ Forall (ScriptRun.row_ok (Script.SIM_TIME_MINUTES one_of_each))
              (Script.patient_log w).
Proof.
  eexists. split; [vm_compute; reflexivity|].
  split; [reflexivity|].
  refine (script_records_never_wait_for_a_bed
            lone_patient one_of_each 20%nat [] _ _).
  vm_compute; reflexivity.
Defined.

(** X10. In every state that a run of the script reaches, none of the
    three pools has more users than its capacity: the beds in use are at
    most [NUM_BEDS], the senior and the junior staff in use at most
    [NUM_SENIOR_STAFF] and [NUM_JUNIOR_STAFF]. *)
Theorem script_pools_within_capacity :
  forall (G : Generator) (C : Script.Constants) (fuel : nat)
         (g0 : rng_state G) (w : Script.World G),
    ScriptFacts.after_run (Script.main C fuel g0) = Some w ->
    (SimPy.count (Script.beds w) <= Script.NUM_BEDS C)%Z
    /\ (SimPy.count (Script.staff_senior w) <= Script.NUM_SENIOR_STAFF C)%Z
    /\ (SimPy.count (Script.staff_junior w) <= Script.NUM_JUNIOR_STAFF C)%Z.
Proof.
  intros G C fuel g0 w Hrun.
  destruct (ScriptRun.pools_main C fuel g0 w Hrun)
    as ([B1 B2] & [S1 S2] & [J1 J2]).
  unfold ResourceFacts.within_capacity in *.
  rewrite <- B1, <- S1, <- J1. auto.
Qed.

Lemma script_pools_witness :
  exists w : Script.World lone_patient,
    ScriptFacts.after_run (@Script.main lone_patient one_of_each 20 [])
    = Some w
    /\ SimPy.count (Script.staff_junior w) = 1%Z
    /\ (SimPy.count (Script.staff_junior w) <= 1)%Z.
Proof.
  eexists. split; [vm_compute; reflexivity|].
  split; [reflexivity|].
  refine (proj2 (proj2 (script_pools_within_capacity
                          lone_patient one_of_each 20%nat [] _ _))).
  vm_compute; reflexivity.
Defined.

(** ** The script's analysis on the log of a run *)

Module AnalysisFacts.
Import Script ScriptRun ScriptAnalysis.

Definition is_discharged (r : Row) : bool := (status r =? "Discharged")%string.
Definition is_balked (r : Row) : bool := (status r =? "Balked")%string.

Lemma row_status T (r : Row) :
  row_ok T r ->
  (is_discharged r = false /\ is_balked r = true /\ balked r)
  \/ (is_discharged r = true /\ is_balked r = false /\ discharged T r).
Proof.
  unfold is_discharged, is_balked.
  intros [_ [H|H]]; [left|right]; pose proof H as [Hs _]; rewrite Hs;
    (split; [reflexivity|]); (split; [reflexivity | exact H]).
Qed.

(** Each record is counted once: as discharged or as balked. *)
Lemma discharged_or_balked T (log : list Row) :
  Forall (row_ok T) log ->
  (List.length (filter is_discharged log)
   + List.length (filter is_balked log) = List.length log)%nat.
Proof.
  induction 1 as [|r log Hr _ IH]; [reflexivity|].
  cbn [filter List.length].
  destruct (row_status T r Hr) as [(-> & -> & _)|(-> & -> & _)];
    cbn [List.length]; lia.
Qed.

Lemma discharged_rows T (log : list Row) :
  Forall (row_ok T) log -> Forall (discharged T) (filter is_discharged log).
Proof.
  induction 1 as [|r log Hr _ IH]; [constructor|].
  cbn [filter].
  destruct (row_status T r Hr) as [(-> & _)|(-> & _ & Hd)];
    [exact IH | constructor; assumption].
Qed.

(** The values of a column in which no entry is NaN. *)
Lemma values_of (f : Row -> option Q) (P : Q -> Prop) (rows : list Row) :
  Forall (fun r => exists x, f r = Some x /\ P x) rows ->
  exists vs,
    Dashboard.values (map f rows) = vs
    /\ List.length vs = List.length rows /\ Forall P vs.
Proof.
  induction 1 as [|r rows (x & Hx & HP) _ (vs & I1 & I2 & I3)].
  - exists []. repeat split. constructor.
  - exists (x :: vs). cbn [map Dashboard.values]. rewrite Hx, I1.
    cbn [List.length]. rewrite I2. repeat split. now constructor.
Qed.

Lemma sumQ_zero (vs : list Q) :
  Forall (fun x => x == 0) vs -> Dashboard.sumQ vs == 0.
Proof.
  induction 1 as [|x vs Hx _ IH]; [reflexivity|].
  rewrite ResultFacts.sumQ_cons. lra.
Qed.

Lemma sumQ_nonneg (vs : list Q) :
  Forall (fun x => 0 <= x) vs -> 0 <= Dashboard.sumQ vs.
Proof.
  induction 1 as [|x vs Hx _ IH]; [unfold Dashboard.sumQ; cbn; lra|].
  rewrite ResultFacts.sumQ_cons. lra.
Qed.

Lemma mean_of (f : Row -> option Q) (P : Q -> Prop) (rows : list Row) :
  rows <> [] ->
  Forall (fun r => exists x, f r = Some x /\ P x) rows ->
  exists vs,
    vs <> [] /\ Forall P vs
    /\ Dashboard.mean (map f rows)
       = Some (Dashboard.sumQ vs / inject_Z (Z.of_nat (List.length vs))).
Proof.
  intros Hne H. destruct (values_of f P rows H) as (vs & E & L & HP).
  exists vs. unfold Dashboard.mean. rewrite E.
  destruct vs as [|v vs].
  - destruct rows; [congruence | discriminate].
  - split; [discriminate|]. split; [exact HP | reflexivity].
Qed.

Lemma length_pos {A} (l : list A) :
  l <> [] -> 0 < inject_Z (Z.of_nat (List.length l)).
Proof.
  intros H. change 0 with (inject_Z 0). rewrite <- Zlt_Qlt.
  destruct l; [congruence | cbn [List.length]; lia].
Qed.

(** The analysis of a log that is not empty and whose records are those
    of a run. *)
Lemma analysis_of_log T (log : list Row) :
  log <> [] -> Forall (row_ok T) log ->
  exists rep,
    analysis log = Ok rep
    /\ total_patients rep = Z.of_nat (List.length log)
    /\ total_discharged rep
       = Z.of_nat (List.length (filter is_discharged log))
    /\ total_balked rep = Z.of_nat (List.length (filter is_balked log))
    /\ blocking_prob rep
       = Some (inject_Z (total_balked rep) / inject_Z (total_patients rep))
    /\ match filter is_discharged log with
       | [] => averages rep = None
       | _ :: _ =>
           exists a b s,
             averages rep = Some a
             /\ avg_wait_for_bed a = Some b /\ b == 0
             /\ avg_wait_for_staff a = Some s /\ 0 <= s
       end.
Proof.
  intros Hne Hrows. unfold analysis.
  assert (Hst : existsb (fun r => has_key r "status") log = true).
  { destruct log as [|r log]; [congruence|]. reflexivity. }
  unfold column at 1. rewrite Hst. unfold bind at 1.
  fold is_discharged. fold is_balked.
  assert (Hpos : (0 <? Z.of_nat (List.length log))%Z = true).
  { destruct log; [congruence|]. cbn [List.length]. apply Z.ltb_lt. lia. }
  rewrite Hpos.
  pose proof (discharged_rows T log Hrows) as Hd.
  destruct (filter is_discharged log) as [|r0 rows] eqn:Hf.
  - unfold bind. eexists. split; [reflexivity|]. repeat split.
  - assert (Hin : In r0 log).
    { assert (H : In r0 (filter is_discharged log))
        by (rewrite Hf; now left).
      apply filter_In in H. tauto. }
    pose proof (Forall_inv Hd) as (_ & b0 & s0 & t0 & st0
                                   & K1 & K2 & K3 & K4 & _).
    assert (Hk : forall key,
               has_key r0 key = true ->
               existsb (fun r => has_key r key) log = true).
    { intros key Hkey. apply existsb_exists. exists r0. auto. }
    unfold column.
    rewrite (Hk "waited_for_bed"), (Hk "waited_for_staff"),
      (Hk "staff_type"), (Hk "treatment_duration");
      try (unfold has_key; cbn [String.eqb Ascii.eqb Bool.eqb];
           rewrite ?K1, ?K2, ?K3, ?K4; reflexivity).
    unfold bind.
    destruct (mean_of waited_for_bed (fun x => x == 0) (r0 :: rows))
      as (bs & Hb1 & Hb2 & Hb3); [discriminate| |].
    { eapply Forall_impl; [|exact Hd].
      intros r (_ & b & s & t & st & E1 & _ & _ & _ & Hb & _).
      exists b. auto. }
    destruct (mean_of waited_for_staff (fun x => 0 <= x) (r0 :: rows))
      as (ss & Hs1 & Hs2 & Hs3); [discriminate| |].
    { eapply Forall_impl; [|exact Hd].
      intros r (_ & b & s & t & st & _ & E2 & _ & _ & _ & Hs & _).
      exists s. auto. }
    eexists. split; [reflexivity|].
    cbn [total_patients total_discharged total_balked blocking_prob
         averages].
    repeat split.
    eexists. eexists. eexists. split; [reflexivity|].
    cbn [avg_wait_for_bed avg_wait_for_staff].
    split; [exact Hb3|]. split.
    + rewrite (sumQ_zero bs Hb2). pose proof (length_pos bs Hb1) as Hn.
      field. lra.
    + split; [exact Hs3|].
      apply Qle_shift_div_l; [exact (length_pos ss Hs1)|].
      pose proof (sumQ_nonneg ss Hs2). lra.
Qed.

End AnalysisFacts.

(** X11. When a run of the script ends with an empty log, the analysis
    raises [KeyError] at [log_df['status']].  Otherwise it prints totals
    in which the discharged and the balked patients add up to the
    arrivals, a blocking probability that is the balked share of the
    arrivals, between 0 and 1, and, when a patient was discharged, an
    average wait for a bed of 0 and an average wait for staff that is
    not negative. *)
Theorem script_analysis_of_a_run :
  forall (G : Generator) (C : Script.Constants) (fuel : nat)
         (g0 : rng_state G) (w : Script.World G),
    Script.main C fuel g0 = Script.Finished w ->
    match Script.patient_log w with
    | [] => ScriptAnalysis.script C fuel g0
            = Some (Raise (KeyError "status"))
    | _ :: _ =>
        exists rep,
          ScriptAnalysis.script C fuel g0 = Some (Ok rep)
          /\ (0 < ScriptAnalysis.total_patients rep)%Z
          /\ (ScriptAnalysis.total_discharged rep
              + ScriptAnalysis.total_balked rep
              = ScriptAnalysis.total_patients rep)%Z
          /\ (exists bp,
                 ScriptAnalysis.blocking_prob rep = Some bp
                 /\ bp = inject_Z (ScriptAnalysis.total_balked rep)
                         / inject_Z (ScriptAnalysis.total_patients rep)
                 /\ 0 <= bp /\ bp <= 1)
          /\ ((ScriptAnalysis.total_discharged rep = 0)%Z ->
              ScriptAnalysis.averages rep = None)
          /\ ((0 < ScriptAnalysis.total_discharged rep)%Z ->
              exists a b s,
                ScriptAnalysis.averages rep = Some a
                /\ ScriptAnalysis.avg_wait_for_bed a = Some b /\ b == 0
                /\ ScriptAnalysis.avg_wait_for_staff a = Some s /\ 0 <= s)
    end.
Proof.
  intros G C fuel g0 w Hmain. unfold ScriptAnalysis.script. rewrite Hmain.
  destruct (Script.patient_log w) as [|r0 log] eqn:Hlog; [reflexivity|].
  assert (Hrun : ScriptFacts.after_run (Script.main C fuel g0) = Some w)
    by now rewrite Hmain.
  destruct (ScriptRun.logged_main C fuel g0 w Hrun) as (_ & _ & Hrows).
  rewrite Hlog in Hrows.
  destruct (AnalysisFacts.analysis_of_log _ (r0 :: log)
              ltac:(discriminate) Hrows)
    as (rep & Ha & Ht & Hd & Hb & Hbp & Hav).
  pose proof (AnalysisFacts.discharged_or_balked _ _ Hrows) as Hsum.
  exists rep. split; [now rewrite Ha|].
  assert (Hpos : (0 < ScriptAnalysis.total_patients rep)%Z).
  { rewrite Ht. cbn [List.length]. lia. }
  split; [exact Hpos|]. split; [rewrite Ht, Hd, Hb; lia|]. split.
  - eexists. split; [exact Hbp|]. split; [reflexivity|].
    assert (Hq : 0 < inject_Z (ScriptAnalysis.total_patients rep)).
    { change 0 with (inject_Z 0). now rewrite <- Zlt_Qlt. }
    assert (H0 : 0 <= inject_Z (ScriptAnalysis.total_balked rep)).
    { change 0 with (inject_Z 0). rewrite <- Zle_Qle. rewrite Hb. lia. }
    assert (H1 : inject_Z (ScriptAnalysis.total_balked rep)
                 <= inject_Z (ScriptAnalysis.total_patients rep)).
    { rewrite <- Zle_Qle. rewrite Hb, Ht. lia. }
    split; [apply Qle_shift_div_l; lra | apply Qle_shift_div_r; lra].
  - destruct (filter AnalysisFacts.is_discharged (r0 :: log)) as [|d ds].
    + split; [intros _; exact Hav|]. rewrite Hd. cbn [List.length]. lia.
    + split; [|intros _; exact Hav]. rewrite Hd. cbn [List.length]. lia.
Qed.

Lemma script_analysis_witness :
  exists rep,
    @ScriptAnalysis.script lone_patient one_of_each 20 [] = Some (Ok rep)
    /\ ScriptAnalysis.total_patients rep = 1%Z
    /\ ScriptAnalysis.total_discharged rep = 1%Z
    /\ ScriptAnalysis.total_balked rep = 0%Z.
Proof.
  destruct (script_analysis_of_a_run lone_patient one_of_each 20%nat []
              _ ltac:(vm_compute; reflexivity))
    as (rep & H1 & _).
  exists rep. split; [exact H1|].
  vm_compute in H1. injection H1 as <-. repeat split.
Defined.

(** ** The dashboard: from the sidebar form to the run

    [dashboard.py] builds the parameter dictionary from the widgets of
    its sidebar form and passes it to [run_hospital_simulation]. *)

Module DashboardApp.

(** The values of the widgets.  The three widgets of the
    experience-based model and the slider of the workload-dependent
    model are shown, and read, only when that model is selected. *)
Record Widgets : Type := {
  scenario : string;               (* [st.selectbox] *)
  arrival_rate : Z;                (* [st.slider(.., 1, 50, 10)] *)
  num_beds : Z;                    (* [st.slider(.., 1, 100, 20)] *)
  num_staff : Z;                   (* [st.slider(.., 1, 50, 10)] *)
  simulation_duration : Z;         (* [st.number_input(.., 7, 365, 30)] *)
  senior_staff_mix : Z;            (* [st.slider(.., 0, 100, 50)] *)
  senior_service_days : Q;         (* [st.number_input(.., 0.1, 10.0, ..)] *)
  junior_service_days : Q;         (* [st.number_input(.., 0.1, 10.0, ..)] *)
  workload_factor_alpha : Q        (* [st.slider(.., 0.1, 5.0, 1.5, 0.1)] *)
}.

(** The options of the scenario selector. *)
Definition options : list string :=
  ["Baseline Model (Homogeneous Staff)";
   "Experience-Based Model (Heterogeneous Staff)";
   "Workload-Dependent Model (Dynamic Service Rates)"].

(** The bounds of the widgets. *)
Definition in_range (w : Widgets) : Prop :=
  In (scenario w) options
  /\ (1 <= arrival_rate w <= 50)%Z
  /\ (1 <= num_beds w <= 100)%Z
  /\ (1 <= num_staff w <= 50)%Z
  /\ (7 <= simulation_duration w <= 365)%Z
  /\ (0 <= senior_staff_mix w <= 100)%Z
  /\ ((1 # 10) <= senior_service_days w /\ senior_service_days w <= 10)
  /\ ((1 # 10) <= junior_service_days w /\ junior_service_days w <= 10)
  /\ ((1 # 10) <= workload_factor_alpha w /\ workload_factor_alpha w <= 5).

(** The [params] dictionary, with the placeholders of the scenarios that
    do not show a widget. *)
Definition params (w : Widgets) : Dashboard.Params :=
  let experience := str_contains "Experience-Based" (scenario w) in
  let workload := str_contains "Workload-Dependent" (scenario w) in
  {| Dashboard.scenario := scenario w;
     Dashboard.arrival_rate := inject_Z (arrival_rate w);
     Dashboard.num_beds := num_beds w;
     Dashboard.num_staff := num_staff w;
     Dashboard.simulation_duration := inject_Z (simulation_duration w);
     Dashboard.senior_staff_mix :=
       if experience then inject_Z (senior_staff_mix w) else 100;
     Dashboard.senior_service_days :=
       if experience then senior_service_days w else 3;
     Dashboard.junior_service_days :=
       if experience then junior_service_days w else 3;
     Dashboard.workload_factor_alpha :=
       if workload then workload_factor_alpha w else 3 # 2 |}.

(** [st.session_state.results = run_hospital_simulation(params)] *)
Definition run_button {G : Generator} (fuel : nat) (w : Widgets)
           (g0 : rng_state G) : option (result Dashboard.Results) :=
  Dashboard.run_hospital_simulation fuel (params w) g0.

(** Another choice in the scenario selector, the other widgets being
    left as they are. *)
Definition select (w : Widgets) (s : string) : Widgets :=
  {| scenario := s; arrival_rate := arrival_rate w; num_beds := num_beds w;
     num_staff := num_staff w; simulation_duration := simulation_duration w;
     senior_staff_mix := senior_staff_mix w;
     senior_service_days := senior_service_days w;
     junior_service_days := junior_service_days w;
     workload_factor_alpha := workload_factor_alpha w |}.

End DashboardApp.

(** The dashboard with its default widget values. *)
Definition default_widgets (s : string) : DashboardApp.Widgets := {|
  DashboardApp.scenario := s;
  DashboardApp.arrival_rate := 10;
  DashboardApp.num_beds := 20;
  DashboardApp.num_staff := 10;
  DashboardApp.simulation_duration := 30;
  DashboardApp.senior_staff_mix := 50;
  DashboardApp.senior_service_days := 3;
  DashboardApp.junior_service_days := 5;
  DashboardApp.workload_factor_alpha := 3 # 2
|}.

(** X12. Whatever the widgets of the dashboard's form are set to within
    their bounds, the parameters it passes to the run are admissible:
    with a generator whose exponential variates are not negative the
    run raises nothing, and the only exception the 'Run Simulation'
    button can meet is the [KeyError] of a log without a record. *)
Theorem dashboard_form_never_fails_the_run :
  forall (G : Generator) (good : rng_state G -> Prop) (fuel : nat)
         (w : DashboardApp.Widgets) (g0 : rng_state G),
    good (seed G Dashboard.RANDOM_SEED) ->
    (forall g, good g ->
       0 <= fst (standard_exponential G g)
       /\ good (snd (standard_exponential G g))) ->
    (forall g, good g -> good (snd (random_sample G g))) ->
    DashboardApp.in_range w ->
    DashboardApp.run_button fuel w g0 = None
    \/ DashboardApp.run_button fuel w g0 = Some (Raise (KeyError "WaitTime"))
    \/ exists r, DashboardApp.run_button fuel w g0 = Some (Ok r).
Proof.
  intros G good fuel w g0 Hseed Hexp Huni
    (Hs & Ha & Hb & Hn & Hd & Hm & [Hs1 Hs2] & [Hj1 Hj2] & Hal).
  unfold DashboardApp.run_button. apply run_without_failure.
  apply (simulate_never_fails G good); try assumption;
    unfold DashboardApp.params;
    cbn [Dashboard.num_staff Dashboard.simulation_duration
         Dashboard.arrival_rate Dashboard.senior_service_days
         Dashboard.junior_service_days].
  - lia.
  - change 0 with (inject_Z 0). rewrite <- Zlt_Qlt. lia.
  - change 0 with (inject_Z 0). rewrite <- Zlt_Qlt. lia.
  - destruct (str_contains _ _); lra.
  - destruct (str_contains _ _); lra.
Qed.

Lemma dashboard_form_witness :
  @DashboardApp.run_button one_arrival 20 (default_widgets baseline) []
  = None
  \/ @DashboardApp.run_button one_arrival 20 (default_widgets baseline) []
     = Some (Raise (KeyError "WaitTime"))
  \/ exists r,
      @DashboardApp.run_button one_arrival 20 (default_widgets baseline) []
      = Some (Ok r).
Proof.
  refine (dashboard_form_never_fails_the_run
            one_arrival (Forall (fun x => 0 <= x)) 20%nat
            (default_widgets baseline) [] _ _ _ _).
  - repeat constructor; discriminate.
  - intros [|x g] Hg.
    + split; [discriminate | constructor].
    + apply Forall_cons_iff in Hg. exact Hg.
  - intros [|x g] Hg.
    + constructor.
    + apply Forall_cons_iff in Hg. apply Hg.
  - unfold DashboardApp.in_range, default_widgets, DashboardApp.options.
    cbn. repeat split; try lia; try discriminate. now left.
Defined.

(** X13. On the dashboard, the workload-dependent model with its
    capacity factor slider at 1 or above shows exactly the results of
    the baseline model for the same arrival rate, beds, staff and
    period: both run with a mean treatment of 3 days, and the load never
    exceeds the factor. *)
Theorem dashboard_workload_model_shows_the_baseline :
  forall (G : Generator) (fuel : nat) (w : DashboardApp.Widgets)
         (g0 : rng_state G),
    DashboardApp.scenario w
    = "Workload-Dependent Model (Dynamic Service Rates)" ->
    1 <= DashboardApp.workload_factor_alpha w ->
    DashboardApp.run_button fuel w g0
    = DashboardApp.run_button fuel
        (DashboardApp.select w "Baseline Model (Homogeneous Staff)") g0.
Proof.
  intros G fuel w g0 Hs Ha. unfold DashboardApp.run_button. symmetry.
  apply WorkloadFacts.workload_run;
    unfold DashboardApp.params, DashboardApp.select;
    cbn [DashboardApp.scenario DashboardApp.arrival_rate
         DashboardApp.num_beds DashboardApp.num_staff
         DashboardApp.simulation_duration Dashboard.scenario
         Dashboard.arrival_rate Dashboard.num_beds Dashboard.num_staff
         Dashboard.simulation_duration Dashboard.senior_service_days
         Dashboard.workload_factor_alpha];
    rewrite ?Hs; try reflexivity.
  exact Ha.
Qed.

Lemma dashboard_workload_witness :
  @DashboardApp.run_button one_arrival 20 (default_widgets workload) []
  = @DashboardApp.run_button one_arrival 20
      (DashboardApp.select (default_widgets workload)
         "Baseline Model (Homogeneous Staff)") [].
Proof.
  apply (dashboard_workload_model_shows_the_baseline
           one_arrival 20%nat (default_widgets workload) []).
  - reflexivity.
  - vm_compute. discriminate.
Defined.

(** ** The script: positive constants never make the event loop fail *)

Module ScriptNoFailure.
Import SimPy Script ScriptFacts.

Section Sane.
Context {G : Generator} (C : Constants).
Variable good : rng_state G -> Prop.
Hypothesis good_exponential :
  forall g, good g ->
    0 <= fst (standard_exponential G g)
    /\ good (snd (standard_exponential G g)).
Hypothesis arrivals : 0 < PATIENT_ARRIVAL_RATE C.
Hypothesis senior_time : 0 < AVG_TREATMENT_TIME_SENIOR_MINUTES C.
Hypothesis junior_time : 0 < AVG_TREATMENT_TIME_JUNIOR_MINUTES C.
Hypothesis some_staff : (0 < NUM_SENIOR_STAFF C + NUM_JUNIOR_STAFF C)%Z.
Hypothesis alpha : 0 < ALPHA C.

Lemma py_div_pos (a b : Q) :
  0 < a -> 0 < b -> exists q, py_div a b = Ok q /\ 0 < q.
Proof.
  intros Ha Hb. unfold py_div.
  destruct (Qeq_bool b 0) eqn:Hz; [apply Qeq_bool_iff in Hz; lra|].
  eexists. split; [reflexivity|]. now apply Qlt_shift_div_l; lra.
Qed.

Lemma draw_ok (w : World G) (scale : Q) :
  good (rng w) -> 0 < scale ->
  exists d g,
    np_random_exponential scale (rng w) = Ok (d, g) /\ 0 <= d /\ good g.
Proof.
  intros Hg Hs. unfold np_random_exponential.
  destruct (Qlt_le_dec scale 0); [lra|].
  destruct (good_exponential _ Hg) as [Hx Hg'].
  destruct (standard_exponential G (rng w)) as [x g]. cbn [fst snd] in *.
  eexists. eexists. split; [reflexivity|]. split; [|exact Hg'].
  apply Qmult_le_0_compat; lra.
Qed.

Lemma sane_patient_generator (w : World G) patient_id :
  good (rng w) ->
  exists w', patient_generator C w patient_id = Ok w' /\ good (rng w').
Proof.
  intros Hg. unfold patient_generator, bind.
  destruct (py_div_pos 1 (PATIENT_ARRIVAL_RATE C)) as (scale & -> & Hs);
    [lra | exact arrivals |].
  destruct (draw_ok w scale Hg Hs) as (d & g & -> & Hd & Hg').
  unfold timeout. cbn [env set_rng].
  destruct (Qlt_le_dec d 0); [lra|].
  eexists. split; [reflexivity | exact Hg'].
Qed.

Lemma sane_mu_actual (w : World G) (mu_ideal : Q) :
  0 < mu_ideal -> exists mu, mu_actual C w mu_ideal = Ok mu /\ 0 < mu.
Proof.
  intros Hm. unfold mu_actual, bind.
  set (n := if (count (beds w) =? 0)%Z then 1%Z else count (beds w)).
  assert (Hn : 0 < inject_Z n).
  { change 0 with (inject_Z 0). rewrite <- Zlt_Qlt. unfold n, count.
    destruct (Z.of_nat _ =? 0)%Z eqn:E; [lia|]. apply Z.eqb_neq in E. lia. }
  assert (Hs : 0 < inject_Z (NUM_SENIOR_STAFF C + NUM_JUNIOR_STAFF C)).
  { change 0 with (inject_Z 0). now rewrite <- Zlt_Qlt. }
  destruct (py_div_pos (ALPHA C * inject_Z (NUM_SENIOR_STAFF C
                                            + NUM_JUNIOR_STAFF C))
                       (inject_Z n)) as (ratio & -> & Hr);
    [now apply Qmult_lt_0_compat | exact Hn |].
  eexists. split; [reflexivity|].
  apply Qmult_lt_0_compat; [exact Hm|].
  unfold py_min. destruct (Qlt_le_dec ratio 1); lra.
Qed.

Lemma sane_patient_assigned (w : World G) name :
  good (rng w) ->
  exists w', patient_assigned C w name = Ok w' /\ good (rng w').
Proof.
  intros Hg. unfold patient_assigned.
  destruct (race_get name (races w)) as [r|]; [|now exists w].
  unfold bind.
  assert (Hi : exists mu, mu_ideal_of C (if senior_processed r
                                         then Senior else Junior) = Ok mu
                          /\ 0 < mu).
  { unfold mu_ideal_of. destruct (senior_processed r);
      apply py_div_pos; lra || assumption. }
  destruct Hi as (mu_ideal & -> & Hmi).
  match goal with
  | |- context [mu_actual C ?w1 mu_ideal] =>
      destruct (sane_mu_actual w1 mu_ideal Hmi) as (mu & -> & Hmu)
  end.
  destruct (py_div_pos 1 mu) as (scale & -> & Hs); [lra | exact Hmu |].
  match goal with
  | |- context [np_random_exponential scale (rng ?w1)] =>
      destruct (draw_ok w1 scale Hg Hs) as (d & g & -> & Hd & Hg')
  end.
  unfold timeout. destruct (Qlt_le_dec d 0); [lra|].
  eexists. split; [reflexivity | exact Hg'].
Qed.

Lemma rng_staff_request (w : World G) s n :
  rng (staff_request w s n) = rng w.
Proof.
  unfold staff_request.
  destruct (request (staff w s) n) as [r [k|]]; destruct s; reflexivity.
Qed.

(** No event raises, and every event keeps the generator state good. *)
Lemma script_sane_step (w : World G) :
  good (rng w) ->
  match step C w with
  | Continue w' => good (rng w')
  | Raised _ => False
  | _ => True
  end.
Proof.
  intros Hg. unfold step.
  destruct (pop (env w)) as [[ev e]|]; [|exact I].
  destruct ev as [| n | | pid | req | s n | n | n a b c st | pool];
    cbn [continue].
  - destruct (sane_patient_generator (set_env w e) 0%Z Hg) as (w' & -> & H).
    exact H.
  - unfold patient, beds_request.
    destruct (count _ >=? capacity _)%Z; [exact Hg|].
    destruct (request _ _) as [r [k|]]; exact Hg.
  - exact I.
  - unfold patient_generator_resume.
    match goal with
    | |- context [patient_generator C ?w1 ?i] =>
        destruct (sane_patient_generator w1 i Hg) as (w' & -> & H)
    end.
    exact H.
  - unfold patient_bedded. cbn [rng set_race].
    now rewrite !rng_staff_request.
  - unfold staff_request_fired. destruct (race_get _ _); [|exact Hg].
    destruct (built _ || triggered _)%bool; exact Hg.
  - destruct (sane_patient_assigned (set_env w e) n Hg) as (w' & -> & H).
    exact H.
  - unfold patient_treated. destruct st; exact Hg.
  - unfold trigger_put_pool. destruct pool.
    + destruct (trigger_put _) as [r [k|]]; exact Hg.
    + destruct (trigger_put _) as [r [k|]]; exact Hg.
    + destruct (trigger_put _) as [r [k|]]; exact Hg.
Qed.

Lemma script_sane_run_loop fuel : forall (w : World G) e,
  good (rng w) -> run_loop C fuel w <> Failed e.
Proof.
  induction fuel as [|fuel IH]; intros w e Hg; cbn [run_loop];
    [discriminate|].
  pose proof (script_sane_step w Hg) as Hk.
  destruct (step C w) as [w1|w1|w1|ex]; try discriminate.
  - now apply IH.
  - destruct Hk.
Qed.

End Sane.
End ScriptNoFailure.

(** The analysis of the log of a run fails on the empty log only. *)
Lemma script_analysis_shape {G : Generator} (C : Script.Constants)
      (fuel : nat) (g0 : rng_state G) (w : Script.World G) :
  Script.main C fuel g0 = Script.Finished w ->
  match Script.patient_log w with
  | [] => ScriptAnalysis.analysis [] = Raise (KeyError "status")
  | r :: log => exists rep, ScriptAnalysis.analysis (r :: log) = Ok rep
  end.
Proof.
  intros Hm.
  assert (Hrun : ScriptFacts.after_run (Script.main C fuel g0) = Some w)
    by now rewrite Hm.
  destruct (ScriptRun.logged_main C fuel g0 w Hrun) as (_ & _ & Hrows).
  destruct (Script.patient_log w) as [|r log]; [reflexivity|].
  destruct (AnalysisFacts.analysis_of_log _ (r :: log)
              ltac:(discriminate) Hrows) as (rep & Ha & _).
  now exists rep.
Qed.

(** X14. With pools, a horizon, an arrival rate, mean treatment times
    and a workload factor that are positive (as the constants of the
    script are) and a generator whose exponential variates are not
    negative, the script raises nothing up to the end of [env.run]; the
    only exception it can then meet is the [KeyError] of its analysis on
    an empty log.  In particular the division by the number of patients
    and the division by the degraded rate never divide by zero. *)
Theorem script_constants_never_fail_the_run :
  forall (G : Generator) (good : rng_state G -> Prop)
         (C : Script.Constants) (fuel : nat) (g0 : rng_state G),
    good (seed G Script.RANDOM_SEED) ->
    (forall g, good g ->
       0 <= fst (standard_exponential G g)
       /\ good (snd (standard_exponential G g))) ->
    (0 < Script.NUM_BEDS C)%Z ->
    (0 < Script.NUM_SENIOR_STAFF C)%Z ->
    (0 < Script.NUM_JUNIOR_STAFF C)%Z ->
    0 < Script.SIM_TIME_MINUTES C ->
    0 < Script.PATIENT_ARRIVAL_RATE C ->
    0 < Script.AVG_TREATMENT_TIME_SENIOR_MINUTES C ->
    0 < Script.AVG_TREATMENT_TIME_JUNIOR_MINUTES C ->
    0 < Script.ALPHA C ->
    (forall e, Script.main C fuel g0 <> Script.Failed e)
    /\ (ScriptAnalysis.script C fuel g0 = None
        \/ ScriptAnalysis.script C fuel g0 = Some (Raise (KeyError "status"))
        \/ exists rep, ScriptAnalysis.script C fuel g0 = Some (Ok rep)).
Proof.
  intros G good C fuel g0 Hseed Hexp Hb Hs Hj HT Hr Hts Htj Ha.
  assert (Hnf : forall e, Script.main C fuel g0 <> Script.Failed e).
  { intros e. unfold Script.main, SimPy.Resource_init, bind, Script.env_run.
    destruct (Script.NUM_BEDS C <=? 0)%Z eqn:E1;
      [apply Z.leb_le in E1; lia|].
    destruct (Script.NUM_SENIOR_STAFF C <=? 0)%Z eqn:E2;
      [apply Z.leb_le in E2; lia|].
    destruct (Script.NUM_JUNIOR_STAFF C <=? 0)%Z eqn:E3;
      [apply Z.leb_le in E3; lia|].
    cbn [Script.env SimPy.now SimPy.schedule SimPy.Environment_init].
    destruct (Qle_bool _ _) eqn:Hd; [apply Qle_bool_iff in Hd; lra|].
    apply (ScriptNoFailure.script_sane_run_loop C good Hexp Hr Hts Htj);
      [lia | exact Ha | exact Hseed]. }
  split; [exact Hnf|].
  unfold ScriptAnalysis.script.
  destruct (Script.main C fuel g0) as [w|e|w] eqn:Hm.
  - pose proof (script_analysis_shape C fuel g0 w Hm) as H.
    destruct (Script.patient_log w); [right; left; now rewrite H|].
    right. right. destruct H as (rep & H). exists rep. now rewrite H.
  - now elim (Hnf e).
  - left. reflexivity.
Qed.

Lemma script_constants_witness :
  @ScriptAnalysis.script lone_patient Script.script_constants 20 [] = None
  \/ @ScriptAnalysis.script lone_patient Script.script_constants 20 []
     = Some (Raise (KeyError "status"))
  \/ exists rep,
      @ScriptAnalysis.script lone_patient Script.script_constants 20 []
      = Some (Ok rep).
Proof.
  refine (proj2 (script_constants_never_fail_the_run
                   lone_patient (Forall (fun x => 0 <= x))
                   Script.script_constants 20%nat []
                   _ _ _ _ _ _ _ _ _ _)).
  - repeat constructor; discriminate.
  - intros [|x g] Hg.
    + split; [discriminate | constructor].
    + apply Forall_cons_iff in Hg. exact Hg.
  - reflexivity.
  - reflexivity.
  - reflexivity.
  - reflexivity.
  - reflexivity.
  - reflexivity.
  - reflexivity.
  - reflexivity.
Defined.

(** ** The dashboard engine: every patient is accounted for once *)

Module DashboardIds.
Import SimPy SimPyFacts Dashboard DashboardFacts DashboardRun.

(** The patient that an event resumes. *)
Definition names_of (ev : Event) : list Z :=
  match ev with
  | Initialize_patient n => [n]
  | Request_granted req | Timeout_treatment req _ _ => [req_name req]
  | _ => []
  end.

(** The counter of [patient_source] when an event resumes it. *)
Definition source_of (ev : Event) : list Z :=
  match ev with
  | Initialize_source => [0%Z]
  | Timeout_source patient_id _ => [patient_id]
  | _ => []
  end.

Definition heap_names (q : list (entry Event)) : list Z :=
  flat_map (fun x => names_of (e_event x)) q.

Definition heap_sources (q : list (entry Event)) : list Z :=
  flat_map (fun x => source_of (e_event x)) q.

Definition occ (n : Z) (l : list Z) : nat := count_occ Z.eq_dec l n.

(** The patients created so far: [P1] to [Pk]. *)
Fixpoint ids (k : nat) : list Z :=
  match k with
  | O => []
  | S k' => Z.of_nat k :: ids k'
  end.

Lemma occ_app n l1 l2 : occ n (l1 ++ l2) = (occ n l1 + occ n l2)%nat.
Proof. apply count_occ_app. Qed.

Lemma occ_nil n : occ n [] = 0%nat.
Proof. reflexivity. Qed.


Lemma ids_range k n : In n (ids k) <-> (1 <= n <= Z.of_nat k)%Z.
Proof.
  induction k as [|k IH]; cbn [ids In]; [lia|].
  rewrite IH. lia.
Qed.

Lemma ids_NoDup k : NoDup (ids k).
Proof.
  induction k as [|k IH]; cbn [ids]; constructor; [|exact IH].
  rewrite ids_range. lia.
Qed.

Section Tally.
Context {G : Generator}.

(** Where patient [n] is: resumed by an event of the heap, waiting for
    staff, or in the log. *)
Definition tally (n : Z) (h : Hospital G) : nat :=
  (occ n (heap_names (queue (env h)))
   + occ n (map req_name (put_queue (staff h)))
   + occ n (map PatientID (patient_log h)))%nat.

Definition sources (n : Z) (h : Hospital G) : nat :=
  occ n (heap_sources (queue (env h))).














(** [k] patients have been created, and each is in one place. *)
Definition accounted (k : nat) (h : Hospital G) : Prop :=
  forall n,
    tally n h = occ n (ids k) /\ sources n h = occ n [Z.of_nat k].

Definition accounts (h : Hospital G) : Prop := exists k, accounted k h.

Lemma occ_one (a n : Z) : occ n [a] = if Z.eq_dec a n then 1%nat else 0%nat.
Proof. unfold occ. cbn. destruct (Z.eq_dec a n); reflexivity. Qed.




End Tally.
End DashboardIds.



(** ** The dashboard engine: staff is given first come, first served *)

Module FcfsFacts.
Import SimPy SimPyFacts HeapFacts Dashboard DashboardFacts DashboardRun.

(** A patient who arrived at [a] was given staff at [s]: the grant is
    on the heap, the treatment is under way, or the discharge is
    logged. *)
Definition started_of (q : list (entry Event)) (log : list Row) (a s : Q)
  : Prop :=
  (exists x req,
      In x q /\ e_event x = Request_granted req
      /\ a = req_arrival_time req /\ s == e_time x)
  \/ (exists x req w t,
         In x q /\ e_event x = Timeout_treatment req w t
         /\ a = req_arrival_time req /\ s == a + w)
  \/ (exists r w,
         In r log /\ WaitTime r = Some w /\ a = ArrivalTime r /\ s == a + w).

Definition earlier (r1 r2 : Request) : Prop :=
  req_arrival_time r1 <= req_arrival_time r2.

Definition fcfs_of (t : Q) (q : list (entry Event)) (pq : list Request)
           (log : list Row) : Prop :=
  (forall a s, started_of q log a s -> a <= s /\ s <= t)
  /\ (forall a s r, started_of q log a s -> In r pq ->
                    a <= req_arrival_time r)
  /\ (forall a1 s1 a2 s2,
         started_of q log a1 s1 -> started_of q log a2 s2 ->
         a1 < a2 -> s1 <= s2)
  /\ StronglySorted earlier pq
  /\ Forall (fun r => req_arrival_time r <= t) pq.

(** Fewer patients with staff, a later clock. *)
Lemma fcfs_of_mono t t' q q' pq log log' :
  fcfs_of t q pq log -> t <= t' ->
  (forall a s, started_of q' log' a s -> started_of q log a s) ->
  fcfs_of t' q' pq log'.
Proof.
  intros (F1 & F2 & F3 & F4 & F5) Ht Hsub. repeat split.
  - now apply (F1 a s), Hsub.
  - destruct (F1 a s (Hsub a s H)). lra.
  - intros a s r Hs Hr. exact (F2 a s r (Hsub a s Hs) Hr).
  - intros a1 s1 a2 s2 H1 H2. exact (F3 a1 s1 a2 s2 (Hsub _ _ H1) (Hsub _ _ H2)).
  - exact F4.
  - eapply Forall_impl; [|exact F5]. cbn. intros r Hr. lra.
Qed.

(** An event that resumes no patient with staff. *)
Definition idle (ev : Event) : Prop :=
  match ev with
  | Request_granted _ | Timeout_treatment _ _ _ => False
  | _ => True
  end.

Lemma started_of_heappush_idle x q log a s :
  idle (e_event x) ->
  started_of (heappush x q) log a s -> started_of q log a s.
Proof.
  intros Hi [(y & req & Hy & Hev & H)|[(y & req & w & t & Hy & Hev & H)|H]].
  - apply In_heappush in Hy. destruct Hy as [->|Hy].
    + rewrite Hev in Hi. destruct Hi.
    + left. exists y, req. auto.
  - apply In_heappush in Hy. destruct Hy as [->|Hy].
    + rewrite Hev in Hi. destruct Hi.
    + right. left. exists y, req, w, t. auto.
  - right. right. exact H.
Qed.

Lemma started_of_tail x q log a s :
  started_of q log a s -> started_of (x :: q) log a s.
Proof.
  intros [(y & req & Hy & H)|[(y & req & w & t & Hy & H)|H]].
  - left. exists y, req. split; [now right | exact H].
  - right. left. exists y, req, w, t. split; [now right | exact H].
  - right. right. exact H.
Qed.

Lemma started_of_balked q log r a s :
  WaitTime r = None ->
  started_of q (log ++ [r]) a s -> started_of q log a s.
Proof.
  intros Hw [H|[H|(r' & w & Hr & Hw' & H)]].
  - left. exact H.
  - right. left. exact H.
  - apply in_app_iff in Hr. destruct Hr as [Hr|[<-|[]]].
    + right. right. exists r', w. auto.
    + congruence.
Qed.

(** The head of the queue is given a unit. *)
Lemma fcfs_of_grant t q r rest log prio eid :
  fcfs_of t q (r :: rest) log ->
  fcfs_of t
    (heappush {| e_time := t + 0; e_prio := prio; e_eid := eid;
                 e_event := Request_granted r |} q)
    rest log.
Proof.
  intros (F1 & F2 & F3 & F4 & F5).
  apply StronglySorted_inv in F4. destruct F4 as [F4 Hr].
  apply Forall_cons_iff in F5. destruct F5 as [Hrt F5].
  assert (Hcase : forall a s,
             started_of (heappush {| e_time := t + 0; e_prio := prio;
                                     e_eid := eid;
                                     e_event := Request_granted r |} q)
                        log a s ->
             started_of q log a s
             \/ (a = req_arrival_time r /\ s == t)).
  { intros a s [(y & req & Hy & Hev & Ha & Hs)
               |[(y & req & w & tt & Hy & Hev & H)|H]].
    - apply In_heappush in Hy. destruct Hy as [->|Hy].
      + right. cbn [e_event e_time] in *. injection Hev as <-.
        split; [exact Ha | lra].
      + left. left. exists y, req. auto.
    - apply In_heappush in Hy. destruct Hy as [->|Hy].
      + discriminate.
      + left. right. left. exists y, req, w, tt. auto.
    - left. right. right. exact H. }
  repeat split.
  - destruct (Hcase a s H) as [H0|[-> Hs]]; [now apply (F1 a s)|lra].
  - destruct (Hcase a s H) as [H0|[-> Hs]]; [now apply (F1 a s)|lra].
  - intros a s r' Hs Hr'. destruct (Hcase a s Hs) as [H0|[-> _]].
    + apply (F2 a s r' H0). now right.
    + rewrite Forall_forall in Hr. exact (Hr r' Hr').
  - intros a1 s1 a2 s2 H1 H2 Hlt.
    destruct (Hcase a1 s1 H1) as [K1|[-> E1]];
      destruct (Hcase a2 s2 H2) as [K2|[-> E2]].
    + exact (F3 a1 s1 a2 s2 K1 K2 Hlt).
    + destruct (F1 a1 s1 K1). lra.
    + pose proof (F2 a2 s2 r K2 (or_introl eq_refl)). lra.
    + lra.
  - exact F4.
  - exact F5.
Qed.

(** A request joins the queue at the time of its arrival. *)
Lemma fcfs_of_request t q pq log req :
  fcfs_of t q pq log -> req_arrival_time req = t ->
  fcfs_of t q (pq ++ [req]) log.
Proof.
  intros (F1 & F2 & F3 & F4 & F5) Hreq. subst t. repeat split.
  - now apply (F1 a s).
  - now apply (F1 a s).
  - intros a s r Hs Hr. apply in_app_iff in Hr.
    destruct Hr as [Hr|[<-|[]]]; [exact (F2 a s r Hs Hr)|].
    destruct (F1 a s Hs). lra.
  - exact F3.
  - clear F1 F2 F3. induction pq as [|r pq IH]; cbn [app].
    + repeat constructor.
    + apply StronglySorted_inv in F4. destruct F4 as [F4 Hr].
      apply Forall_cons_iff in F5. destruct F5 as [Hrt F5].
      constructor; [now apply IH|].
      apply Forall_app. split; [exact Hr|].
      constructor; [|constructor]. unfold earlier. lra.
  - apply Forall_app. split; [exact F5|].
    constructor; [lra | constructor].
Qed.

Section Run.
Context {G : Generator}.

Definition fcfs (h : Hospital G) : Prop :=
  fcfs_of (now (env h)) (queue (env h)) (put_queue (staff h))
          (patient_log h).

Lemma fcfs_only_rng (h h1 : Hospital G) : only_rng h h1 -> fcfs h -> fcfs h1.
Proof.
  intros (E1 & _ & E3 & _ & _ & E6 & _). unfold fcfs.
  now rewrite E1, E3, E6.
Qed.

Lemma fcfs_schedule_idle (h : Hospital G) ev prio d :
  idle ev -> fcfs h -> fcfs (set_env h (schedule (env h) ev prio d)).
Proof.
  intros Hi F. unfold fcfs in *.
  cbn [env staff patient_log set_env schedule now queue].
  apply (fcfs_of_mono _ _ _ _ _ _ _ F); [lra|].
  intros a s. now apply started_of_heappush_idle.
Qed.

Lemma fcfs_serve (h : Hospital G) (s : Resource Request) :
  fcfs_of (now (env h)) (queue (env h)) (put_queue s) (patient_log h) ->
  fcfs (match snd (trigger_put s) with
        | Some r => set_env (set_staff h (fst (trigger_put s)))
                      (schedule (env h) (Request_granted r) NORMAL 0)
        | None => set_staff h (fst (trigger_put s))
        end).
Proof.
  intros F. unfold trigger_put.
  destruct (put_queue s) as [|r rest] eqn:E.
  - cbn [fst snd]. unfold fcfs. cbn [env staff patient_log set_staff].
    now rewrite E.
  - destruct (count s <? capacity s)%Z; cbn [fst snd].
    + unfold fcfs.
      cbn [env staff patient_log set_staff set_env schedule now queue
           put_queue].
      now apply fcfs_of_grant.
    + unfold fcfs. cbn [env staff patient_log set_staff]. now rewrite E.
Qed.

Lemma fcfs_staff_trigger_put (h : Hospital G) :
  fcfs h -> fcfs (staff_trigger_put h).
Proof.
  intros F. pose proof (fcfs_serve h (staff h) F) as H.
  unfold staff_trigger_put.
  destruct (trigger_put (staff h)) as [s [r|]]; exact H.
Qed.

Lemma fcfs_staff_request (h : Hospital G) req :
  fcfs h -> req_arrival_time req = now (env h) ->
  fcfs (staff_request h req).
Proof.
  intros F Hreq.
  pose proof (fcfs_serve h
                {| capacity := capacity (staff h); users := users (staff h);
                   put_queue := put_queue (staff h) ++ [req] |}
                (fcfs_of_request _ _ _ _ _ F Hreq)) as H.
  unfold staff_request, request.
  destruct (trigger_put _) as [s [r|]]; exact H.
Qed.

Lemma fcfs_patient (h : Hospital G) name : fcfs h -> fcfs (patient h name).
Proof.
  intros F. unfold patient.
  destruct (beds_in_use h >=? bed_capacity h)%Z.
  - unfold fcfs in *. cbn [env staff patient_log patient_log_append].
    apply (fcfs_of_mono _ _ _ _ _ _ _ F); [lra|].
    intros a s. now apply started_of_balked.
  - apply fcfs_staff_request; [exact F | reflexivity].
Qed.

(** Every event keeps the order in which staff was given. *)
Lemma fcfs_step T (h h' : Hospital G) :
  timed T h -> fcfs h -> step h = Continue h' -> fcfs h'.
Proof.
  intros Ht F. unfold step, pop.
  destruct (queue (env h)) as [|x q] eqn:Hq; [discriminate|].
  set (e := {| now := e_time x; eid := eid (env h); queue := q |}).
  assert (Hnow : now (env h) <= e_time x).
  { destruct Ht as ((_ & Hn) & _). rewrite Hq in Hn.
    now apply Forall_inv in Hn. }
  assert (F0 : idle (e_event x) -> fcfs (set_env h e)).
  { intros Hi. unfold fcfs in *. cbn [env staff patient_log set_env e now queue].
    apply (fcfs_of_mono _ _ _ _ _ _ _ F); [exact Hnow|].
    intros a s. rewrite Hq. apply started_of_tail. }
  destruct (e_event x)
    as [|name| |patient_id mins|req|req wait_time treatment_time|] eqn:Hev.
  - unfold patient_source, bind. destruct (py_div _ _); [|discriminate].
    destruct (patient_source_wait _ _ _) as [h1|] eqn:Hw; [|discriminate].
    intros [= <-]. apply patient_source_wait_shape in Hw.
    destruct Hw as (h2 & d & Ho & _ & ->).
    apply fcfs_schedule_idle; [exact I|].
    exact (fcfs_only_rng _ _ Ho (F0 I)).
  - intros [= <-]. apply fcfs_patient. exact (F0 I).
  - discriminate.
  - unfold patient_source_resume.
    destruct (patient_source_wait _ _ _) as [h1|] eqn:Hw; [|discriminate].
    intros [= <-]. apply patient_source_wait_shape in Hw.
    destruct Hw as (h2 & d & Ho & _ & ->).
    apply fcfs_schedule_idle; [exact I|].
    refine (fcfs_only_rng _ _ Ho _).
    apply (fcfs_schedule_idle (set_env h e)); [exact I | exact (F0 I)].
  - destruct (patient_staffed _ _) as [h1|] eqn:Hs; [|discriminate].
    intros [= <-]. apply patient_staffed_shape in Hs.
    destruct Hs as (h2 & t & (E1 & _ & E3 & _ & _ & E6 & _) & _ & _ & ->).
    unfold fcfs in *.
    cbn [env staff patient_log set_env schedule now queue].
    rewrite E1, E3, E6. cbn [env staff patient_log set_env e now queue].
    apply (fcfs_of_mono _ _ _ _ _ _ _ F); [exact Hnow|].
    intros a s [(y & r & Hy & Hy1 & H)|[(y & r & w & tt & Hy & Hy1 & Ha & Hs)|H]].
    + apply In_heappush in Hy. destruct Hy as [->|Hy]; [discriminate|].
      left. exists y, r. rewrite Hq. split; [now right | auto].
    + apply In_heappush in Hy. destruct Hy as [->|Hy].
      * cbn [e_event] in Hy1. injection Hy1 as <- <- <-.
        left. exists x, req. rewrite Hq.
        split; [now left|]. split; [exact Hev|]. split; [exact Ha|].
        rewrite Hs, Ha. cbn [env set_env e now]. lra.
      * right. left. exists y, r, w, tt. rewrite Hq.
        split; [now right | auto].
    + right. right. exact H.
  - intros [= <-]. unfold patient_treated, fcfs in *.
    cbn [env staff patient_log set_env set_staff patient_log_append
         occupancy_log_append set_beds_in_use schedule now queue release
         put_queue e].
    apply (fcfs_of_mono _ _ _ _ _ _ _ F); [exact Hnow|].
    intros a s Hs. apply started_of_heappush_idle in Hs; [|exact I].
    destruct Hs as [(y & r & Hy & H)|[(y & r & w & tt & Hy & H)
                                     |(r & w & Hr & Hw & Ha & Hs)]].
    + left. exists y, r. rewrite Hq. split; [now right | exact H].
    + right. left. exists y, r, w, tt. rewrite Hq.
      split; [now right | exact H].
    + apply in_app_iff in Hr. destruct Hr as [Hr|[<-|[]]].
      * right. right. exists r, w. auto.
      * cbn [WaitTime ArrivalTime] in Hw, Ha. injection Hw as <-.
        right. left. exists x, req, wait_time, treatment_time.
        rewrite Hq. split; [now left|]. auto.
  - intros [= <-]. apply fcfs_staff_trigger_put. exact (F0 I).
Qed.

(** The order in which staff was given, as the log shows it. *)
Definition served_in_order (log : list Row) : Prop :=
  forall r1 r2 w1 w2,
    In r1 log -> In r2 log ->
    WaitTime r1 = Some w1 -> WaitTime r2 = Some w2 ->
    ArrivalTime r1 < ArrivalTime r2 ->
    ArrivalTime r1 + w1 <= ArrivalTime r2 + w2.

Lemma fcfs_served_in_order (h : Hospital G) :
  fcfs h -> served_in_order (patient_log h).
Proof.
  intros (_ & _ & F3 & _) r1 r2 w1 w2 H1 H2 W1 W2 Hlt.
  apply (F3 (ArrivalTime r1) _ (ArrivalTime r2) _); [| |exact Hlt];
    right; right; eexists; eexists; repeat split; eauto; reflexivity.
Qed.

Lemma served_in_order_simulate fuel p (g0 : rng_state G) h :
  after_run (simulate fuel p g0) = Some h ->
  served_in_order (patient_log h).
Proof.
  intros H. apply simulate_runs in H. destruct H as (Hn & Hp & H).
  revert H.
  apply (run_loop_ends (fun h => timed (horizon p) h /\ fcfs h)
           (fun h => served_in_order (patient_log h))).
  - intros h1 [_ F]. now apply fcfs_served_in_order.
  - intros h1 h2 [Ht F] Hs. split.
    + exact (timed_step _ _ _ Ht Hs).
    + exact (fcfs_step _ _ _ Ht F Hs).
  - intros h1 h2 [_ F]. unfold step.
    destruct (pop (env h1)) as [[ev e]|]; [|discriminate].
    destruct ev; try discriminate;
      try (destruct (patient_source _); discriminate);
      try (destruct (patient_source_resume _ _ _); discriminate);
      try (destruct (patient_staffed _ _); discriminate).
    intros [= <-]. cbn [patient_log set_env].
    now apply fcfs_served_in_order.
  - intros h1 h2 [Ht _] Hs. destruct (timed_never_empty _ _ _ Ht Hs).
  - split; [now apply timed_start|].
    unfold fcfs, start. cbn [env staff patient_log set_env put_queue].
    assert (Hno : forall a s,
               ~ started_of
                   (queue (schedule
                             (schedule Environment_init Initialize_source
                                       URGENT 0)
                             Until URGENT
                             (horizon p
                              - now (schedule Environment_init
                                       Initialize_source URGENT 0))))
                   [] a s).
    { intros a s [(y & req & Hy & Hev & _)
                 |[(y & req & w & t & Hy & Hev & _)|(r & w & [] & _)]];
        cbn [schedule queue] in Hy; apply In_heappush in Hy;
        destruct Hy as [->|Hy]; try discriminate;
        apply In_heappush in Hy; destruct Hy as [->|[]]; discriminate. }
    split; [|split; [|split; [|split]]].
    + intros a s H0. destruct (Hno a s H0).
    + intros a s r H0. destruct (Hno a s H0).
    + intros a1 s1 a2 s2 H0. destruct (Hno a1 s1 H0).
    + constructor.
    + constructor.
Qed.

End Run.
End FcfsFacts.

(** Two arrivals, after one and after two days; both are admitted, the
    second waits for the only member of staff. *)
Definition two_arrivals : Generator := scripted [1; 1; 1 # 3; 10; 1 # 3].

(** X16. In every state that a run of the dashboard engine reaches, the
    log shows staff given first come, first served: of two logged
    patients who were treated, the one who arrived earlier was not
    given staff later, the time at which staff is given being the
    arrival time plus the wait. *)
Theorem staff_is_given_first_come_first_served :
  forall (G : Generator) (fuel : nat) (p : Dashboard.Params)
         (g0 : rng_state G) (h : Dashboard.Hospital G),
    DashboardFacts.after_run (Dashboard.simulate fuel p g0) = Some h ->
    forall r1 r2 w1 w2,
      In r1 (Dashboard.patient_log h) -> In r2 (Dashboard.patient_log h) ->
      Dashboard.WaitTime r1 = Some w1 -> Dashboard.WaitTime r2 = Some w2 ->
      Dashboard.ArrivalTime r1 < Dashboard.ArrivalTime r2 ->
      Dashboard.ArrivalTime r1 + w1 <= Dashboard.ArrivalTime r2 + w2.
Proof.
  intros G fuel p g0 h Hrun.
  exact (FcfsFacts.served_in_order_simulate fuel p g0 h Hrun).
Qed.

Lemma first_come_first_served_witness :
  exists h : Dashboard.Hospital two_arrivals,
    DashboardFacts.after_run
      (@Dashboard.simulate two_arrivals 30 (small_ward baseline 2) [])
    = Some h
    /\ map Dashboard.PatientID (Dashboard.patient_log h) = [1%Z; 2%Z]
    /\ FcfsFacts.served_in_order (Dashboard.patient_log h).
Proof.
  eexists. split; [vm_compute; reflexivity|].
  split; [reflexivity|].
  refine (staff_is_given_first_come_first_served
            two_arrivals 30%nat (small_ward baseline 2) [] _ _).
  vm_compute; reflexivity.
Defined.

(** ** Properties of the kernel the two programs run on *)

(** X17. Events that are due at the same time with the same priority
    fire in the order in which they were scheduled: on a well-formed
    heap, an event scheduled after another one with the same delay and
    priority is behind it in the heap, from whose head events are
    popped. *)
Theorem same_time_events_fire_in_scheduling_order :
  forall (E : Type) (env : SimPy.Environment E) (a b : E) (prio : Z)
         (delay : Q),
    HeapFacts.heap_ok env -> 0 <= delay ->
    let first := {| SimPy.e_time := SimPy.now env + delay;
                    SimPy.e_prio := prio; SimPy.e_eid := SimPy.eid env;
                    SimPy.e_event := a |} in
    let second := {| SimPy.e_time := SimPy.now env + delay;
                     SimPy.e_prio := prio;
                     SimPy.e_eid := (SimPy.eid env + 1)%Z;
                     SimPy.e_event := b |} in
    HeapFacts.heap_ok
      (SimPy.schedule (SimPy.schedule env a prio delay) b prio delay)
    /\ exists l1 l2 l3,
        SimPy.queue
          (SimPy.schedule (SimPy.schedule env a prio delay) b prio delay)
        = l1 ++ first :: l2 ++ second :: l3.
Proof.
  intros E env a b prio delay Hok Hd first second.
  pose proof (HeapFacts.heap_ok_schedule env a prio delay Hok Hd) as H1.
  split; [now apply HeapFacts.heap_ok_schedule|].
  cbn [SimPy.schedule SimPy.queue SimPy.now SimPy.eid].
  apply HeapFacts.heappush_fifo.
  - exact (proj1 H1).
  - apply SimPyFacts.In_heappush. left. reflexivity.
  - reflexivity.
  - reflexivity.
  - unfold first, second. cbn [SimPy.e_eid]. lia.
Qed.

Lemma same_time_events_witness :
  exists l1 l2 l3,
    SimPy.queue
      (SimPy.schedule
         (SimPy.schedule (@SimPy.Environment_init nat) 1%nat 1%Z 5)
         2%nat 1%Z 5)
    = l1 ++ {| SimPy.e_time := 0 + 5; SimPy.e_prio := 1; SimPy.e_eid := 0;
               SimPy.e_event := 1%nat |}
         :: l2 ++ {| SimPy.e_time := 0 + 5; SimPy.e_prio := 1;
                     SimPy.e_eid := 0 + 1; SimPy.e_event := 2%nat |} :: l3.
Proof.
  refine (proj2 (same_time_events_fire_in_scheduling_order
                   nat SimPy.Environment_init 1%nat 2%nat 1%Z 5 _ _)).
  - apply HeapFacts.heap_ok_init.
  - discriminate.
Defined.

(** X18. A request on a pool with a free unit and nobody waiting is
    granted at once: the requester becomes the last user.  Releasing it
    then gives back the pool as it was, [same] being the identity test
    of the released request. *)
Theorem request_then_release_restores_the_pool :
  forall (R : Type) (res : SimPy.Resource R) (r : R) (same : R -> bool),
    (SimPy.count res < SimPy.capacity res)%Z ->
    SimPy.put_queue res = [] ->
    Forall (fun u => same u = false) (SimPy.users res) ->
    same r = true ->
    snd (SimPy.request res r) = Some r
    /\ SimPy.users (fst (SimPy.request res r)) = SimPy.users res ++ [r]
    /\ SimPy.release (fst (SimPy.request res r)) same = res
    /\ ResourceFacts.within_capacity (fst (SimPy.request res r)).
Proof.
  intros R res r same Hfree Hq Hu Hr.
  destruct (ResourceFacts.request_release res r same Hfree Hq Hu Hr)
    as (H1 & H2 & H3).
  repeat split; try assumption.
  unfold ResourceFacts.within_capacity, SimPy.count.
  rewrite H2, length_app, ResourceFacts.request_capacity.
  unfold SimPy.count in Hfree. cbn [List.length]. lia.
Qed.

Lemma request_then_release_witness :
  SimPy.release
    (fst (SimPy.request
            {| SimPy.capacity := 2; SimPy.users := [7%Z];
               SimPy.put_queue := [] |} 9%Z))
    (Z.eqb 9)
  = {| SimPy.capacity := 2; SimPy.users := [7%Z]; SimPy.put_queue := [] |}.
Proof.
  refine (proj1 (proj2 (proj2
           (request_then_release_restores_the_pool
              Z {| SimPy.capacity := 2; SimPy.users := [7%Z];
                   SimPy.put_queue := [] |} 9%Z (Z.eqb 9) _ _ _ _)))).
  - reflexivity.
  - reflexivity.
  - repeat constructor.
  - reflexivity.
Defined.

(** ** The dashboard engine: the log is in the order of the departures *)

Module LogOrder.
Import SimPy SimPyFacts HeapFacts Dashboard DashboardFacts DashboardRun.

(** The time at which a record was logged: the arrival of a patient
    who balked, the discharge of a patient who was treated. *)
Definition logged_at (r : Row) : Q :=
  ArrivalTime r + match TotalTime r with Some t => t | None => 0 end.

Definition stamps (log : list Row) : list (Q * Z) :=
  map (fun r => (logged_at r, 0%Z)) log.

Section Run.
Context {G : Generator}.

Definition chrono (h : Hospital G) : Prop :=
  rising 0 (stamps (patient_log h))
  /\ last_time (stamps (patient_log h)) <= now (env h).

Lemma now_staff_request (h : Hospital G) req :
  now (env (staff_request h req)) = now (env h).
Proof.
  unfold staff_request.
  destruct (request (staff h) req) as [s [r|]]; reflexivity.
Qed.

Lemma now_staff_trigger_put (h : Hospital G) :
  now (env (staff_trigger_put h)) = now (env h).
Proof.
  unfold staff_trigger_put.
  destruct (trigger_put (staff h)) as [s [r|]]; reflexivity.
Qed.

(** What an event does to the clock and to the log. *)
Lemma step_logs T (h h' : Hospital G) :
  timed T h -> step h = Continue h' ->
  now (env h) <= now (env h')
  /\ (patient_log h' = patient_log h
      \/ exists r, patient_log h' = patient_log h ++ [r]
                   /\ logged_at r == now (env h')).
Proof.
  intros Ht. unfold step, pop.
  destruct (queue (env h)) as [|x q] eqn:Hq; [discriminate|].
  set (e := {| now := e_time x; eid := eid (env h); queue := q |}).
  assert (Hnow : now (env h) <= e_time x).
  { destruct Ht as ((_ & Hn) & _). rewrite Hq in Hn.
    now apply Forall_inv in Hn. }
  destruct (e_event x)
    as [|name| |patient_id mins|req|req wait_time treatment_time|].
  - unfold patient_source, bind. destruct (py_div _ _); [|discriminate].
    destruct (patient_source_wait _ _ _) as [h1|] eqn:Hw; [|discriminate].
    intros [= <-]. apply patient_source_wait_shape in Hw.
    destruct Hw as (h2 & d & (E1 & _ & _ & _ & _ & E6 & _) & _ & ->).
    cbn [env set_env schedule now patient_log]. rewrite E1, E6.
    split; [exact Hnow | now left].
  - intros [= <-]. unfold patient.
    destruct (beds_in_use _ >=? bed_capacity _)%Z.
    + split; [exact Hnow|]. right. eexists. split; [reflexivity|].
      unfold logged_at. cbn. lra.
    + rewrite now_staff_request. split; [exact Hnow|]. left.
      unfold staff_request. destruct (request _ _) as [s [r|]]; reflexivity.
  - discriminate.
  - unfold patient_source_resume.
    destruct (patient_source_wait _ _ _) as [h1|] eqn:Hw; [|discriminate].
    intros [= <-]. apply patient_source_wait_shape in Hw.
    destruct Hw as (h2 & d & (E1 & _ & _ & _ & _ & E6 & _) & _ & ->).
    cbn [env set_env schedule now patient_log]. rewrite E1, E6.
    split; [exact Hnow | now left].
  - destruct (patient_staffed _ _) as [h1|] eqn:Hs; [|discriminate].
    intros [= <-]. apply patient_staffed_shape in Hs.
    destruct Hs as (h2 & t & (E1 & _ & _ & _ & _ & E6 & _) & _ & _ & ->).
    cbn [env set_env schedule now patient_log]. rewrite E1, E6.
    split; [exact Hnow | now left].
  - intros [= <-]. split; [exact Hnow|]. right.
    unfold patient_treated.
    cbn [env staff patient_log set_env set_staff patient_log_append
         occupancy_log_append set_beds_in_use schedule now].
    eexists. split; [reflexivity|].
    unfold logged_at. cbn [ArrivalTime TotalTime e now]. lra.
  - intros [= <-]. rewrite now_staff_trigger_put.
    split; [exact Hnow|]. left.
    unfold staff_trigger_put.
    destruct (trigger_put _) as [s [r|]]; reflexivity.
Qed.

Lemma chrono_step T (h h' : Hospital G) :
  timed T h -> chrono h -> step h = Continue h' -> chrono h'.
Proof.
  intros Ht [C1 C2] Hs. unfold chrono.
  destruct (step_logs T h h' Ht Hs) as (Hn & [->|(r & -> & Hr)]).
  - split; [exact C1 | lra].
  - unfold stamps. rewrite map_app. cbn [map].
    split.
    + apply rising_app; [exact C1|].
      unfold last_time, stamps in C2. lra.
    + rewrite last_time_app. cbn [fst]. lra.
Qed.

Definition in_order (log : list Row) : Prop :=
  forall i r1 r2,
    nth_error log i = Some r1 -> nth_error log (S i) = Some r2 ->
    logged_at r1 <= logged_at r2.

Lemma chrono_in_order (h : Hospital G) : chrono h -> in_order (patient_log h).
Proof.
  intros [C1 _] i r1 r2 H1 H2.
  apply (rising_nth _ 0 i (logged_at r1, 0%Z) (logged_at r2, 0%Z) C1);
    unfold stamps; rewrite nth_error_map; [now rewrite H1 | now rewrite H2].
Qed.

Lemma in_order_simulate fuel p (g0 : rng_state G) h :
  after_run (simulate fuel p g0) = Some h -> in_order (patient_log h).
Proof.
  intros H. apply simulate_runs in H. destruct H as (Hn & Hp & H).
  revert H.
  apply (run_loop_ends (fun h => timed (horizon p) h /\ chrono h)
           (fun h => in_order (patient_log h))).
  - intros h1 [_ F]. now apply chrono_in_order.
  - intros h1 h2 [Ht F] Hs. split.
    + exact (timed_step _ _ _ Ht Hs).
    + exact (chrono_step _ _ _ Ht F Hs).
  - intros h1 h2 [_ F]. unfold step.
    destruct (pop (env h1)) as [[ev e]|]; [|discriminate].
    destruct ev; try discriminate;
      try (destruct (patient_source _); discriminate);
      try (destruct (patient_source_resume _ _ _); discriminate);
      try (destruct (patient_staffed _ _); discriminate).
    intros [= <-]. cbn [patient_log set_env].
    now apply chrono_in_order.
  - intros h1 h2 [Ht _] Hs. destruct (timed_never_empty _ _ _ Ht Hs).
  - split; [now apply timed_start|].
    unfold chrono, start, stamps.
    cbn [env patient_log set_env map rising last_time fold_left schedule now
         Environment_init].
    split; [exact I | lra].
Qed.

End Run.
End LogOrder.

(** X19. In every state that a run of the dashboard engine reaches, the
    records of the patient log are in the order in which the patients
    left: from one record to the next the time of leaving does not
    decrease, which is the arrival time of a patient who balked and the
    arrival time plus the total time of a patient who was treated. *)
Theorem patient_log_is_in_order_of_departure :
  forall (G : Generator) (fuel : nat) (p : Dashboard.Params)
         (g0 : rng_state G) (h : Dashboard.Hospital G),
    DashboardFacts.after_run (Dashboard.simulate fuel p g0) = Some h ->
    forall i r1 r2,
      nth_error (Dashboard.patient_log h) i = Some r1 ->
      nth_error (Dashboard.patient_log h) (S i) = Some r2 ->
      LogOrder.logged_at r1 <= LogOrder.logged_at r2.
Proof.
  intros G fuel p g0 h Hrun.
  exact (LogOrder.in_order_simulate fuel p g0 h Hrun).
Qed.

Lemma patient_log_order_witness :
  exists h : Dashboard.Hospital two_arrivals,
    DashboardFacts.after_run
      (@Dashboard.simulate two_arrivals 30 (small_ward baseline 2) [])
    = Some h
    /\ List.length (Dashboard.patient_log h) = 2%nat
    /\ LogOrder.in_order (Dashboard.patient_log h).
Proof.
  eexists. split; [vm_compute; reflexivity|].
  split; [reflexivity|].
  refine (patient_log_is_in_order_of_departure
            two_arrivals 30%nat (small_ward baseline 2) [] _ _).
  vm_compute; reflexivity.
Defined.

(** ** The dashboard engine: staff that covers the beds

    With at least as many members of staff as beds, a patient who is
    admitted finds a member of staff free: nobody waits for staff. *)

Module NoWait.
Import SimPy SimPyFacts HeapFacts ResourceFacts Dashboard DashboardFacts.
Import StaffFacts DashboardRun.

(** A grant that fires at the arrival, a treatment after no wait. *)
Definition entry_prompt (x : entry Event) : Prop :=
  match e_event x with
  | Request_granted req => e_time x == req_arrival_time req
  | Timeout_treatment _ wait_time _ => wait_time == 0
  | _ => True
  end.

Definition row_prompt (r : Row) : Prop :=
  forall w, WaitTime r = Some w -> w == 0.

Section Run.
Context {G : Generator}.
Variable p : Params.
Hypothesis staff_cover_beds : (num_beds p <= num_staff p)%Z.

Definition prompt (h : Hospital G) : Prop :=
  put_queue (staff h) = []
  /\ Forall entry_prompt (queue (env h))
  /\ Forall row_prompt (patient_log h).

Definition covered (h : Hospital G) : Prop :=
  invariant (num_beds p) h /\ staffed h /\ staffing p h
  /\ timed (horizon p) h /\ prompt h.

Lemma prompt_only_rng (h h1 : Hospital G) :
  only_rng h h1 -> prompt h -> prompt h1.
Proof.
  intros (E1 & _ & E3 & _ & _ & E6 & _). unfold prompt.
  now rewrite E1, E3, E6.
Qed.

Lemma prompt_schedule (h : Hospital G) ev prio d :
  prompt h ->
  entry_prompt {| e_time := now (env h) + d; e_prio := prio;
                  e_eid := eid (env h); e_event := ev |} ->
  prompt (set_env h (schedule (env h) ev prio d)).
Proof.
  intros (P1 & P2 & P3) Hx. split; [exact P1|]. split; [|exact P3].
  cbn [env set_env schedule queue]. rewrite Forall_forall in *.
  intros y Hy. apply In_heappush in Hy.
  destruct Hy as [->|Hy]; [exact Hx | now apply P2].
Qed.

(** A free member of staff at every admission. *)
Lemma free_staff (h : Hospital G) :
  invariant (num_beds p) h -> staffed h -> staffing p h ->
  put_queue (staff h) = [] ->
  (beds_in_use h >=? bed_capacity h)%Z = false ->
  (count (staff h) <? capacity (staff h))%Z = true.
Proof.
  intros [I1 I2 _ _ _ _ _] S (_ & Hc & _) Hq Hb.
  apply Z.ltb_lt. rewrite Hc.
  unfold staffed in S. apply Permutation_length in S.
  rewrite length_map in S.
  unfold admitted in I2. rewrite Hq in I2. cbn [List.length] in I2.
  rewrite <- care_names_weight in I2. unfold count. lia.
Qed.

Lemma prompt_step (h h' : Hospital G) :
  covered h -> step h = Continue h' -> prompt h'.
Proof.
  intros (Inv & S & St & Ht & P1 & P2 & P3). unfold step, pop.
  destruct (queue (env h)) as [|x q] eqn:Hq; [discriminate|].
  set (e := {| now := e_time x; eid := eid (env h); queue := q |}).
  apply Forall_cons_iff in P2. destruct P2 as [Hx P2].
  assert (P0 : prompt (set_env h e)).
  { split; [exact P1|]. split; [exact P2 | exact P3]. }
  unfold entry_prompt in Hx.
  destruct (e_event x)
    as [|name| |patient_id mins|req|req wait_time treatment_time|] eqn:Hev.
  - unfold patient_source, bind. destruct (py_div _ _); [|discriminate].
    destruct (patient_source_wait _ _ _) as [h1|] eqn:Hw; [|discriminate].
    intros [= <-]. apply patient_source_wait_shape in Hw.
    destruct Hw as (h2 & d & Ho & _ & ->).
    apply prompt_schedule; [|exact I].
    exact (prompt_only_rng _ _ Ho P0).
  - intros [= <-]. unfold patient.
    destruct (beds_in_use (set_env h e) >=? bed_capacity (set_env h e))%Z
      eqn:Hb.
    + split; [exact P1|]. split; [exact P2|].
      cbn [patient_log patient_log_append set_env]. apply Forall_app.
      split; [exact P3|]. constructor; [|constructor].
      intros w Hw. discriminate.
    + pose proof (free_staff h Inv S St P1 Hb) as Hfree.
      unfold staff_request, request, trigger_put.
      cbn [staff set_env occupancy_log_append set_beds_in_use put_queue].
      rewrite P1. cbn [app].
      change (count {| capacity := capacity (staff h);
                       users := users (staff h); put_queue := _ |})
        with (count (staff h)).
      cbn [capacity]. rewrite Hfree.
      split; [reflexivity|]. split; [|exact P3].
      cbn [env set_env set_staff occupancy_log_append set_beds_in_use
           schedule queue e now].
      rewrite Forall_forall in *. intros y Hy. apply In_heappush in Hy.
      destruct Hy as [->|Hy]; [|now apply P2].
      unfold entry_prompt. cbn [e_event e_time req_arrival_time]. lra.
  - discriminate.
  - unfold patient_source_resume.
    destruct (patient_source_wait _ _ _) as [h1|] eqn:Hw; [|discriminate].
    intros [= <-]. apply patient_source_wait_shape in Hw.
    destruct Hw as (h2 & d & Ho & _ & ->).
    apply prompt_schedule; [|exact I].
    refine (prompt_only_rng _ _ Ho _).
    apply (prompt_schedule (set_env h e)); [exact P0 | exact I].
  - destruct (patient_staffed _ _) as [h1|] eqn:Hs; [|discriminate].
    intros [= <-]. apply patient_staffed_shape in Hs.
    destruct Hs as (h2 & t & Ho & _ & _ & ->).
    apply prompt_schedule; [exact (prompt_only_rng _ _ Ho P0)|].
    unfold entry_prompt. cbn [e_event env set_env e now]. lra.
  - intros [= <-]. unfold patient_treated.
    apply (prompt_schedule
             (set_staff
                (patient_log_append
                   (occupancy_log_append
                      (set_beds_in_use (set_env h e) _) _) _) _));
      [|exact I].
    split; [exact P1|]. split; [exact P2|].
    cbn [patient_log set_staff patient_log_append occupancy_log_append
         set_beds_in_use set_env].
    apply Forall_app. split; [exact P3|]. constructor; [|constructor].
    intros w Hw. cbn [WaitTime] in Hw. injection Hw as <-. exact Hx.
  - intros [= <-]. unfold staff_trigger_put, trigger_put.
    cbn [staff set_env]. rewrite P1. exact P0.
Qed.

Lemma covered_step (h h' : Hospital G) :
  covered h -> step h = Continue h' -> covered h'.
Proof.
  intros C Hs. pose proof C as (I & S & St & Ht & P).
  assert (Ha : after_step (step h) = Some h') by now rewrite Hs.
  split; [exact (invariant_step _ _ _ I Ha)|].
  split; [exact (staffed_step _ _ S Ha)|].
  split; [exact (staffing_step _ _ _ St Ha)|].
  split; [exact (timed_step _ _ _ Ht Hs)|].
  exact (prompt_step _ _ C Hs).
Qed.

Lemma prompt_simulate fuel (g0 : rng_state G) h :
  after_run (simulate fuel p g0) = Some h ->
  Forall row_prompt (patient_log h).
Proof.
  intros H. apply simulate_runs in H. destruct H as (Hn & Hp & H).
  revert H.
  apply (run_loop_ends covered (fun h => Forall row_prompt (patient_log h))).
  - intros h1 (_ & _ & _ & _ & _ & _ & P3). exact P3.
  - apply covered_step.
  - intros h1 h2 (_ & _ & _ & _ & _ & _ & P3). unfold step.
    destruct (pop (env h1)) as [[ev e]|]; [|discriminate].
    destruct ev; try discriminate;
      try (destruct (patient_source _); discriminate);
      try (destruct (patient_source_resume _ _ _); discriminate);
      try (destruct (patient_staffed _ _); discriminate).
    intros [= <-]. exact P3.
  - intros h1 h2 (_ & _ & _ & Ht & _) Hs.
    destruct (timed_never_empty _ _ _ Ht Hs).
  - split; [|split; [|split; [|split]]].
    + split; cbn [bed_capacity beds_in_use occupancy_log patient_log
                  start set_env];
        try reflexivity; try constructor.
      * unfold admitted. cbn [env set_env staff put_queue List.length start].
        rewrite !weight_schedule. reflexivity.
      * lia.
    + unfold staffed, start. cbn [staff set_env users map env].
      unfold schedule. cbn [queue].
      rewrite care_names_heappush. cbn [e_event care_name app].
      rewrite care_names_heappush. reflexivity.
    + repeat split. unfold within_capacity, count.
      cbn [staff start set_env users capacity List.length]. lia.
    + now apply timed_start.
    + split; [reflexivity|]. split; [|constructor].
      unfold start. cbn [env set_env schedule queue].
      rewrite Forall_forall. intros y Hy. apply In_heappush in Hy.
      destruct Hy as [->|Hy]; [exact I|].
      apply In_heappush in Hy. destruct Hy as [->|[]]. exact I.
Qed.

End Run.
End NoWait.

(** A column of zeros, without NaN. *)
Lemma values_of_zeros (l : list (option Q)) :
  Forall (fun x => exists w, x = Some w /\ w == 0) l ->
  Forall (fun w => w == 0) (Dashboard.values l)
  /\ List.length (Dashboard.values l) = List.length l.
Proof.
  induction 1 as [|x l (w & -> & Hw) _ [IH1 IH2]];
    cbn [Dashboard.values List.length].
  - split; [constructor | reflexivity].
  - split; [now constructor | now rewrite IH2].
Qed.

(** The mean of a column of zeros is zero. *)
Lemma mean_of_zeros (l : list (option Q)) :
  l <> [] -> Forall (fun x => exists w, x = Some w /\ w == 0) l ->
  exists m, Dashboard.mean l = Some m /\ m == 0.
Proof.
  intros Hne H. destruct (values_of_zeros l H) as [Hz Hl].
  unfold Dashboard.mean.
  destruct (Dashboard.values l) as [|v vs] eqn:E.
  - destruct l; [congruence | discriminate].
  - eexists. split; [reflexivity|].
    rewrite (AnalysisFacts.sumQ_zero _ Hz).
    assert (Hn : 0 < inject_Z (Z.of_nat (List.length (v :: vs)))).
    { apply AnalysisFacts.length_pos. discriminate. }
    field. lra.
Qed.

(** X20. With at least as many members of staff as beds nobody waits
    for staff: in the results of a run every wait time is 0, and so is
    the 'Average Wait for Staff (days)'. *)
Theorem nobody_waits_when_staff_cover_the_beds :
  forall (G : Generator) (fuel : nat) (p : Dashboard.Params)
         (g0 : rng_state G) (r : Dashboard.Results),
    (Dashboard.num_beds p <= Dashboard.num_staff p)%Z ->
    Dashboard.run_hospital_simulation fuel p g0 = Some (Ok r) ->
    Forall (fun row => forall w, Dashboard.WaitTime row = Some w -> w == 0)
           (Dashboard.rows (Dashboard.patient_log_df r))
    /\ exists w,
        Dashboard.Average_Wait_for_Staff (Dashboard.kpis r) = Some w
        /\ w == 0.
Proof.
  intros G fuel p g0 r Hcover Hrun.
  destruct (ResultFacts.run_results fuel p g0 r Hrun) as (h & Hs & Hne & Hr).
  assert (Hafter : DashboardFacts.after_run (Dashboard.simulate fuel p g0)
                   = Some h) by now rewrite Hs.
  pose proof (NoWait.prompt_simulate p Hcover fuel g0 h Hafter) as Hrows.
  rewrite (KPIFacts.process_results_nonempty p _ _ Hne) in Hr.
  injection Hr as <-.
  cbn [Dashboard.patient_log_df Dashboard.kpis
       Dashboard.Average_Wait_for_Staff].
  rewrite (KPIFacts.converted_rows _ Hne).
  assert (Hday : forall row w,
             In row (Dashboard.patient_log h) ->
             Dashboard.WaitTime (KPIFacts.in_days row) = Some w -> w == 0).
  { intros row w Hin Hw. rewrite Forall_forall in Hrows.
    specialize (Hrows row Hin). unfold NoWait.row_prompt in Hrows.
    cbn [KPIFacts.in_days Dashboard.WaitTime] in Hw.
    destruct (Dashboard.WaitTime row) as [w0|]; [|discriminate].
    cbn [Dashboard.to_days option_map] in Hw. injection Hw as <-.
    rewrite (Hrows w0 eq_refl). reflexivity. }
  split.
  - rewrite Forall_forall. intros row Hin w Hw.
    apply in_map_iff in Hin. destruct Hin as (row0 & <- & Hin0).
    exact (Hday row0 w Hin0 Hw).
  - destruct (KPIFacts.treated (Dashboard.patient_log h)) as [|t0 ts] eqn:Ht.
    + exists 0. split; reflexivity.
    + apply mean_of_zeros.
      * discriminate.
      * rewrite Forall_forall. intros x Hx.
        apply in_map_iff in Hx. destruct Hx as (row1 & <- & Hin1).
        apply in_map_iff in Hin1. destruct Hin1 as (row0 & <- & Hin0).
        assert (Hin : In row0 (KPIFacts.treated (Dashboard.patient_log h)))
          by now rewrite Ht.
        unfold KPIFacts.treated in Hin. apply filter_In in Hin.
        destruct Hin as [Hin Hna].
        destruct (Dashboard.WaitTime (KPIFacts.in_days row0)) as [w|] eqn:Hw.
        -- exists w. split; [reflexivity|]. exact (Hday row0 w Hin Hw).
        -- cbn [KPIFacts.in_days Dashboard.WaitTime] in Hw.
           destruct (Dashboard.WaitTime row0); discriminate.
Qed.

Lemma nobody_waits_witness :
  exists r,
    @Dashboard.run_hospital_simulation one_arrival 20
      (small_ward baseline 1) [] = Some (Ok r)
    /\ exists w,
        Dashboard.Average_Wait_for_Staff (Dashboard.kpis r) = Some w
        /\ w == 0.
Proof.
  eexists. split; [vm_compute; reflexivity|].
  refine (proj2 (nobody_waits_when_staff_cover_the_beds
                   one_arrival 20%nat (small_ward baseline 1) [] _ _ _)).
  - vm_compute. discriminate.
  - vm_compute; reflexivity.
Defined.

(** ** The script: every patient is accounted for once, and holds a bed
    while in the ward *)

Module ScriptIds.
Import SimPy SimPyFacts Script ScriptFacts.
Import DashboardIds.

(** The patient whose process an event resumes. *)
Definition token_of (ev : Event) : list Z :=
  match ev with
  | Initialize_patient n => [n]
  | Bed_request req => [bed_name req]
  | Timeout_treatment n _ _ _ _ => [n]
  | _ => []
  end.

(** The counter of [patient_generator] when an event resumes it. *)
Definition counter_of (ev : Event) : list Z :=
  match ev with
  | Initialize_generator => [0%Z]
  | Timeout_generator patient_id => [patient_id]
  | _ => []
  end.

Definition condition_of (ev : Event) : list Z :=
  match ev with
  | Condition n => [n]
  | _ => []
  end.

(** The patient who holds a bed and is resumed by the event. *)
Definition holder_of (ev : Event) : list Z :=
  match ev with
  | Bed_request req => [bed_name req]
  | Timeout_treatment n _ _ _ _ => [n]
  | _ => []
  end.

Definition heap_of (f : Event -> list Z) (q : list (entry Event)) : list Z :=
  flat_map (fun x => f (e_event x)) q.

(** Patient [n] waits at [yield senior_req | junior_req]. *)
Definition racing (n : Z) (t : list (Z * Race)) : nat :=
  match race_get n t with
  | Some r => if built r then 0%nat else 1%nat
  | None => 0%nat
  end.

(** The condition of patient [n] is triggered and has not fired. *)
Definition pending (n : Z) (t : list (Z * Race)) : nat :=
  match race_get n t with
  | Some r => if (triggered r && negb (built r))%bool then 1%nat else 0%nat
  | None => 0%nat
  end.

Lemma heap_of_heappush (f : Event -> list Z) n (x : entry Event) q :
  occ n (heap_of f (heappush x q))
  = (occ n (f (e_event x)) + occ n (heap_of f q))%nat.
Proof.
  unfold heap_of. induction q as [|y q IH]; cbn [heappush flat_map].
  - now rewrite occ_app.
  - destruct (before x y); cbn [flat_map]; rewrite !occ_app; [reflexivity|].
    rewrite IH. lia.
Qed.

Lemma racing_set n m r t :
  racing m (race_set n r t)
  = if Z.eq_dec n m then (if built r then 0%nat else 1%nat) else racing m t.
Proof.
  unfold racing. destruct (Z.eq_dec n m) as [->|Hnm].
  - now rewrite race_get_set.
  - now rewrite RaceFacts.race_get_set_other.
Qed.

Lemma pending_set n m r t :
  pending m (race_set n r t)
  = if Z.eq_dec n m
    then (if (triggered r && negb (built r))%bool then 1%nat else 0%nat)
    else pending m t.
Proof.
  unfold pending. destruct (Z.eq_dec n m) as [->|Hnm].
  - now rewrite race_get_set.
  - now rewrite RaceFacts.race_get_set_other.
Qed.

Lemma pending_le_racing n t : (pending n t <= racing n t)%nat.
Proof.
  unfold pending, racing. destruct (race_get n t) as [r|]; [|lia].
  destruct (triggered r), (built r); cbn; lia.
Qed.

(** Removing the first bed request of patient [n]. *)
Lemma occ_list_remove n m (l : list BedRequest) :
  occ m (map bed_name (list_remove (fun r => (bed_name r =? n)%Z) l))
  = if Z.eq_dec n m
    then Nat.pred (occ m (map bed_name l))
    else occ m (map bed_name l).
Proof.
  induction l as [|r l IH]; cbn [list_remove map].
  - destruct (Z.eq_dec n m); reflexivity.
  - change (bed_name r :: map bed_name l)
      with ([bed_name r] ++ map bed_name l).
    destruct (bed_name r =? n)%Z eqn:E.
    + apply Z.eqb_eq in E. rewrite occ_app, occ_one.
      destruct (Z.eq_dec n m) as [->|Hnm].
      * destruct (Z.eq_dec (bed_name r) m); [reflexivity | congruence].
      * destruct (Z.eq_dec (bed_name r) m); [congruence | reflexivity].
    + apply Z.eqb_neq in E. cbn [map].
      change (bed_name r
              :: map bed_name (list_remove (fun r0 => (bed_name r0 =? n)%Z) l))
        with ([bed_name r]
              ++ map bed_name
                   (list_remove (fun r0 => (bed_name r0 =? n)%Z) l)).
      rewrite !occ_app, IH, occ_one.
      destruct (Z.eq_dec n m) as [->|Hnm]; [|reflexivity].
      destruct (Z.eq_dec (bed_name r) m); [congruence | reflexivity].
Qed.

Section Tally.
Context {G : Generator} (C : Constants).

(** Where the process of patient [n] is: on the heap or waiting for a
    bed, at its race, or finished and logged. *)
Definition tokens (n : Z) (w : World G) : nat :=
  (occ n (heap_of token_of (queue (env w)))
   + occ n (map bed_name (put_queue (beds w))))%nat.

Definition logged (n : Z) (w : World G) : nat :=
  occ n (map name (patient_log w)).

Definition counters (n : Z) (w : World G) : nat :=
  occ n (heap_of counter_of (queue (env w))).

Definition conditions (n : Z) (w : World G) : nat :=
  occ n (heap_of condition_of (queue (env w))).

Definition holders (n : Z) (w : World G) : nat :=
  occ n (heap_of holder_of (queue (env w))).

Definition in_bed (n : Z) (w : World G) : nat :=
  occ n (map bed_name (users (beds w))).

(** [k] patients have been created; each is in one place, holds a bed
    while in the ward, and has a condition on the heap exactly while
    its race is triggered and has not fired. *)
Definition accounted (k : nat) (w : World G) : Prop :=
  forall n,
    (tokens n w + racing n (races w) + logged n w = occ n (ids k))%nat
    /\ counters n w = occ n [Z.of_nat k]
    /\ conditions n w = pending n (races w)
    /\ in_bed n w = (holders n w + racing n (races w))%nat.

(** From [w] to [w'] the heap gains an event [ev]; the pools, the races
    and the log are those of [w]. *)
Definition gains (ev : list Event) (w w' : World G) : Prop :=
  (forall f n,
      occ n (heap_of f (queue (env w')))
      = (occ n (flat_map f ev) + occ n (heap_of f (queue (env w))))%nat)
  /\ beds w' = beds w /\ races w' = races w
  /\ patient_log w' = patient_log w.

Lemma gains_refl w : gains [] w w.
Proof. repeat split. Qed.

Lemma gains_trans l1 l2 w1 w2 w3 :
  gains l1 w1 w2 -> gains l2 w2 w3 -> gains (l2 ++ l1) w1 w3.
Proof.
  intros (A1 & A2 & A3 & A4) (B1 & B2 & B3 & B4). repeat split;
    try congruence.
  intros f n. rewrite B1, A1, flat_map_app, occ_app. lia.
Qed.

Lemma gains_schedule (w : World G) ev prio d :
  gains [ev] w (set_env w (schedule (env w) ev prio d)).
Proof.
  repeat split. intros f n. cbn [env set_env schedule queue flat_map].
  rewrite heap_of_heappush, app_nil_r. reflexivity.
Qed.

Lemma gains_succeed (w : World G) ev : gains [ev] w (succeed w ev).
Proof. apply gains_schedule. Qed.

Lemma gains_pop (w : World G) ev e :
  pop (env w) = Some (ev, e) -> gains [ev] (set_env w e) w.
Proof.
  unfold pop. destruct (queue (env w)) as [|x q] eqn:Hq; [discriminate|].
  intros [= <- <-]. repeat split. intros f n.
  cbn [env set_env queue flat_map]. rewrite Hq, app_nil_r.
  unfold heap_of. cbn [flat_map]. now rewrite occ_app.
Qed.

Lemma gains_staff_request (w : World G) s n :
  exists l, gains l w (staff_request w s n)
            /\ Forall (fun ev => exists s' n', ev = Staff_request s' n') l.
Proof.
  unfold staff_request.
  destruct (request (staff w s) n) as [r [k|]].
  - exists [Staff_request s k]. split.
    + destruct s; apply (gains_succeed (set_staff w _ r)).
    + repeat constructor. eauto.
  - exists []. split; [destruct s; repeat split | constructor].
Qed.

Lemma gains_patient_generator (w w' : World G) patient_id :
  patient_generator C w patient_id = Ok w' ->
  gains [Timeout_generator patient_id] w w'.
Proof.
  unfold patient_generator, bind.
  destruct (py_div 1 _); [|discriminate].
  destruct (np_random_exponential _ _) as [[d g]|]; [|discriminate].
  unfold timeout. destruct (Qlt_le_dec d 0); [discriminate|].
  intros [= <-]. apply (gains_schedule (set_rng w g)).
Qed.

(** Events that carry no patient and no counter. *)
Definition silent (ev : Event) : Prop :=
  token_of ev = [] /\ counter_of ev = [] /\ condition_of ev = []
  /\ holder_of ev = [].

Lemma silent_heap l f n :
  Forall silent l ->
  (f = token_of \/ f = counter_of \/ f = condition_of \/ f = holder_of) ->
  occ n (flat_map f l) = 0%nat.
Proof.
  intros Hl Hf. induction Hl as [|ev l (S1 & S2 & S3 & S4) _ IH];
    [reflexivity|].
  cbn [flat_map]. rewrite occ_app, IH.
  destruct Hf as [-> | [-> | [-> | ->]]];
    rewrite ?S1, ?S2, ?S3, ?S4; reflexivity.
Qed.


(** What a gain of events does to the places of patient [n]. *)
Lemma gains_places l (w w' : World G) n :
  gains l w w' ->
  tokens n w' = (occ n (flat_map token_of l) + tokens n w)%nat
  /\ counters n w' = (occ n (flat_map counter_of l) + counters n w)%nat
  /\ conditions n w' = (occ n (flat_map condition_of l) + conditions n w)%nat
  /\ holders n w' = (occ n (flat_map holder_of l) + holders n w)%nat
  /\ logged n w' = logged n w /\ in_bed n w' = in_bed n w
  /\ races w' = races w.
Proof.
  intros (H1 & H2 & H3 & H4).
  unfold tokens, counters, conditions, holders, logged, in_bed.
  rewrite !H1, H2, H4. repeat split; try lia. exact H3.
Qed.

(** Serving the queue of the bed pool [b] in a world [w]. *)
Definition beds_served (w : World G) (b : Resource BedRequest) : World G :=
  match snd (trigger_put b) with
  | Some r => succeed (set_beds w (fst (trigger_put b))) (Bed_request r)
  | None => set_beds w (fst (trigger_put b))
  end.

Lemma beds_served_places (w : World G) (b : Resource BedRequest) n :
  tokens n (beds_served w b) = tokens n (set_beds w b)
  /\ (in_bed n (beds_served w b) + holders n (set_beds w b)
      = in_bed n (set_beds w b) + holders n (beds_served w b))%nat
  /\ counters n (beds_served w b) = counters n w
  /\ conditions n (beds_served w b) = conditions n w
  /\ logged n (beds_served w b) = logged n w
  /\ races (beds_served w b) = races w.
Proof.
  unfold beds_served, trigger_put.
  destruct (put_queue b) as [|r rest] eqn:E; cbn [fst snd].
  - repeat split.
  - destruct (count b <? capacity b)%Z; cbn [fst snd]; [|repeat split].
    unfold tokens, in_bed, holders, counters, conditions, logged, succeed.
    cbn [env beds races patient_log set_env set_beds schedule queue users
         put_queue].
    rewrite !heap_of_heappush, E, map_app. cbn [e_event map].
    change (bed_name r :: map bed_name rest)
      with ([bed_name r] ++ map bed_name rest).
    rewrite !occ_app.
    cbn [token_of holder_of counter_of condition_of]. rewrite !occ_nil.
    repeat split; lia.
Qed.

Lemma beds_request_served (w : World G) req :
  beds_request w req
  = beds_served w {| capacity := capacity (beds w); users := users (beds w);
                     put_queue := put_queue (beds w) ++ [req] |}.
Proof.
  unfold beds_request, beds_served, request.
  destruct (trigger_put _) as [b [r|]]; reflexivity.
Qed.

Lemma trigger_put_beds_served (w : World G) :
  trigger_put_pool w Beds = beds_served w (beds w).
Proof.
  unfold trigger_put_pool, beds_served.
  destruct (trigger_put (beds w)) as [b [r|]]; reflexivity.
Qed.

Definition accounts (w : World G) : Prop := exists k, accounted k w.

Lemma ids_occ_le k n : (occ n (ids k) <= 1)%nat.
Proof.
  exact (proj1 (NoDup_count_occ Z.eq_dec (ids k)) (ids_NoDup k) n).
Qed.

Ltac one_event :=
  cbn [flat_map token_of counter_of condition_of holder_of app] in *;
  rewrite ?occ_nil, ?occ_one in *.

Lemma accounted_silent k (w w' : World G) l :
  accounted k w -> gains l w w' -> Forall silent l -> accounted k w'.
Proof.
  intros A Hg Hs n.
  destruct (gains_places l w w' n Hg) as (T & K & Cd & Hd & L & B & R).
  rewrite !(silent_heap l _ n Hs) in * by tauto.
  destruct (A n) as (A1 & A2 & A3 & A4). rewrite R.
  repeat split; lia.
Qed.

Lemma silent_staff_requests l :
  Forall (fun ev => exists s' n', ev = Staff_request s' n') l ->
  Forall silent l.
Proof.
  apply Forall_impl. intros ev (s' & n' & ->). repeat split.
Qed.

(** Popping an event that carries nothing. *)
Lemma accounted_popped_silent k (w0 w : World G) ev :
  gains [ev] w0 w -> accounted k w -> silent ev -> accounted k w0.
Proof.
  intros Hg A (S1 & S2 & S3 & S4) n.
  destruct (gains_places _ _ _ n Hg) as (T & K & Cd & Hd & L & B & R).
  destruct (A n) as (A1 & A2 & A3 & A4).
  cbn [flat_map] in *. rewrite S1, S2, S3, S4 in *.
  cbn [app] in *. rewrite ?occ_nil in *. rewrite <- R.
  repeat split; lia.
Qed.

(** The patient arrives. *)
Lemma accounted_patient k (w0 w : World G) nm :
  gains [Initialize_patient nm] w0 w -> accounted k w ->
  accounted k (patient w0 nm).
Proof.
  intros Hg A n.
  destruct (gains_places _ _ _ n Hg) as (T & K & Cd & Hd & L & B & R).
  destruct (A n) as (A1 & A2 & A3 & A4). one_event.
  unfold patient. destruct (count (beds w0) >=? capacity (beds w0))%Z.
  - unfold tokens, logged, counters, conditions, holders, in_bed in *.
    cbn [env beds races patient_log patient_log_append].
    rewrite map_app, occ_app. cbn [map name]. rewrite occ_one, <- R.
    repeat split; lia.
  - rewrite beds_request_served.
    set (b := {| capacity := _ |}).
    destruct (beds_served_places w0 b n) as (S1 & S2 & S3 & S4 & S5 & S6).
    assert (E1 : tokens n (set_beds w0 b)
                 = ((if Z.eq_dec nm n then 1 else 0) + tokens n w0)%nat).
    { unfold tokens, b. cbn [env beds set_beds put_queue].
      rewrite map_app, occ_app. cbn [map bed_name]. rewrite occ_one. lia. }
    assert (E2 : in_bed n (set_beds w0 b) = in_bed n w0) by reflexivity.
    assert (E3 : holders n (set_beds w0 b) = holders n w0) by reflexivity.
    rewrite S6, <- R. repeat split; lia.
Qed.

(** The generator creates the next patient. *)
Lemma accounted_generator k (w0 w w' : World G) patient_id :
  gains [Timeout_generator patient_id] w0 w -> accounted k w ->
  patient_generator_resume C w0 patient_id = Ok w' ->
  accounted (S k) w'.
Proof.
  intros Hg A. unfold patient_generator_resume. intros Hw.
  apply gains_patient_generator in Hw.
  pose proof (gains_trans _ _ _ _ _
                (gains_schedule w0 (Initialize_patient (patient_id + 1))
                                URGENT 0) Hw) as Hg'.
  assert (Hid : patient_id = Z.of_nat k).
  { destruct (gains_places _ _ _ patient_id Hg) as (_ & K & _).
    destruct (A patient_id) as (_ & A2 & _). one_event.
    destruct (Z.eq_dec patient_id patient_id); [|congruence].
    destruct (Z.eq_dec (Z.of_nat k) patient_id); [congruence | lia]. }
  subst patient_id. intros n.
  destruct (gains_places _ _ _ n Hg) as (T & K & Cd & Hd & L & B & R).
  destruct (gains_places _ _ _ n Hg')
    as (T' & K' & Cd' & Hd' & L' & B' & R').
  destruct (A n) as (A1 & A2 & A3 & A4).
  cbn [ids]. change (Z.of_nat (S k) :: ids k) with ([Z.of_nat (S k)] ++ ids k).
  rewrite occ_app.
  replace (Z.of_nat (S k)) with (Z.of_nat k + 1)%Z by lia.
  one_event. rewrite R', <- R.
  destruct (Z.eq_dec (Z.of_nat k) n), (Z.eq_dec (Z.of_nat k + 1) n);
    repeat split; lia.
Qed.

(** The patient has a bed and asks for staff. *)
Lemma accounted_patient_bedded k (w0 w : World G) req :
  gains [Bed_request req] w0 w -> accounted k w ->
  accounted k (patient_bedded w0 req).
Proof.
  intros Hg A. unfold patient_bedded.
  destruct (gains_staff_request w0 Senior (bed_name req)) as (l1 & G1 & S1).
  destruct (gains_staff_request (staff_request w0 Senior (bed_name req))
              Junior (bed_name req)) as (l2 & G2 & S2).
  pose proof (gains_trans _ _ _ _ _ G1 G2) as G12.
  assert (S12 : Forall silent (l2 ++ l1)).
  { apply silent_staff_requests, Forall_app. split; assumption. }
  set (w2 := staff_request _ Junior _) in *.
  intros n.
  destruct (gains_places _ _ _ n Hg) as (T & K & Cd & Hd & L & B & R).
  destruct (gains_places _ _ _ n G12) as (T' & K' & Cd' & Hd' & L' & B' & R').
  rewrite !(silent_heap _ _ n S12) in * by tauto.
  destruct (A n) as (A1 & A2 & A3 & A4). one_event.
  pose proof (ids_occ_le k n) as Hle.
  pose proof (pending_le_racing n (races w)) as Hpr.
  unfold tokens, logged, counters, conditions, holders, in_bed in *.
  cbn [env beds races patient_log set_race].
  rewrite racing_set, pending_set. cbn [built triggered andb].
  rewrite R', <- R.
  destruct (Z.eq_dec (bed_name req) n); repeat split; lia.
Qed.

(** A granted staff request fires. *)
Lemma accounted_staff_request_fired k (w0 w : World G) s nm :
  gains [Staff_request s nm] w0 w -> accounted k w ->
  accounted k (staff_request_fired w0 s nm).
Proof.
  intros Hg A.
  pose proof (accounted_popped_silent k _ _ _ Hg A
                (conj eq_refl (conj eq_refl (conj eq_refl eq_refl)))) as A0.
  clear Hg A. unfold staff_request_fired.
  destruct (race_get nm (races w0)) as [r|] eqn:Hr; [|exact A0].
  set (r' := {| race_arrival_time := _ |}).
  assert (Hrace : forall n,
             racing n (race_set nm r' (races w0)) = racing n (races w0)).
  { intros n. rewrite racing_set. destruct (Z.eq_dec nm n) as [<-|]; [|easy].
    unfold racing. rewrite Hr. reflexivity. }
  assert (Hpend : forall n,
             pending n (race_set nm r' (races w0))
             = if Z.eq_dec nm n
               then (if built r then 0%nat else 1%nat)
               else pending n (races w0)).
  { intros n. rewrite pending_set. destruct (Z.eq_dec nm n); [|easy].
    cbn [r' triggered built]. destruct (triggered r), (built r); reflexivity. }
  assert (Hold : pending nm (races w0)
                 = if (triggered r && negb (built r))%bool
                   then 1%nat else 0%nat).
  { unfold pending. now rewrite Hr. }
  destruct (built r || triggered r)%bool eqn:Hb.
  - intros n. destruct (A0 n) as (A1 & A2 & A3 & A4).
    unfold tokens, logged, counters, conditions, holders, in_bed in *.
    cbn [env beds races patient_log set_race].
    rewrite Hrace, Hpend.
    destruct (Z.eq_dec nm n) as [<-|]; [|repeat split; lia].
    rewrite Hold in A3.
    destruct (built r), (triggered r); cbn in *; try discriminate;
      repeat split; lia.
  - intros n. destruct (A0 n) as (A1 & A2 & A3 & A4).
    destruct (gains_places _ _ _ n
                (gains_succeed (set_race w0 nm r') (Condition nm)))
      as (T & K & Cd & Hd & L & B & R).
    one_event. rewrite R.
    unfold tokens, logged, counters, conditions, holders, in_bed in *.
    cbn [env beds races patient_log set_race] in *.
    rewrite Hrace, Hpend.
    destruct (Z.eq_dec nm n) as [<-|]; [|repeat split; lia].
    rewrite Hold in A3.
    destruct (built r), (triggered r); cbn in *; try discriminate;
      repeat split; lia.
Qed.

(** The condition fires: the patient is assigned staff. *)
Lemma accounted_patient_assigned k (w0 w w' : World G) nm :
  gains [Condition nm] w0 w -> accounted k w ->
  patient_assigned C w0 nm = Ok w' -> accounted k w'.
Proof.
  intros Hg A.
  assert (Hp : pending nm (races w0) = 1%nat).
  { destruct (gains_places _ _ _ nm Hg) as (_ & _ & Cd & _ & _ & _ & R).
    destruct (A nm) as (_ & _ & A3 & _). one_event.
    destruct (Z.eq_dec nm nm); [|congruence].
    unfold pending in *. rewrite <- R.
    destruct (race_get nm (races w)) as [r|]; [|lia].
    destruct (triggered r && negb (built r))%bool; lia. }
  unfold patient_assigned.
  destruct (race_get nm (races w0)) as [r|] eqn:Hr;
    [|unfold pending in Hp; rewrite Hr in Hp; discriminate].
  assert (Hbt : built r = false /\ triggered r = true).
  { unfold pending in Hp. rewrite Hr in Hp.
    destruct (triggered r), (built r); cbn in Hp; try discriminate; auto. }
  destruct Hbt as [Hb Htr].
  set (r1 := {| race_arrival_time := _ |}).
  unfold bind.
  destruct (mu_ideal_of _ _) as [mi|]; [|discriminate].
  destruct (mu_actual _ _ _) as [mu|]; [|discriminate].
  destruct (py_div 1 _) as [sc|]; [|discriminate].
  destruct (np_random_exponential _ _) as [[d g]|]; [|discriminate].
  unfold timeout. destruct (Qlt_le_dec d 0); [discriminate|].
  intros [= <-]. intros n.
  destruct (gains_places _ _ _ n Hg) as (T & K & Cd & Hd & L & B & R).
  destruct (gains_places _ _ _ n
              (gains_schedule (set_rng (set_race w0 nm r1) g)
                 (Timeout_treatment nm (race_arrival_time r)
                    (race_bed_assign_time r) (now (env (set_race w0 nm r1)))
                    (if senior_processed r then Senior else Junior))
                 NORMAL d))
    as (T' & K' & Cd' & Hd' & L' & B' & R').
  destruct (A n) as (A1 & A2 & A3 & A4). one_event.
  change (env (set_rng (set_race w0 nm r1) g)) with (env w0) in *.
  change (env (set_race w0 nm r1)) with (env w0) in *.
  rewrite R'.
  unfold tokens, logged, counters, conditions, holders, in_bed in *.
  cbn [env beds races patient_log set_race set_rng] in *.
  rewrite racing_set, pending_set. cbn [r1 built triggered andb negb].
  rewrite Bool.andb_false_r.
  rewrite <- R in *.
  destruct (Z.eq_dec nm n) as [<-|]; [|repeat split; lia].
  unfold racing in *. unfold pending in A3. rewrite Hr in *.
  rewrite Hb, Htr in *. cbn in A3. repeat split; lia.
Qed.

(** The treatment ends: the patient is logged and leaves the bed. *)
Lemma accounted_patient_treated k (w0 w : World G) nm a b c st :
  gains [Timeout_treatment nm a b c st] w0 w -> accounted k w ->
  accounted k (patient_treated w0 nm a b c st).
Proof.
  intros Hg A n.
  destruct (gains_places _ _ _ n Hg) as (T & K & Cd & Hd & L & B & R).
  destruct (A n) as (A1 & A2 & A3 & A4). one_event.
  unfold patient_treated, succeed.
  unfold tokens, logged, counters, conditions, holders, in_bed in *.
  assert (Hq : queue (env (set_staff w0 st
                             (release (staff w0 st) (Z.eqb nm))))
               = queue (env w0)) by (destruct st; reflexivity).
  assert (Hb : beds (set_staff w0 st (release (staff w0 st) (Z.eqb nm)))
               = beds w0) by (destruct st; reflexivity).
  assert (Hr : races (set_staff w0 st (release (staff w0 st) (Z.eqb nm)))
               = races w0) by (destruct st; reflexivity).
  assert (Hl : patient_log (set_staff w0 st
                              (release (staff w0 st) (Z.eqb nm)))
               = patient_log w0) by (destruct st; reflexivity).
  cbn [env beds races patient_log set_env set_beds
       patient_log_append schedule queue release users put_queue].
  rewrite !heap_of_heappush. cbn [e_event].
  rewrite Hq, Hb, Hr, Hl.
  rewrite occ_list_remove, map_app, occ_app. cbn [map name].
  cbn [token_of counter_of condition_of holder_of app]. rewrite ?occ_nil, occ_one.
  rewrite <- R.
  destruct (Z.eq_dec nm n); repeat split; lia.
Qed.

(** Every event keeps the account. *)
Lemma script_accounts_step (w w' : World G) :
  accounts w -> after_step (step C w) = Some w' -> accounts w'.
Proof.
  intros [k A]. unfold step.
  destruct (pop (env w)) as [[ev e]|] eqn:Hp;
    [|intros [= <-]; now exists k].
  pose proof (gains_pop w ev e Hp) as Hg.
  destruct ev as [| n | | pid | req | s n | n | n a b c st | pool];
    cbn [after_step continue].
  - destruct (patient_generator _ _ _) as [w1|] eqn:Hw; intros [= <-].
    apply gains_patient_generator in Hw.
    assert (k = 0%nat).
    { destruct (gains_places _ _ _ 0%Z Hg) as (_ & K & _).
      destruct (A 0%Z) as (_ & A2 & _). one_event.
      destruct (Z.eq_dec 0 0); [|congruence].
      destruct (Z.eq_dec (Z.of_nat k) 0); lia. }
    subst k. exists 0%nat. intros m.
    destruct (gains_places _ _ _ m Hg) as (T & K & Cd & Hd & L & B & R).
    destruct (gains_places _ _ _ m Hw) as (T' & K' & Cd' & Hd' & L' & B' & R').
    destruct (A m) as (A1 & A2 & A3 & A4). one_event.
    rewrite R', <- R. repeat split; lia.
  - intros [= <-]. exists k. exact (accounted_patient k _ _ n Hg A).
  - intros [= <-]. exists k.
    exact (accounted_popped_silent k _ _ Until Hg A
             (conj eq_refl (conj eq_refl (conj eq_refl eq_refl)))).
  - destruct (patient_generator_resume _ _ _) as [w1|] eqn:Hw; intros [= <-].
    exists (S k). exact (accounted_generator k _ _ _ pid Hg A Hw).
  - intros [= <-]. exists k. exact (accounted_patient_bedded k _ _ req Hg A).
  - intros [= <-]. exists k.
    exact (accounted_staff_request_fired k _ _ s n Hg A).
  - destruct (patient_assigned _ _ _) as [w1|] eqn:Hw; intros [= <-].
    exists k. exact (accounted_patient_assigned k _ _ _ n Hg A Hw).
  - intros [= <-]. exists k.
    exact (accounted_patient_treated k _ _ n a b c st Hg A).
  - intros [= <-]. exists k.
    pose proof (accounted_popped_silent k _ _ (Release pool) Hg A
                  (conj eq_refl (conj eq_refl (conj eq_refl eq_refl))))
      as A0.
    destruct pool.
    + rewrite trigger_put_beds_served. intros m.
      destruct (beds_served_places (set_env w e) (beds (set_env w e)) m)
        as (S1 & S2 & S3 & S4 & S5 & S6).
      destruct (A0 m) as (A1 & A2 & A3 & A4).
      assert (E1 : tokens m (set_beds (set_env w e) (beds (set_env w e)))
                   = tokens m (set_env w e)) by reflexivity.
      assert (E2 : in_bed m (set_beds (set_env w e) (beds (set_env w e)))
                   = in_bed m (set_env w e)) by reflexivity.
      assert (E3 : holders m (set_beds (set_env w e) (beds (set_env w e)))
                   = holders m (set_env w e)) by reflexivity.
      rewrite S6. repeat split; lia.
    + unfold trigger_put_pool.
      destruct (trigger_put (staff_senior (set_env w e))) as [r [k0|]].
      * apply (accounted_silent k _ _ [Staff_request Senior k0] A0
                 (gains_succeed (set_staff (set_env w e) Senior r) _)).
        repeat constructor.
      * exact A0.
    + unfold trigger_put_pool.
      destruct (trigger_put (staff_junior (set_env w e))) as [r [k0|]].
      * apply (accounted_silent k _ _ [Staff_request Junior k0] A0
                 (gains_succeed (set_staff (set_env w e) Junior r) _)).
        repeat constructor.
      * exact A0.
Qed.

(** Every state of a run of the script keeps the account. *)
Lemma script_accounts_main fuel (g0 : rng_state G) (w : World G) :
  after_run (main C fuel g0) = Some w -> accounts w.
Proof.
  unfold main, Resource_init, bind, env_run.
  destruct (NUM_BEDS C <=? 0)%Z; [discriminate|].
  destruct (NUM_SENIOR_STAFF C <=? 0)%Z; [discriminate|].
  destruct (NUM_JUNIOR_STAFF C <=? 0)%Z; [discriminate|].
  cbn [env].
  destruct (Qle_bool _ _); [discriminate|].
  apply (script_run_loop_keeps C accounts script_accounts_step).
  exists 0%nat. intros n.
  unfold tokens, logged, counters, conditions, holders, in_bed.
  cbn [env beds races patient_log set_env put_queue users schedule queue
       Environment_init map ids].
  rewrite !heap_of_heappush. cbn [e_event heap_of flat_map].
  cbn [token_of counter_of condition_of holder_of app].
  unfold racing, pending. cbn [race_get Nat.add Z.of_nat].
  rewrite ?occ_app, ?occ_nil. repeat split; lia.
Qed.



(** A patient whose condition is the next event holds a bed. *)
Lemma accounted_condition_in_bed k (w : World G) nm e :
  accounted k w -> pop (env w) = Some (Condition nm, e) ->
  In nm (map bed_name (users (beds w))).
Proof.
  intros Hk Hp. apply (count_occ_In Z.eq_dec).
  destruct (Hk nm) as (_ & _ & K3 & K4).
  pose proof (pending_le_racing nm (races w)) as Hle.
  assert (Hc : (1 <= conditions nm w)%nat).
  { unfold conditions, pop in *.
    destruct (queue (env w)) as [|x q]; [discriminate|].
    injection Hp as Hx _. unfold heap_of. cbn [flat_map].
    rewrite Hx, occ_app. cbn [condition_of]. rewrite occ_one.
    destruct (Z.eq_dec nm nm); [lia | congruence]. }
  unfold in_bed, occ in *. lia.
Qed.

End Tally.
End ScriptIds.



(** X22. The guard [if n == 0: n = 1] of the script's [patient] is never
    taken.  In every state that a run of the script reaches, when the
    next event resumes a patient at [yield senior_req | junior_req],
    that patient holds a bed, so [hospital['beds'].count] is at least 1
    and [mu_actual] is [mu_ideal * min(1, ALPHA * s / n)] with [n] the
    number of beds in use. *)
Theorem script_workload_guard_is_never_taken :
  forall (G : Generator) (C : Script.Constants) (fuel : nat)
         (g0 : rng_state G) (w : Script.World G) (name : Z)
         (e : SimPy.Environment Script.Event),
    ScriptFacts.after_run (Script.main C fuel g0) = Some w ->
    SimPy.pop (Script.env w) = Some (Script.Condition name, e) ->
    In name (map Script.bed_name (SimPy.users (Script.beds w)))
    /\ (1 <= SimPy.count (Script.beds w))%Z
    /\ forall mu_ideal : Q,
        Script.mu_actual C (Script.set_env w e) mu_ideal
        = bind (py_div (Script.ALPHA C
                        * inject_Z (Script.NUM_SENIOR_STAFF C
                                    + Script.NUM_JUNIOR_STAFF C))
                       (inject_Z (SimPy.count (Script.beds w))))
               (fun ratio => Ok (mu_ideal * py_min 1 ratio)).
Proof.
  intros G C fuel g0 w name e Hrun Hpop.
  destruct (ScriptIds.script_accounts_main C fuel g0 w Hrun) as [k Hk].
  pose proof (ScriptIds.accounted_condition_in_bed k w name e Hk Hpop)
    as Hin.
  assert (Hc : (1 <= SimPy.count (Script.beds w))%Z).
  { unfold SimPy.count.
    destruct (SimPy.users (Script.beds w)) as [|r l]; [destruct Hin|].
    cbn [List.length]. lia. }
  split; [exact Hin|]. split; [exact Hc|].
  intros mu_ideal. unfold Script.mu_actual.
  change (Script.beds (Script.set_env w e)) with (Script.beds w).
  destruct (SimPy.count (Script.beds w) =? 0)%Z eqn:E; [|reflexivity].
  apply Z.eqb_eq in E. lia.
Qed.

Lemma script_workload_guard_witness :
  exists (w : Script.World lone_patient) e,
    ScriptFacts.after_run (@Script.main lone_patient one_of_each 6 [])
    = Some w
    /\ SimPy.pop (Script.env w) = Some (Script.Condition 1, e)
    /\ (1 <= SimPy.count (Script.beds w))%Z.
Proof.
  eexists. eexists. split; [vm_compute; reflexivity|].
  split; [vm_compute; reflexivity|].
  refine (proj1 (proj2 (script_workload_guard_is_never_taken
                          lone_patient one_of_each 6%nat [] _ 1%Z _ _ _))).
  - vm_compute; reflexivity.
  - vm_compute; reflexivity.
Defined.
